(* ===== verification/_CoqProject ===== *)
-Q . S2P
Prelude.v
Json.v
Imagga.v
Confidence.v
Colors.v
Tags.v
Metrics.v
Scene.v
Server.v
Faces.v
Router.v
Wire.v
Dom.v
Render.v
Client.v
Flow.v
