(* ===== verification/Prelude.v ===== *)
(** * The Imagga scene-analysis proxy and its browser client: a verification library

    ** The program

    [src/server.js] is an Express server in front of the Imagga image
    API.  [POST /api/analyze] takes an uploaded file or an image URL,
    asks Imagga for tags, colors and auto-tagging ([analyzeImageFull],
    retried once on a 5xx on the upload path) and answers
    [{source, data, context}], where [context] is synthesized by
    [generateSceneContext] from the three result sets (confidence levels,
    color analysis, tag categories, scene heuristics, composition
    metrics).  [/api/detect-faces], [/api/create-index] and
    [/api/recognize-face/:indexId] forward the face services.
    [src/public/app.js] is the page script: its event handlers post the
    form, detect and recognize faces, and render each JSON answer into the
    page's results area, reporting progress and errors in a status line.

    ** Files, in dependency order

    - [Prelude]: the JavaScript built-ins the code relies on ([||]
      defaults, truthiness, [slice], [reduce], [toFixed(2)], [Math.min],
      ASCII [toLowerCase], [includes], [join]), the [js_scope] notations,
      the tactics [qcase] and [zlia] and the hint databases [scene] and
      [scene_rw].
    - [Imagga] ([Payload]): the tag and color entries of Imagga bodies.
    - [Confidence] ([Conf]): [getConfidenceLevel], the per-item
      confidence conversion, [calculateAverageConfidence].
    - [Colors] ([Color]): [hexToRgb], [calculateBrightness],
      [colorNameFromHex], [analyzeColorHarmony], [calculateVibrancy],
      [analyzeColorsAdvanced].
    - [Tags]: [categorizeTags] and the scene heuristics [detectSceneType],
      [detectSetting], [detectMood], [findDominantTheme],
      [generateDetailedSceneDescription].
    - [Metrics]: [calculateSceneMetrics], [calculateComplexity].
    - [Scene]: [generateSceneContext], composing the four above.
    - [Server]: [getAuthHeader], [analyzeImageFull] and the
      [/api/analyze] handler in a request monad [M] (the trace of upstream
      calls and an exception); Imagga is the class [Upstream], an answer
      for the [n]-th call, so every theorem holds for every upstream.
    - [Faces]: the three face endpoints in the same monad.
    - [Router]: the Express application in front of the handlers: static
      files, the route table matched as path-to-regexp matches it, the
      decoding of [:indexId] and the [qs] parsing of [req.query]; [app]
      runs the handler a request is routed to.
    - [Json]: JSON values, [undefined], property reads that throw,
      truthiness, and the class [ToJson] of what [res.json] sends.
    - [Wire]: the [ToJson] instances of every body the server sends.
    - [Dom]: the page ([Page]: status line, its color, results, preview)
      and the client's UI monad (state passing with a thrown [Error]).
    - [Render]: [renderResponse], [renderAdvancedSceneContext] section by
      section, [renderSceneContext], [renderFaceDetectionResults],
      [renderRecognitionResults].
    - [Client]: the event handlers and the continuations of their
      asynchronous work as a state machine: a [Client] is the page and its
      pending tasks, an [Event] a user action or the settlement of the
      [i]-th task, [handle] the transition function, [step] and
      [reachable] the relation and its closure.
    - [Flow]: the two programs composed: a server answer serialized by
      [Wire] and rendered by [Client].

    ** The theorems

    - Synthesis ([Scene], [Tags], [Confidence], [Colors]): the context is
      built whatever sections are missing, the categorization is a
      partition, levels and averages on both confidence scales, the
      display caps and ranges, the stable color sort, nearest color names,
      the [hexToRgb] round trip, and the divergences found (raw 0.5
      threshold, mood divided by 3, brightness on 0-255, a harmony that
      depends only on the first two hex codes received, dead [concepts]
      keywords, substring keywords).
    - Endpoints ([Server], [Faces]): the retry discipline (a retry exactly
      on a 5xx status, none on a failure without a response), termination
      after at most 7 requests, partial failures, errors and the answers
      of each path.
    - Client ([Client]): the preview invariant under sequential reads and,
      from any state, its race (both images kept in load order, detection
      on the first loaded), the status line well-formed in every reachable
      state, every awaited fetch ending its progress message, the blob
      path leaving the page unchanged on a network failure from any state,
      and the last-settled answer winning.
    - Composition ([Flow]): the category section refines the server's
      categorization; the tag list is never shown, a bad hex shows a
      network error, failed blob detections show 'no faces', URL
      detections crash on [face.id], no face is ever listed, and stored
      person ids reach [innerHTML] unescaped; the recognize request
      round-trips through the router for ids of unreserved characters,
      and is cut at an ['&'] or ['#'] or refused with a 400 on a bad
      ['%'] escape, since the client does not encode the ids.

    ** Modelling choices and bounds

    JavaScript numbers are exact rationals [Q] (no rounding error; [toFixed]
    and [Math.round] are written out with [Qfloor]); square roots are
    compared through squares.  Strings are Stdlib strings and
    [toLowerCase] and [trim] act on ASCII.  No definition needs fuel: every
    loop of the code is over a list and is a structural [Fixpoint], and a
    handler issues a bounded number of requests.  Text on the page is a
    list of pieces (literals, numbers as [String(n)] or [toFixed],
    [JSON.stringify]) so no decimal printing is needed; CSS is not kept;
    an [innerHTML] template is kept as its markup text.  Client [File]s
    carry the data URL their [FileReader] produces; the order of
    asynchronous settlements is free (any pending task may settle next).
    Percent-decoding is on bytes (UTF-8 validity is not checked); the
    browser's percent-encoding of spaces, quotes and non-ASCII bytes,
    which the server's decoding undoes, is not written out, and the
    round-trip theorem is stated for ids of unreserved characters that
    are not dot segments, on which the browser changes nothing.

    ** Not modelled

    The Express middleware without logic of the program ([cors], the JSON
    and urlencoded body parsers and their error answers, [multer]'s
    multipart parsing) and [app.listen]; bracketed query keys, reported as
    [QNested]; the Imagga service itself (any answer is allowed); the
    base64 encoding of the credentials (kept as the key and secret);
    canvas pixels and the blob content.  The face copy button (its
    [onclick] writes [face.id] to the clipboard and resets its label
    with a timer) is not modelled: the clipboard and timers are outside
    the page, and the button is never created for an answer of this
    server ([server_faces_never_listed]). *)

From Stdlib Require Import QArith Qround ZArith String Ascii List Bool Lia Lqa Psatz.
Import ListNotations.

(** ** JavaScript numbers

    Every [number] of the source is modelled as an exact rational [Q].
    The comparisons of the source ([>], [>=], [<]) become boolean tests. *)

Definition Qltb (x y : Q) : bool := negb (Qle_bool y x).

Declare Scope js_scope.
Delimit Scope js_scope with js.
Notation "x <=? y" := (Qle_bool x y) : js_scope.
Notation "x <? y" := (Qltb x y) : js_scope.
Notation "x >=? y" := (Qle_bool y x) (at level 70, no associativity) : js_scope.
Notation "x >? y" := (Qltb y x) (at level 70, no associativity) : js_scope.

(** [x || 0] on an optional number: an absent field (and [0]) gives [0]. *)
Definition or0 (o : option Q) : Q :=
  match o with Some q => q | None => 0 end.

(** [s || d] on an optional string: an absent field and the empty string
    (both falsy in JavaScript) give the default [d]. *)
Definition str_or (o : option string) (d : string) : string :=
  match o with
  | Some ""%string | None => d
  | Some s => s
  end.

(** [if (s)] on an optional string: present and non-empty. *)
Definition truthy_str (o : option string) : bool :=
  match o with None | Some EmptyString => false | Some _ => true end.

(** [arr.slice(0, n)]. *)
Definition slice {A} (n : nat) (l : list A) : list A := firstn n l.

(** [arr.reduce((a, b) => a + b)] on a non-empty array: a left fold that
    starts from the first element. *)
Definition reduce_add (x : Q) (xs : list Q) : Q := fold_left Qplus xs x.

(** [parseFloat(x.toFixed(2))]: rounding to two decimals, halves away from
    zero (toFixed rounds the magnitude, keeping the sign). *)
Definition round2_pos (q : Q) : Q := inject_Z (Qfloor (q * 100 + (1 # 2))) / 100.
Definition to_fixed2 (q : Q) : Q :=
  if Qltb q 0 then - round2_pos (- q) else round2_pos q.

(** The sum of [f] over a list (the mathematical sum the folds compute). *)
Definition Qsum {A} (f : A -> Q) (l : list A) : Q := fold_right (fun x acc => f x + acc) 0 l.

(** [Math.min(n, 10)] on an array length. *)
Definition min10 (n : nat) : nat := Nat.min n 10.

(** ** JavaScript strings (ASCII)

    [toLowerCase] on the ASCII range, [String.prototype.includes] and
    [Array.prototype.join]. *)

Definition lower_char (c : ascii) : ascii :=
  let n := nat_of_ascii c in
  if (65 <=? n)%nat && (n <=? 90)%nat then ascii_of_nat (n + 32) else c.

Fixpoint lower (s : string) : string :=
  match s with
  | EmptyString => EmptyString
  | String c s' => String (lower_char c) (lower s')
  end.

(** [s.includes(kw)]: [kw] occurs at some position of [s]. *)
Fixpoint contains (s kw : string) : bool :=
  prefix kw s ||
  match s with
  | EmptyString => false
  | String _ s' => contains s' kw
  end.

(** [list.join(sep)]. *)
Fixpoint join (sep : string) (l : list string) : string :=
  match l with
  | [] => EmptyString
  | [x] => x
  | x :: xs => (x ++ sep ++ join sep xs)%string
  end.

(** [c] occurs in [s]. *)
Fixpoint has_char (c : ascii) (s : string) : bool :=
  match s with
  | EmptyString => false
  | String c' s' => Ascii.eqb c c' || has_char c s'
  end.

(** ** Automation *)

Create HintDb scene discriminated.
Create Rewrite HintDb scene_rw.

Lemma str_or_truthy (s d : string) : truthy_str (Some s) = true -> str_or (Some s) d = s.
Proof. destruct s; simpl; congruence. Qed.

Lemma Qle_boolP (x y : Q) : reflect (x <= y) (Qle_bool x y).
Proof. apply iff_reflect. symmetry. apply Qle_bool_iff. Qed.

Lemma QltbP (x y : Q) : reflect (x < y) (Qltb x y).
Proof.
  unfold Qltb. destruct (Qle_boolP y x); constructor; [lra | lra].
Qed.

(** Case analysis on every numeric test of the goal, innermost first, with
    the fact it decides in context. *)
Ltac no_test t :=
  lazymatch t with
  | context [Qle_bool _ _] => fail
  | context [Qltb _ _] => fail
  | _ => idtac
  end.

(** [lia] after eliminating integer division and modulo by constants. *)
Ltac zlia := Z.div_mod_to_equations; lia.

Ltac qcase :=
  repeat match goal with
  | |- context [Qle_bool ?x ?y] => no_test x; no_test y; destruct (Qle_boolP x y)
  | |- context [Qltb ?x ?y] => no_test x; no_test y; destruct (QltbP x y)
  end.

Lemma slice_length_le {A} (n : nat) (l : list A) : (length (slice n l) <= n)%nat.
Proof. unfold slice. rewrite length_firstn. lia. Qed.

Lemma slice_incl {A} (n : nat) (l : list A) : incl (slice n l) l.
Proof.
  unfold slice. intros x Hx. rewrite <- (firstn_skipn n l). apply in_or_app; auto.
Qed.

Lemma slice_slice {A} (n m : nat) (l : list A) :
  slice n (slice m l) = slice (Nat.min n m) l.
Proof. unfold slice. apply firstn_firstn. Qed.

Lemma slice_map {A B} (f : A -> B) (n : nat) (l : list A) :
  slice n (map f l) = map f (slice n l).
Proof. unfold slice. apply firstn_map. Qed.

#[export] Hint Resolve slice_length_le slice_incl : scene.
#[export] Hint Rewrite @slice_slice @slice_map : scene_rw.

(** ** Substring search *)

Lemma string_app_assoc (a b c : string) : ((a ++ b) ++ c = a ++ b ++ c)%string.
Proof. induction a as [|x a IH]; simpl; [reflexivity | now rewrite IH]. Qed.

Lemma prefix_spec (kw s : string) : prefix kw s = true <-> exists q, s = (kw ++ q)%string.
Proof.
  revert s; induction kw as [|k kw IH]; intros [|c s]; simpl.
  - split; [now exists EmptyString | reflexivity].
  - split; [now exists (String c s) | reflexivity].
  - split; [discriminate | intros [q Hq]; discriminate].
  - destruct (ascii_dec k c) as [->|Hne].
    + rewrite IH. split; intros [q Hq]; exists q; congruence.
    + split; [discriminate | intros [q Hq]; congruence].
Qed.

Lemma contains_spec (s kw : string) :
  contains s kw = true <-> exists p q, s = (p ++ kw ++ q)%string.
Proof.
  induction s as [|c s IH]; cbn [contains]; rewrite orb_true_iff, prefix_spec.
  - split.
    + intros [[q Hq]|H]; [now exists EmptyString, q | discriminate].
    + intros [[|? p] [q Hq]]; [left; now exists q | discriminate].
  - rewrite IH. split.
    + intros [[q Hq]|[p [q Hq]]]; [now exists EmptyString, q |].
      exists (String c p), q. now rewrite Hq.
    + intros [[|c' p] [q Hq]]; [left; now exists q |].
      right. injection Hq as -> ->. eauto.
Qed.

Section Separator.
(** A keyword [kw] that does not contain the separator [c]. *)
Variables (c : ascii) (kw : string).
Hypothesis kw_sep : has_char c kw = false.
Hypothesis kw_nonempty : kw <> EmptyString.

Lemma prefix_before_sep (x y q : string) :
  (kw ++ q = x ++ String c y)%string -> exists q', x = (kw ++ q')%string.
Proof.
  clear kw_nonempty. revert x kw_sep.
  induction kw as [|k kw' IH]; intros x Hsep H; [now exists x |].
  simpl in Hsep. apply orb_false_iff in Hsep as [Hk Hsep].
  destruct x as [|x0 x]; simpl in H; injection H as Hx Hrest.
  - subst k. now rewrite Ascii.eqb_refl in Hk.
  - destruct (IH x Hsep Hrest) as [q' ->]. exists q'. now subst.
Qed.

Lemma occurrence_split (a b p q : string) :
  (a ++ String c b = p ++ kw ++ q)%string ->
  (exists q', a = (p ++ kw ++ q')%string) \/ (exists p', b = (p' ++ kw ++ q)%string).
Proof.
  revert p; induction a as [|a0 a IH]; intros [|p0 p] H; simpl in H.
  - destruct (prefix_before_sep EmptyString b q (eq_sym H)) as [q' Hq'].
    destruct kw; [contradiction | discriminate].
  - injection H as -> Hb. right. eauto.
  - left.
    destruct (prefix_before_sep (String a0 a) b q (eq_sym H)) as [q' Hq'].
    exists q'. exact Hq'.
  - injection H as -> Hrest. destruct (IH p Hrest) as [[q' ->]|[p' ->]].
    + left. now exists q'.
    + right. now exists p'.
Qed.

Lemma contains_app_sep (a b : string) :
  contains (a ++ String c b) kw = contains a kw || contains b kw.
Proof.
  apply eq_iff_eq_true. rewrite orb_true_iff, !contains_spec. split.
  - intros [p [q H]]. destruct (occurrence_split a b p q H) as [[q' ->]|[p' ->]]; eauto.
  - intros [[p [q ->]]|[p [q ->]]].
    + exists p, (q ++ String c b)%string. now rewrite !string_app_assoc.
    + exists (a ++ String c p)%string, q. now rewrite string_app_assoc.
Qed.

(** Searching a keyword in the space-joined labels is searching it in
    each label: the match cannot straddle a separator. *)
Lemma contains_join (l : list string) :
  contains (join (String c EmptyString) l) kw = existsb (fun n => contains n kw) l.
Proof.
  induction l as [|x [|y l] IH].
  - simpl. destruct kw as [|k kw']; [contradiction | reflexivity].
  - simpl. now rewrite orb_false_r.
  - change (join (String c EmptyString) (x :: y :: l))
      with (x ++ String c (join (String c EmptyString) (y :: l)))%string.
    rewrite contains_app_sep, IH. reflexivity.
Qed.
End Separator.

(** ** Sums *)

Lemma fold_left_Qplus {A} (f : A -> Q) (l : list A) (a : Q) :
  fold_left (fun acc x => acc + f x) l a == a + Qsum f l.
Proof.
  revert a; induction l as [|x l IH]; intros a; simpl.
  - ring.
  - rewrite IH. ring.
Qed.

Lemma Qsum_bounds {A} (f : A -> Q) (lo hi : Q) (l : list A) :
  (forall x, In x l -> lo <= f x <= hi) ->
  inject_Z (Z.of_nat (length l)) * lo <= Qsum f l <= inject_Z (Z.of_nat (length l)) * hi.
Proof.
  unfold Qsum; induction l as [|x l IH]; intros H; cbn [length fold_right].
  - change (inject_Z (Z.of_nat 0)) with 0. lra.
  - rewrite Nat2Z.inj_succ, <- Z.add_1_r, inject_Z_plus.
    destruct (H x (or_introl eq_refl)).
    destruct IH as [IH1 IH2]; [intros y Hy; apply H; now right |].
    rewrite !Qmult_plus_distr_l. change (inject_Z 1) with 1. rewrite !Qmult_1_l.
    set (a := inject_Z (Z.of_nat (length l)) * lo) in *.
    set (b := inject_Z (Z.of_nat (length l)) * hi) in *.
    split; lra.
Qed.

(** Dividing a sum bounded by [n * lo] and [n * hi] by [n > 0]. *)
Lemma Qdiv_count_bounds (s lo hi : Q) (n : nat) :
  (0 < n)%nat ->
  inject_Z (Z.of_nat n) * lo <= s <= inject_Z (Z.of_nat n) * hi ->
  lo <= s / inject_Z (Z.of_nat n) <= hi.
Proof.
  intros Hn [H1 H2].
  assert (Hpos : 0 < inject_Z (Z.of_nat n)).
  { rewrite <- (Qmult_0_l 1). change (inject_Z 0 * 1 < inject_Z (Z.of_nat n)).
    rewrite Qmult_1_r, <- Zlt_Qlt. lia. }
  split.
  - apply Qle_shift_div_l; [exact Hpos | lra].
  - apply Qle_shift_div_r; [exact Hpos | lra].
Qed.

Lemma reduce_add_spec (x : Q) (xs : list Q) : reduce_add x xs == x + Qsum (fun y => y) xs.
Proof. exact (fold_left_Qplus (fun y => y) xs x). Qed.

(** The mean [xs.reduce((a, b) => a + b) / xs.length] of values within
    [[lo, hi]] is within [[lo, hi]]. *)
Lemma reduce_add_mean_bounds (x : Q) (xs : list Q) (lo hi : Q) :
  lo <= x <= hi -> (forall y, In y xs -> lo <= y <= hi) ->
  lo <= reduce_add x xs / inject_Z (Z.of_nat (length (x :: xs))) <= hi.
Proof.
  intros Hx Hxs. pose proof (Qsum_bounds (fun y => y) lo hi (x :: xs)) as Hb.
  assert (Heq : reduce_add x xs == Qsum (fun y => y) (x :: xs))
    by (rewrite reduce_add_spec; reflexivity).
  rewrite Heq. apply Qdiv_count_bounds; [simpl; lia |].
  apply Hb. intros y [<-|Hy]; auto.
Qed.

(** ** Rounding to two decimals *)

Lemma Qfloor_between (x : Q) (a b : Z) :
  inject_Z a <= x < inject_Z (b + 1) -> (a <= Qfloor x <= b)%Z.
Proof.
  intros [Ha Hb]. split.
  - rewrite <- (Qfloor_Z a). now apply Qfloor_resp_le.
  - pose proof (Qfloor_le x) as Hf.
    assert (Hlt : (Qfloor x < b + 1)%Z) by (rewrite Zlt_Qlt; eapply Qle_lt_trans; eauto).
    lia.
Qed.

Lemma Qfloor_spec (x : Q) : inject_Z (Qfloor x) <= x < inject_Z (Qfloor x) + 1.
Proof.
  split; [apply Qfloor_le |].
  rewrite <- (inject_Z_plus _ 1). apply Qlt_floor.
Qed.

(** [toFixed(2)] moves a value by at most half a hundredth. *)
Lemma round2_pos_close (q : Q) : q - (1 # 200) < round2_pos q <= q + (1 # 200).
Proof.
  unfold round2_pos. destruct (Qfloor_spec (q * 100 + (1 # 2))) as [H1 H2].
  set (z := inject_Z (Qfloor (q * 100 + (1 # 2)))) in *.
  split.
  - apply Qlt_shift_div_l; [reflexivity | lra].
  - apply Qle_shift_div_r; [reflexivity | lra].
Qed.

Lemma to_fixed2_close (q : Q) : q - (1 # 200) <= to_fixed2 q <= q + (1 # 200).
Proof.
  unfold to_fixed2. destruct (QltbP q 0).
  - destruct (round2_pos_close (- q)). split; lra.
  - destruct (round2_pos_close q). split; lra.
Qed.

(** Rounding keeps a non-negative value inside integer bounds [m, n]. *)
Lemma round2_pos_range (q : Q) (m n : Z) :
  (0 <= m)%Z -> inject_Z m <= q <= inject_Z n -> inject_Z m <= round2_pos q <= inject_Z n.
Proof.
  intros Hm [Hlo Hhi]. unfold round2_pos.
  assert (Hz : (m * 100 <= Qfloor (q * 100 + (1 # 2)) <= n * 100)%Z).
  { apply Qfloor_between. rewrite inject_Z_plus, !inject_Z_mult.
    change (inject_Z 100) with 100. change (inject_Z 1) with 1. split; lra. }
  destruct Hz as [Hz1 Hz2]. rewrite Zle_Qle, inject_Z_mult in Hz1, Hz2.
  change (inject_Z 100) with 100 in Hz1, Hz2.
  split.
  - apply Qle_shift_div_l; [reflexivity | lra].
  - apply Qle_shift_div_r; [reflexivity | lra].
Qed.

Lemma to_fixed2_range (q : Q) (m n : Z) :
  (0 <= m)%Z -> inject_Z m <= q <= inject_Z n -> inject_Z m <= to_fixed2 q <= inject_Z n.
Proof.
  intros Hm Hq. unfold to_fixed2. destruct (QltbP q 0).
  - rewrite Zle_Qle in Hm. change (inject_Z 0) with 0 in Hm. lra.
  - now apply round2_pos_range.
Qed.

#[export] Hint Resolve to_fixed2_range to_fixed2_close : scene.

(** ** Substrings of concatenations and joins *)

Lemma contains_app_l (a b kw : string) :
  contains a kw = true -> contains (a ++ b) kw = true.
Proof.
  rewrite !contains_spec. intros (p & q & ->).
  exists p, (q ++ b)%string. now rewrite !string_app_assoc.
Qed.

Lemma contains_app_r (a b kw : string) :
  contains b kw = true -> contains (a ++ b) kw = true.
Proof.
  rewrite !contains_spec. intros (p & q & ->).
  exists (a ++ p)%string, q. now rewrite string_app_assoc.
Qed.

Lemma string_app_nil_r (s : string) : (s ++ EmptyString)%string = s.
Proof. induction s as [|c s IH]; simpl; [reflexivity | now rewrite IH]. Qed.

Lemma contains_refl (s : string) : contains s s = true.
Proof. apply contains_spec. exists EmptyString, EmptyString. simpl. now rewrite string_app_nil_r. Qed.

(** Every element of a joined list occurs in the joined string. *)
Lemma contains_join_mem (sep x : string) (l : list string) :
  In x l -> contains (join sep l) x = true.
Proof.
  induction l as [|y [|z l] IH]; intros Hin; [destruct Hin | |].
  - destruct Hin as [<-|[]]. apply contains_refl.
  - change (join sep (y :: z :: l)) with (y ++ sep ++ join sep (z :: l))%string.
    destruct Hin as [<-|Hin].
    + apply contains_app_l, contains_refl.
    + apply contains_app_r, contains_app_r, IH, Hin.
Qed.

#[export] Hint Resolve contains_app_l contains_app_r contains_refl contains_join_mem : scene.
