(* ===== verification/Json.v ===== *)
(** * JSON on the wire

    The bodies the server sends with [res.json(...)] ([src/server.js]) and
    the browser reads back with [await res.json()] ([src/public/app.js]):
    JSON values, the JavaScript value [undefined] of an absent property,
    property reads (which throw on [undefined] and [null]), truthiness and
    [||], and the class [ToJson] of the values the server serializes. *)

From Stdlib Require Import QArith ZArith String List Bool.
From S2P Require Import Prelude.
Import ListNotations.
Local Open Scope string_scope.

Module Json.

#[local] Set Warnings "-register-all".

(** A JSON value; numbers are exact rationals, as everywhere in the
    development. *)
Inductive json :=
| JNull
| JBool (b : bool)
| JNum (q : Q)
| JStr (s : string)
| JArr (items : list json)
| JObj (fields : list (string * json)).

(** A JavaScript value read out of a parsed body: [None] is [undefined]. *)
Definition jsval := option json.

(** [obj[k]] on a parsed object: [JSON.parse] keeps the last of duplicate
    keys. *)
Fixpoint lookup (k : string) (fs : list (string * json)) : jsval :=
  match fs with
  | [] => None
  | (k', v) :: rest =>
      match lookup k rest with
      | Some w => Some w
      | None => if String.eqb k k' then Some v else None
      end
  end.

(** The message of the [TypeError] a property read on [undefined] or
    [null] throws. *)
Definition read_error (what k : string) : string :=
  "Cannot read properties of " ++ what ++ " (reading '" ++ k ++ "')".

(** A number for a length. *)
Definition num_of_nat (n : nat) : json := JNum (inject_Z (Z.of_nat n)).

(** [v.k]: a [TypeError] on [undefined] and [null]; the fields of an
    object; the [length] of an array or a string; nothing else is read
    from other values. *)
Definition prop (v : jsval) (k : string) : string + jsval :=
  match v with
  | None => inl (read_error "undefined" k)
  | Some JNull => inl (read_error "null" k)
  | Some (JObj fs) => inr (lookup k fs)
  | Some (JArr l) => inr (if String.eqb k "length" then Some (num_of_nat (length l)) else None)
  | Some (JStr s) => inr (if String.eqb k "length" then Some (num_of_nat (String.length s)) else None)
  | Some _ => inr None
  end.

(** [if (v)]: [undefined], [null], [false], [0] and [''] are falsy. *)
Definition truthy (v : jsval) : bool :=
  match v with
  | None | Some JNull | Some (JBool false) => false
  | Some (JNum q) => negb (Qeq_bool q 0)
  | Some (JStr EmptyString) => false
  | Some _ => true
  end.

(** [a || b]. *)
Definition js_or (a b : jsval) : jsval := if truthy a then a else b.

(** The items of an array value, for [forEach], [slice] and [map]: a
    [TypeError] on [undefined] and [null], and on a value that has no
    such method. *)
Definition array_of (v : jsval) (meth : string) : string + list json :=
  match v with
  | None => inl (read_error "undefined" meth)
  | Some JNull => inl (read_error "null" meth)
  | Some (JArr l) => inr l
  | Some _ => inl (meth ++ " is not a function")
  end.

(** [s.substring(0, n)] on a string value. *)
Definition substring_of (v : jsval) (n : nat) : string + string :=
  match v with
  | None => inl (read_error "undefined" "substring")
  | Some JNull => inl (read_error "null" "substring")
  | Some (JStr s) => inr (substring 0 n s)
  | Some _ => inl "substring is not a function"
  end.

(** [JSON.stringify] drops the properties whose value is [undefined]. *)
Definition opt_field (k : string) (v : option json) : list (string * json) :=
  match v with Some j => [(k, j)] | None => [] end.

(** What the server serializes: [res.json(x)] sends [to_json x]. *)
Class ToJson (A : Type) := to_json : A -> json.

#[export] Instance ToJson_string : ToJson string := JStr.
#[export] Instance ToJson_Q : ToJson Q := JNum.
#[export] Instance ToJson_Z : ToJson Z := fun z => JNum (inject_Z z).
#[export] Instance ToJson_nat : ToJson nat := num_of_nat.
#[export] Instance ToJson_bool : ToJson bool := JBool.
#[export] Instance ToJson_list {A} `{ToJson A} : ToJson (list A) := fun l => JArr (map to_json l).
(** An optional value serialized as [null] when absent (a [|| null] or a
    [null] of the source). *)
#[export] Instance ToJson_option {A} `{ToJson A} : ToJson (option A) :=
  fun o => match o with Some x => to_json x | None => JNull end.

(** ** Lemmas *)

Lemma lookup_cons_other (k k' : string) (v : json) (fs : list (string * json)) :
  k <> k' -> lookup k ((k', v) :: fs) = lookup k fs.
Proof.
  intros Hne. simpl. destruct (lookup k fs); [reflexivity |].
  apply String.eqb_neq in Hne. now rewrite Hne.
Qed.

Lemma lookup_app_none (k : string) (fs gs : list (string * json)) :
  lookup k gs = None -> lookup k (fs ++ gs) = lookup k fs.
Proof.
  intros Hg. induction fs as [|[k' v] fs IH]; simpl; [exact Hg |].
  now rewrite IH.
Qed.

Lemma lookup_opt_field_other (k k' : string) (v : option json) (fs : list (string * json)) :
  k <> k' -> lookup k (opt_field k' v ++ fs) = lookup k fs.
Proof. intros Hne. destruct v; [apply lookup_cons_other, Hne | reflexivity]. Qed.

Lemma truthy_js_or (a b : jsval) : truthy a = false -> js_or a b = b.
Proof. unfold js_or. now intros ->. Qed.

End Json.
