(* ===== verification/Imagga.v ===== *)
(** * The upstream payloads

    The JSON shapes the server reads from the Imagga responses
    ([src/server.js]): a tag or auto-tagging entry
    [{confidence, tag: {en}}] and a color entry [{hex, percentage}].
    Every field is read through optional chaining in the source, so every
    field is an [option]; the defaults ([|| 0], [|| 'Unknown']) are applied
    where the source applies them. *)

From Stdlib Require Import QArith String List.
From S2P Require Import Prelude.
Import ListNotations.

Module Payload.

(** An entry of [result.tags] (tags endpoint and auto-tagging endpoint):
    [t.confidence] and [t.tag?.en]. *)
Record TagItem := mkTag { t_confidence : option Q; t_en : option string }.

(** An entry of [result.colors]: [c.hex] and [c.percentage]. *)
Record ColorItem := mkColor { c_hex : option string; c_percentage : option Q }.

(** [t.tag?.en || 'Unknown']. *)
Definition tag_name (t : TagItem) : string := str_or (t_en t) "Unknown".

(** [(t.tag?.en || 'Unknown').toLowerCase()]. *)
Definition tag_name_lower (t : TagItem) : string := lower (tag_name t).

(** [t.confidence || 0]. *)
Definition conf_value (t : TagItem) : Q := or0 (t_confidence t).

End Payload.
