(* ===== verification/Confidence.v ===== *)
(** * Confidence normalisation, levels and the overall confidence

    [getConfidenceLevel], the per-item confidence formatting repeated in
    [generateSceneContext] and [categorizeTags], and
    [calculateAverageConfidence] of [src/server.js]. *)

From Stdlib Require Import QArith Qround ZArith String List Bool Lia Lqa.
From S2P Require Import Prelude Imagga.
Import ListNotations.
Import Payload.
Local Open Scope Q_scope.
Local Open Scope js_scope.

Module Conf.

(** The level labels of the source: ['ALTO'], ['MEDIO'], ['BAJO']. *)
Inductive level := ALTO | MEDIO | BAJO.

Definition level_eq_dec (a b : level) : {a = b} + {a <> b}.
Proof. decide equality. Defined.

(** [getConfidenceLevel]: a value above [1] is read as a percentage. *)
Definition getConfidenceLevel (confidence : Q) : level :=
  let normalized := if confidence >? 1 then confidence / 100 else confidence in
  if normalized >=? (8 # 10) then ALTO
  else if normalized >=? (1 # 2) then MEDIO
  else BAJO.

(** [confValue > 1 ? confValue : confValue * 100]. *)
Definition conf_percent (v : Q) : Q := if v >? 1 then v else v * 100.

(** [confValue > 1 ? confValue / 100 : confValue], the argument the call
    sites pass to [getConfidenceLevel]. *)
Definition conf_fraction (v : Q) : Q := if v >? 1 then v / 100 else v.

(** The item every call site builds from a tag or an object:
    [{ tag|name, confidence: parseFloat(confPercent.toFixed(2)), level }]. *)
Record ConfItem := mkItem { ci_name : string; ci_confidence : Q; ci_level : level }.

Definition conf_item (t : TagItem) : ConfItem :=
  let confValue := conf_value t in
  {| ci_name := tag_name t;
     ci_confidence := to_fixed2 (conf_percent confValue);
     ci_level := getConfidenceLevel (conf_fraction confValue) |}.

(** [Math.min(100, Math.max(0, avg))]. *)
Definition clamp100 (x : Q) : Q :=
  let m := if 0 >? x then 0 else x in
  if 100 <? m then 100 else m.

(** [calculateAverageConfidence]: the unit (fraction or percentage) is
    decided once, from the first tag, and applied to every tag. *)
Definition calculateAverageConfidence (tags : list TagItem) : Q :=
  match tags with
  | [] => 0
  | t0 :: _ =>
      let firstConfidence := conf_value t0 in
      let isDecimal := firstConfidence <=? 1 in
      let sum := fold_left (fun acc t =>
                    let conf := conf_value t in
                    acc + (if isDecimal then conf * 100 else conf)) tags 0 in
      let avg := sum / inject_Z (Z.of_nat (length tags)) in
      clamp100 avg
  end.

(** ** Theorems *)

Ltac level_solve := repeat split; intros; try discriminate; try reflexivity; try lra.

Lemma clamp100_bounds (x : Q) : 0 <= clamp100 x <= 100.
Proof. unfold clamp100. qcase; lra. Qed.

Lemma clamp100_id (x : Q) : 0 <= x <= 100 -> clamp100 x == x.
Proof. intros Hx. unfold clamp100. qcase; lra. Qed.

Lemma conf_percent_range (v : Q) : 0 <= v <= 100 -> 0 <= conf_percent v <= 100.
Proof. intros Hv. unfold conf_percent. qcase; lra. Qed.

#[local] Hint Resolve clamp100_bounds conf_percent_range : scene.

(** C3: On the fraction scale ([0 <= x <= 1]) [getConfidenceLevel] is
    ALTO exactly from 0.8, MEDIO exactly on [0.5, 0.8) and BAJO below 0.5:
    the thresholds are inclusive and exact. *)
Theorem getConfidenceLevel_fraction (x : Q) (Hx : 0 <= x <= 1) :
  (getConfidenceLevel x = ALTO <-> 8 # 10 <= x) /\
  (getConfidenceLevel x = MEDIO <-> 1 # 2 <= x < 8 # 10) /\
  (getConfidenceLevel x = BAJO <-> x < 1 # 2).
Proof. unfold getConfidenceLevel. qcase; level_solve. Qed.

(** C30: On the percentage scale ([1 < v <= 100]) [getConfidenceLevel]
    is ALTO exactly from 80, MEDIO exactly on [50, 80) and BAJO below 50:
    the percentage thresholds are inclusive and exact, and each level is
    the one the same confidence gets as the fraction [v / 100]. *)
Theorem getConfidenceLevel_percent (v : Q) (Hv : 1 < v <= 100) :
  (getConfidenceLevel v = ALTO <-> 80 <= v) /\
  (getConfidenceLevel v = MEDIO <-> 50 <= v < 80) /\
  (getConfidenceLevel v = BAJO <-> v < 50) /\
  getConfidenceLevel v = getConfidenceLevel (v / 100).
Proof.
  assert (Hf : v / 100 <= 1) by (apply Qle_shift_div_r; [reflexivity | lra]).
  unfold getConfidenceLevel. change (v / 100) with (v * (1 # 100)) in *.
  qcase; level_solve.
Qed.

Lemma getConfidenceLevel_percent_witness :
  (getConfidenceLevel 80 = ALTO <-> 80 <= 80) /\
  (getConfidenceLevel 80 = MEDIO <-> 50 <= 80 < 80) /\
  (getConfidenceLevel 80 = BAJO <-> 80 < 50) /\
  getConfidenceLevel 80 = getConfidenceLevel (80 / 100).
Proof. apply getConfidenceLevel_percent. vm_compute. split; [reflexivity | discriminate]. Defined.

Lemma getConfidenceLevel_fraction_witness :
  (getConfidenceLevel (8 # 10) = ALTO <-> 8 # 10 <= 8 # 10) /\
  (getConfidenceLevel (8 # 10) = MEDIO <-> 1 # 2 <= 8 # 10 < 8 # 10) /\
  (getConfidenceLevel (8 # 10) = BAJO <-> 8 # 10 < 1 # 2).
Proof. apply getConfidenceLevel_fraction. vm_compute. split; discriminate. Defined.

(** Every displayed item confidence ([parseFloat(confPercent.toFixed(2))])
    lies in [0, 100] when the raw confidence does, on either scale. *)
Theorem conf_item_confidence_range (t : TagItem) (H : 0 <= conf_value t <= 100) :
  0 <= ci_confidence (conf_item t) <= 100.
Proof.
  unfold conf_item; simpl. apply (to_fixed2_range _ 0 100); [lia | auto with scene].
Qed.

(** C35: A raw confidence above 100 is neither clamped nor levelled on the
    percentage scale: the item shows at least 100 and, because the call
    site divides by 100 before [getConfidenceLevel] divides again, its
    level is BAJO. *)
Theorem conf_item_above_100 (t : TagItem) (H : 100 < conf_value t < 5000) :
  100 <= ci_confidence (conf_item t) /\ ci_level (conf_item t) = BAJO.
Proof.
  unfold conf_item, conf_percent, conf_fraction, getConfidenceLevel; simpl.
  assert (Hr := to_fixed2_range (conf_value t) 100 100000).
  assert (1 < conf_value t / 100) by (apply Qlt_shift_div_l; [reflexivity | lra]).
  assert (conf_value t / 100 / 100 < 1 # 2)
    by (do 2 (apply Qlt_shift_div_r; [reflexivity |]); lra).
  qcase; split; try reflexivity; try lra.
  apply Hr; [lia | change (inject_Z 100) with 100; change (inject_Z 100000) with 100000; lra].
Qed.

Lemma conf_item_above_100_witness :
  100 <= ci_confidence (conf_item (mkTag (Some 150) (Some "dog"%string))) /\
  ci_level (conf_item (mkTag (Some 150) (Some "dog"%string))) = BAJO.
Proof. apply conf_item_above_100. vm_compute. split; reflexivity. Defined.

(** The overall confidence is always within [0, 100], whatever the
    units and values of the tag confidences. *)
Theorem calculateAverageConfidence_range (tags : list TagItem) :
  0 <= calculateAverageConfidence tags <= 100.
Proof.
  destruct tags as [|t0 tags]; simpl; [lra | apply clamp100_bounds].
Qed.

(** C4: When every confidence is a fraction in [0, 1], the overall
    confidence is the arithmetic mean of the confidences scaled to
    percentages. *)
Theorem calculateAverageConfidence_fractions (tags : list TagItem)
  (Hne : tags <> [])
  (H : forall t, In t tags -> 0 <= conf_value t <= 1) :
  calculateAverageConfidence tags ==
    Qsum (fun t => conf_value t * 100) tags / inject_Z (Z.of_nat (length tags)).
Proof.
  destruct tags as [|t0 rest]; [contradiction |].
  assert (H0 : conf_value t0 <= 1) by (apply (H t0); now left).
  cbv beta iota zeta delta [calculateAverageConfidence].
  destruct (Qle_boolP (conf_value t0) 1) as [_|Hn]; [cbv beta iota | contradiction].
  match goal with |- clamp100 (?s / ?n) == _ => set (sum := s); set (cnt := n) end.
  assert (Hs : sum == Qsum (fun t => conf_value t * 100) (t0 :: rest))
    by (unfold sum; rewrite (fold_left_Qplus (fun t => conf_value t * 100)); ring).
  rewrite clamp100_id; rewrite Hs; [reflexivity |].
  apply Qdiv_count_bounds; [simpl; lia |].
  apply Qsum_bounds. intros t Ht. destruct (H t Ht). split; lra.
Qed.

Lemma calculateAverageConfidence_fractions_witness :
  calculateAverageConfidence [mkTag (Some (9 # 10)) None; mkTag (Some (1 # 2)) None] ==
    Qsum (fun t => conf_value t * 100) [mkTag (Some (9 # 10)) None; mkTag (Some (1 # 2)) None] /
    inject_Z (Z.of_nat 2).
Proof.
  apply calculateAverageConfidence_fractions; [discriminate |].
  intros t Ht. simpl in Ht. destruct Ht as [<-|[<-|[]]]; vm_compute; split; discriminate.
Defined.

(** The unit is decided by the first tag alone: a fraction first and a
    percentage second give 0.9 -> 90 and 80 -> 8000, whose mean is
    clamped to 100. *)
Theorem calculateAverageConfidence_mixed_units :
  calculateAverageConfidence [mkTag (Some (9 # 10)) None; mkTag (Some 80) None] == 100.
Proof. vm_compute. reflexivity. Qed.

End Conf.
