(* ===== verification/Colors.v ===== *)
(** * Color analysis

    [hexToRgb], [calculateBrightness], [colorNameFromHex],
    [analyzeColorHarmony], [calculateVibrancy] and [analyzeColorsAdvanced]
    of [src/server.js] (lines 155-249 and 377-393).

    Channels are integers ([Z]).  The source compares Euclidean distances
    [Math.sqrt(dr^2 + dg^2 + db^2)]; since the square root is monotone on
    non-negative numbers, the model compares the squared distances (a
    distance above 200 is a squared distance above 40000). *)

From Stdlib Require Import QArith ZArith String Ascii List Bool Lia Lqa Sorted Permutation.
From S2P Require Import Prelude Imagga.
Import ListNotations.
Import Payload.
Local Open Scope Q_scope.
Local Open Scope js_scope.

Module Color.

Record rgb := mkRgb { r : Z; g : Z; b : Z }.

(** One character of the class [[a-f\d]] under the [i] flag, with its
    value as a hexadecimal digit ([parseInt(_, 16)]). *)
Definition hex_digit (c : ascii) : option Z :=
  let n := Z.of_nat (nat_of_ascii c) in
  if ((48 <=? n) && (n <=? 57))%Z then Some (n - 48)%Z
  else if ((97 <=? n) && (n <=? 102))%Z then Some (n - 87)%Z
  else if ((65 <=? n) && (n <=? 70))%Z then Some (n - 55)%Z
  else None.

(** A capture group [([a-f\d]{2})] and [parseInt(group, 16)]. *)
Definition hex_pair (c1 c2 : ascii) : option Z :=
  match hex_digit c1, hex_digit c2 with
  | Some x, Some y => Some (16 * x + y)%Z
  | _, _ => None
  end.

(** The three groups followed by the end of the input. *)
Definition hex_body (s : string) : option rgb :=
  match s with
  | String r1 (String r2 (String g1 (String g2 (String b1 (String b2 EmptyString))))) =>
      match hex_pair r1 r2, hex_pair g1 g2, hex_pair b1 b2 with
      | Some rv, Some gv, Some bv => Some (mkRgb rv gv bv)
      | _, _, _ => None
      end
  | _ => None
  end.

(** [hexToRgb]: [/^#?([a-f\d]{2})([a-f\d]{2})([a-f\d]{2})$/i.exec(hex)].
    An absent [hex] is matched as the string ["undefined"], which fails.
    When the input starts with ['#'] the optional ['#'] must consume it:
    without it the first character would have to be a hex digit. *)
Definition hexToRgb (hex : option string) : option rgb :=
  match hex with
  | None => None
  | Some (String "#" rest) => hex_body rest
  | Some s => hex_body s
  end.

(** [calculateBrightness]: [Math.round((r*299 + g*587 + b*114) / 1000)],
    50 when the hex does not parse.  [Math.round(n / 1000)] for an integer
    [n >= 0] is [floor((n + 500) / 1000)]. *)
Definition calculateBrightness (hex : option string) : Z :=
  match hexToRgb hex with
  | None => 50
  | Some c => ((r c * 299 + g c * 587 + b c * 114 + 500) / 1000)%Z
  end.

(** Squared Euclidean distance of two colors. *)
Definition dist2 (x y : rgb) : Z :=
  ((r x - r y) ^ 2 + (g x - g y) ^ 2 + (b x - b y) ^ 2)%Z.

(** The reference colors of [colorNameFromHex], in insertion order (the
    iteration order of [Object.entries] on string keys). *)
Definition colorNames : list (string * string) :=
  [("#000000", "Negro"); ("#FFFFFF", "Blanco"); ("#FF0000", "Rojo");
   ("#00FF00", "Verde"); ("#0000FF", "Azul"); ("#FFFF00", "Amarillo");
   ("#FF00FF", "Magenta"); ("#00FFFF", "Cyan"); ("#808080", "Gris");
   ("#FFA500", "Naranja"); ("#800080", "Púrpura"); ("#FFC0CB", "Rosa")]%string.

(** The [for ... of Object.entries(colorNames)] loop: [closestColor] and
    [minDistance] ([None] is [Infinity]); a strictly smaller distance
    replaces the current best, so the first of equal distances wins.  A
    reference hex that does not parse would throw in the source; every
    key of [colorNames] parses ([colorNames_parse]). *)
Fixpoint closest (c : rgb) (entries : list (string * string))
    (closestColor : string) (minDistance : option Z) : string :=
  match entries with
  | [] => closestColor
  | (hex, name) :: rest =>
      match hexToRgb (Some hex) with
      | None => closest c rest closestColor minDistance
      | Some refRgb =>
          let distance := dist2 c refRgb in
          if match minDistance with None => true | Some m => (distance <? m)%Z end
          then closest c rest name (Some distance)
          else closest c rest closestColor minDistance
      end
  end.

(** [colorNameFromHex]. *)
Definition colorNameFromHex (hex : option string) : string :=
  match hexToRgb hex with
  | None => "Desconocido"
  | Some c => closest c colorNames "Desconocido" None
  end.

(** The labels of [analyzeColorHarmony]. *)
Inductive harmony := Contrastado | Complementario | Analogo | InsuficientesDatos.

Definition harmony_label (h : harmony) : string :=
  match h with
  | Contrastado => "Contrastado"
  | Complementario => "Complementario"
  | Analogo => "Análogo"
  | InsuficientesDatos => "Insuficientes datos"
  end.

(** [analyzeColorHarmony]: the first two colors of the list as given. *)
Definition analyzeColorHarmony (colors : list ColorItem) : harmony :=
  match colors with
  | c1 :: c2 :: _ =>
      if negb (truthy_str (c_hex c1)) || negb (truthy_str (c_hex c2)) then InsuficientesDatos
      else match hexToRgb (c_hex c1), hexToRgb (c_hex c2) with
           | Some rgb1, Some rgb2 =>
               let diff2 := dist2 rgb1 rgb2 in
               if (40000 <? diff2)%Z then Contrastado
               else if (10000 <? diff2)%Z then Complementario
               else Analogo
           | _, _ => InsuficientesDatos
           end
  | _ => InsuficientesDatos
  end.

(** The labels ['Muy Alta'], ['Alta'], ['Media'], ['Baja'] shared by
    [calculateVibrancy] and [calculateComplexity]. *)
Inductive grade := MuyAlta | Alta | Media | Baja.

(** The saturation of one color: [(max - min) / max], 0 when [max] is 0 or
    the hex does not parse. *)
Definition saturation (c : ColorItem) : Q :=
  match hexToRgb (c_hex c) with
  | None => 0
  | Some x =>
      let mx := Z.max (r x) (Z.max (g x) (b x)) in
      let mn := Z.min (r x) (Z.min (g x) (b x)) in
      if (mx =? 0)%Z then 0 else inject_Z (mx - mn) / inject_Z mx
  end.

(** [calculateVibrancy]. *)
Definition calculateVibrancy (colors : list ColorItem) : grade :=
  match colors with
  | [] => Baja
  | c0 :: cs =>
      let avgSaturation :=
        reduce_add (saturation c0) (map saturation cs) /
        inject_Z (Z.of_nat (length colors)) in
      if avgSaturation >? (1 # 2) then MuyAlta
      else if avgSaturation >? (3 # 10) then Alta
      else if avgSaturation >? (1 # 10) then Media
      else Baja
  end.

(** [c.percentage || 0]. *)
Definition pct (c : ColorItem) : Q := or0 (c_percentage c).

(** [[...colors].sort((a, b) => (b.percentage || 0) - (a.percentage || 0))]:
    Array.prototype.sort is stable, so the result is the stable sort by
    decreasing percentage, computed here by insertion: an element goes
    before the first element whose percentage is not larger. *)
Fixpoint insert_desc (c : ColorItem) (l : list ColorItem) : list ColorItem :=
  match l with
  | [] => [c]
  | d :: l' => if pct d <=? pct c then c :: d :: l' else d :: insert_desc c l'
  end.

Fixpoint sort_by_percentage (l : list ColorItem) : list ColorItem :=
  match l with
  | [] => []
  | c :: l' => insert_desc c (sort_by_percentage l')
  end.

(** An entry of [dominant] in [analyzeColorsAdvanced]. *)
Record Dominant := mkDominant
  { d_hex : option string; d_rgb : option rgb; d_percentage : Q }.

Record ColorAnalysis := mkAnalysis
  { dominant : list Dominant; palette : list (option string); avg_brightness : Q }.

(** [analyzeColorsAdvanced].  [calculateBrightness] never returns [null],
    so the [filter(b => b !== null)] of the source keeps every entry. *)
Definition analyzeColorsAdvanced (colors : list ColorItem) : ColorAnalysis :=
  match colors with
  | [] => mkAnalysis [] [] 50
  | _ :: _ =>
      let sorted := sort_by_percentage colors in
      let brightness := map (fun c => inject_Z (calculateBrightness (c_hex c))) colors in
      let avgBrightness :=
        match brightness with
        | [] => 50
        | b0 :: bs => reduce_add b0 bs / inject_Z (Z.of_nat (length brightness))
        end in
      mkAnalysis
        (map (fun c => mkDominant (c_hex c) (hexToRgb (c_hex c)) (pct c)) (slice 5 sorted))
        (map c_hex sorted)
        avgBrightness
  end.

(** The spec's 6-digit hex notation of a color, the inverse of the
    parser: two lowercase hex digits per channel. *)
Definition hex_char (d : Z) : ascii :=
  ascii_of_nat (Z.to_nat (if (d <? 10)%Z then 48 + d else 87 + d)%Z).

Definition hex_channel (v : Z) : string :=
  String (hex_char (v / 16)) (String (hex_char (v mod 16)) EmptyString).

Definition rgb_to_hex6 (c : rgb) : string :=
  (hex_channel (r c) ++ hex_channel (g c) ++ hex_channel (b c))%string.

(** A channel of a color is a byte. *)
Definition channel_ok (v : Z) : Prop := (0 <= v <= 255)%Z.
Definition rgb_ok (c : rgb) : Prop := channel_ok (r c) /\ channel_ok (g c) /\ channel_ok (b c).

(** Lower and upper bounds of a nullable distance ([None] is [Infinity]). *)
Definition below (d : Z) (m : option Z) : Prop :=
  match m with None => True | Some mv => (d < mv)%Z end.
Definition not_below (d : Z) (m : option Z) : Prop :=
  match m with None => False | Some mv => (mv <= d)%Z end.

(** Decreasing order of percentages. *)
Definition desc (x y : ColorItem) : Prop := pct y <= pct x.

(** Membership in the class of a given percentage. *)
Definition pct_is (q : Q) (c : ColorItem) : bool := Qeq_bool (pct c) q.

(** ** Parsing *)

Ltac zbool_case :=
  repeat match goal with
  | H : context [if ?c then _ else _] |- _ => destruct c eqn:?
  | |- context [if ?c then _ else _] => destruct c eqn:?
  end;
  rewrite ?andb_true_iff, ?andb_false_iff, ?Z.leb_le, ?Z.leb_gt, ?Z.ltb_lt, ?Z.ltb_ge in *.

Lemma hex_digit_range (c : ascii) (d : Z) : hex_digit c = Some d -> (0 <= d <= 15)%Z.
Proof. unfold hex_digit. intros H. cbv zeta in H. zbool_case; try discriminate; injection H as <-; lia. Qed.

Lemma hex_pair_range (c1 c2 : ascii) (v : Z) : hex_pair c1 c2 = Some v -> channel_ok v.
Proof.
  unfold hex_pair, channel_ok.
  destruct (hex_digit c1) eqn:E1, (hex_digit c2) eqn:E2; intros H; try discriminate.
  apply hex_digit_range in E1, E2. assert (v = 16 * z + z0)%Z as -> by congruence. lia.
Qed.

Lemma hex_body_range (s : string) (c : rgb) : hex_body s = Some c -> rgb_ok c.
Proof.
  unfold hex_body. intros H.
  repeat match type of H with
  | match ?s with _ => _ end = _ => destruct s eqn:?; try discriminate
  end.
  match type of H with Some ?x = Some c => assert (c = x) as -> by congruence end.
  unfold rgb_ok; simpl. split; [|split]; eapply hex_pair_range; eassumption.
Qed.

Lemma hexToRgb_range (h : option string) (c : rgb) : hexToRgb h = Some c -> rgb_ok c.
Proof.
  unfold hexToRgb. intros H.
  repeat match type of H with
  | match ?s with _ => _ end = _ => destruct s eqn:?; try discriminate
  end; eauto using hex_body_range.
Qed.

Lemma hex_digit_char (d : Z) : (0 <= d < 16)%Z -> hex_digit (hex_char d) = Some d.
Proof.
  intros Hd.
  assert (d = 0 \/ d = 1 \/ d = 2 \/ d = 3 \/ d = 4 \/ d = 5 \/ d = 6 \/ d = 7 \/
          d = 8 \/ d = 9 \/ d = 10 \/ d = 11 \/ d = 12 \/ d = 13 \/ d = 14 \/ d = 15)%Z
    as Hcases by lia.
  repeat destruct Hcases as [->|Hcases]; [reflexivity .. | subst; reflexivity].
Qed.

Lemma hex_pair_channel (v : Z) :
  channel_ok v -> hex_pair (hex_char (v / 16)) (hex_char (v mod 16)) = Some v.
Proof.
  unfold channel_ok, hex_pair. intros Hv.
  rewrite !hex_digit_char by zlia. cbv beta iota. f_equal. zlia.
Qed.

#[local] Hint Resolve hexToRgb_range hex_body_range hex_pair_range : scene.

Lemma hexToRgb_plain (a : ascii) (rest : string) :
  a <> "#"%char -> hexToRgb (Some (String a rest)) = hex_body (String a rest).
Proof.
  intros Ha. destruct a as [[] [] [] [] [] [] [] []]; try reflexivity. now contradiction Ha.
Qed.

Lemma hex_char_not_hash (d : Z) : (0 <= d < 16)%Z -> hex_char d <> "#"%char.
Proof. intros Hd Heq. pose proof (hex_digit_char d Hd) as H. now rewrite Heq in H. Qed.

(** C9: Parsing inverts printing: every color whose channels are bytes,
    written as six hex digits with or without the leading ['#'], is read
    back by [hexToRgb] as the same three channels. *)
Theorem hexToRgb_roundtrip (c : rgb) (Hc : rgb_ok c) :
  hexToRgb (Some (rgb_to_hex6 c)) = Some c /\
  hexToRgb (Some (String "#" (rgb_to_hex6 c))) = Some c.
Proof.
  destruct c as [rv gv bv]; destruct Hc as (Hr & Hg & Hb); cbn [r g b] in Hr, Hg, Hb.
  assert (Hbody : hex_body (rgb_to_hex6 (mkRgb rv gv bv)) = Some (mkRgb rv gv bv)).
  { unfold rgb_to_hex6, hex_channel, hex_body; simpl.
    now rewrite !hex_pair_channel. }
  split; [| exact Hbody].
  unfold rgb_to_hex6 at 1, hex_channel at 1. cbn [append].
  rewrite hexToRgb_plain; [exact Hbody |].
  apply hex_char_not_hash. unfold channel_ok in Hr. simpl. zlia.
Qed.

Lemma hexToRgb_roundtrip_witness :
  hexToRgb (Some (rgb_to_hex6 (mkRgb 255 165 0))) = Some (mkRgb 255 165 0) /\
  hexToRgb (Some (String "#" (rgb_to_hex6 (mkRgb 255 165 0)))) = Some (mkRgb 255 165 0).
Proof. apply hexToRgb_roundtrip. unfold rgb_ok, channel_ok; simpl; lia. Defined.

(** [calculateBrightness] is a byte: within [0, 255] for every input,
    malformed or absent hexes included. *)
Theorem calculateBrightness_range (hex : option string) :
  (0 <= calculateBrightness hex <= 255)%Z.
Proof.
  unfold calculateBrightness. destruct (hexToRgb hex) as [c|] eqn:E; [| lia].
  destruct (hexToRgb_range hex c E) as (Hr & Hg & Hb). unfold channel_ok in *. zlia.
Qed.

(** Every key of the reference table parses. *)
Lemma colorNames_parse :
  Forall (fun e => hexToRgb (Some (fst e)) <> None) colorNames.
Proof. repeat constructor; discriminate. Qed.

(** The loop of [colorNameFromHex] returns either the name it started
    with, when no entry is strictly closer than [minDistance], or the name
    of the first entry at the least distance, every earlier entry being
    strictly farther and every later one at least as far. *)
Lemma closest_spec (c : rgb) (entries : list (string * string))
    (best : string) (m : option Z) :
  Forall (fun e => hexToRgb (Some (fst e)) <> None) entries ->
  (closest c entries best m = best /\
     forall hex name ref, In (hex, name) entries -> hexToRgb (Some hex) = Some ref ->
       not_below (dist2 c ref) m) \/
  (exists pre hex name post ref,
     entries = pre ++ (hex, name) :: post /\
     hexToRgb (Some hex) = Some ref /\
     closest c entries best m = name /\
     below (dist2 c ref) m /\
     (forall hex' name' ref', In (hex', name') pre -> hexToRgb (Some hex') = Some ref' ->
        (dist2 c ref < dist2 c ref')%Z) /\
     (forall hex' name' ref', In (hex', name') post -> hexToRgb (Some hex') = Some ref' ->
        (dist2 c ref <= dist2 c ref')%Z)).
Proof.
  revert best m; induction entries as [|[hex name] rest IH]; intros best m Hall.
  - left. split; [reflexivity | intros ? ? ? []].
  - inversion Hall as [|? ? Hhd Hrest]; subst. simpl in Hhd.
    destruct (hexToRgb (Some hex)) as [ref|] eqn:Eref; [| contradiction].
    cbn [closest]. rewrite Eref.
    set (d := dist2 c ref).
    destruct (match m with None => true | Some mv => (d <? mv)%Z end) eqn:Etest.
    + assert (Hb : below d m) by (destruct m; simpl in *; [apply Z.ltb_lt |]; auto).
      destruct (IH name (Some d) Hrest) as [[Heq Hfar]|(pre & hex' & name' & post & ref' & Hsplit & Hp & Hres & Hlt & Hpre & Hpost)].
      * right. exists [], hex, name, rest, ref.
        refine (conj eq_refl (conj Eref (conj Heq (conj Hb (conj _ Hfar))))).
        intros ? ? ? [].
      * right. exists ((hex, name) :: pre), hex', name', post, ref'.
        refine (conj _ (conj Hp (conj Hres (conj _ (conj _ Hpost))))).
        -- now rewrite Hsplit.
        -- simpl in Hlt. destruct m; simpl in *; [lia | exact I].
        -- intros hex'' name'' ref'' [Heq|Hin] Hp'; [| eauto].
           injection Heq as -> ->. rewrite Eref in Hp'. injection Hp' as <-. exact Hlt.
    + destruct m as [mv|]; [| discriminate]. apply Z.ltb_ge in Etest.
      destruct (IH best (Some mv) Hrest) as [[Heq Hfar]|(pre & hex' & name' & post & ref' & Hsplit & Hp & Hres & Hlt & Hpre & Hpost)].
      * left. split; [exact Heq |].
        intros hex'' name'' ref'' [Heq'|Hin] Hp'; [| eauto].
        injection Heq' as -> ->. rewrite Eref in Hp'. injection Hp' as <-. exact Etest.
      * right. exists ((hex, name) :: pre), hex', name', post, ref'.
        refine (conj _ (conj Hp (conj Hres (conj Hlt (conj _ Hpost))))).
        -- now rewrite Hsplit.
        -- simpl in Hlt. intros hex'' name'' ref'' [Heq|Hin] Hp'; [| eauto].
           injection Heq as -> ->. rewrite Eref in Hp'. injection Hp' as <-. lia.
Qed.

(** C8: [colorNameFromHex] returns the name of the nearest reference color
    (Euclidean RGB distance): the chosen entry is at least as close as
    every later entry and strictly closer than every earlier one, so ties
    go to the first entry of the table. *)
Theorem colorNameFromHex_nearest (hex : option string) (c : rgb)
    (Hc : hexToRgb hex = Some c) :
  exists pre key name post ref,
    colorNames = pre ++ (key, name) :: post /\
    hexToRgb (Some key) = Some ref /\
    colorNameFromHex hex = name /\
    (forall k n ref', In (k, n) pre -> hexToRgb (Some k) = Some ref' ->
       (dist2 c ref < dist2 c ref')%Z) /\
    (forall k n ref', In (k, n) post -> hexToRgb (Some k) = Some ref' ->
       (dist2 c ref <= dist2 c ref')%Z).
Proof.
  unfold colorNameFromHex. rewrite Hc.
  destruct (closest_spec c colorNames "Desconocido" None colorNames_parse)
    as [[_ Hfar]|(pre & key & name & post & ref & H1 & H2 & H3 & _ & H4 & H5)].
  - exfalso. exact (Hfar "#000000"%string "Negro"%string (mkRgb 0 0 0) (or_introl eq_refl) eq_refl).
  - exists pre, key, name, post, ref. auto.
Qed.

Lemma colorNameFromHex_nearest_witness :
  exists pre key name post ref,
    colorNames = pre ++ (key, name) :: post /\
    hexToRgb (Some key) = Some ref /\
    colorNameFromHex (Some "#FA8072"%string) = name /\
    (forall k n ref', In (k, n) pre -> hexToRgb (Some k) = Some ref' ->
       (dist2 (mkRgb 250 128 114) ref < dist2 (mkRgb 250 128 114) ref')%Z) /\
    (forall k n ref', In (k, n) post -> hexToRgb (Some k) = Some ref' ->
       (dist2 (mkRgb 250 128 114) ref <= dist2 (mkRgb 250 128 114) ref')%Z).
Proof. apply colorNameFromHex_nearest. vm_compute. reflexivity. Defined.

Lemma falsy_str_no_rgb (o : option string) : negb (truthy_str o) = true -> hexToRgb o = None.
Proof. destruct o as [[|? ?]|]; simpl; congruence. Qed.

(** A malformed or absent hex never fails: it has no RGB value,
    brightness 50, saturation 0 and the name 'Desconocido'. *)
Theorem malformed_hex_defaults (hex : option string) (Hbad : hexToRgb hex = None) :
  calculateBrightness hex = 50%Z /\ colorNameFromHex hex = "Desconocido"%string /\
  saturation (mkColor hex None) == 0.
Proof.
  unfold calculateBrightness, colorNameFromHex, saturation; simpl.
  rewrite Hbad. repeat split; reflexivity.
Qed.

Lemma malformed_hex_defaults_witness :
  calculateBrightness (Some "#fff"%string) = 50%Z /\
  colorNameFromHex (Some "#fff"%string) = "Desconocido"%string /\
  saturation (mkColor (Some "#fff"%string) None) == 0.
Proof. apply malformed_hex_defaults. vm_compute. reflexivity. Defined.

(** C10: [analyzeColorHarmony] answers 'Insuficientes datos' exactly when
    there are fewer than two colors or one of the first two does not parse;
    otherwise it classifies their distance. *)
Theorem analyzeColorHarmony_insufficient (colors : list ColorItem) :
  analyzeColorHarmony colors = InsuficientesDatos <->
  match colors with
  | c1 :: c2 :: _ => hexToRgb (c_hex c1) = None \/ hexToRgb (c_hex c2) = None
  | _ => True
  end.
Proof.
  destruct colors as [|c1 [|c2 rest]]; simpl; try tauto.
  destruct (negb (truthy_str (c_hex c1))) eqn:F1;
    [rewrite (falsy_str_no_rgb _ F1); tauto |].
  destruct (negb (truthy_str (c_hex c2))) eqn:F2;
    [rewrite (falsy_str_no_rgb _ F2); tauto |].
  simpl. destruct (hexToRgb (c_hex c1)), (hexToRgb (c_hex c2)); [| intuition congruence ..].
  destruct (40000 <? _)%Z; [| destruct (10000 <? _)%Z]; intuition congruence.
Qed.

Lemma dist2_sym (x y : rgb) : dist2 x y = dist2 y x.
Proof. unfold dist2. ring. Qed.

(** The harmony of two colors does not depend on their order, and
    only the first two colors count. *)
Theorem analyzeColorHarmony_symmetric (c1 c2 : ColorItem) (rest rest' : list ColorItem) :
  analyzeColorHarmony (c1 :: c2 :: rest) = analyzeColorHarmony (c2 :: c1 :: rest').
Proof.
  simpl. rewrite orb_comm.
  destruct (negb (truthy_str (c_hex c2)) || negb (truthy_str (c_hex c1))); [reflexivity |].
  destruct (hexToRgb (c_hex c1)), (hexToRgb (c_hex c2)); try reflexivity.
  now rewrite dist2_sym.
Qed.

(** ** The stable sort *)

Lemma insert_desc_perm (c : ColorItem) (l : list ColorItem) :
  Permutation (c :: l) (insert_desc c l).
Proof.
  induction l as [|d l IH]; simpl; [reflexivity |].
  destruct (pct d <=? pct c); [reflexivity |].
  rewrite perm_swap. now apply perm_skip.
Qed.

Lemma insert_desc_hd (c d : ColorItem) (l : list ColorItem) :
  HdRel desc d l -> desc d c -> HdRel desc d (insert_desc c l).
Proof.
  destruct l as [|e l]; simpl; intros Hd Hdc; [now constructor |].
  destruct (pct e <=? pct c); constructor; [exact Hdc |]. now inversion Hd.
Qed.

Lemma insert_desc_sorted (c : ColorItem) (l : list ColorItem) :
  Sorted desc l -> Sorted desc (insert_desc c l).
Proof.
  induction 1 as [|d l Hl IH Hd]; simpl; [now repeat constructor |].
  destruct (Qle_boolP (pct d) (pct c)) as [Hle|Hgt].
  - constructor; [now constructor | now constructor].
  - constructor; [exact IH |]. apply insert_desc_hd; [exact Hd |]. unfold desc. lra.
Qed.

Lemma filter_insert_same (q : Q) (c : ColorItem) (l : list ColorItem) :
  pct_is q c = true -> filter (pct_is q) (insert_desc c l) = c :: filter (pct_is q) l.
Proof.
  unfold pct_is. intros Hc. apply Qeq_bool_iff in Hc.
  induction l as [|d l IH]; simpl; [now rewrite (proj2 (Qeq_bool_iff _ _) Hc) |].
  destruct (Qle_boolP (pct d) (pct c)) as [Hle|Hgt]; simpl.
  - now rewrite (proj2 (Qeq_bool_iff _ _) Hc).
  - destruct (Qeq_bool (pct d) q) eqn:Ed; [apply Qeq_bool_iff in Ed; lra | exact IH].
Qed.

Lemma filter_insert_other (q : Q) (c : ColorItem) (l : list ColorItem) :
  pct_is q c = false -> filter (pct_is q) (insert_desc c l) = filter (pct_is q) l.
Proof.
  intros Hc. induction l as [|d l IH]; simpl; [now rewrite Hc |].
  destruct (pct d <=? pct c); simpl; [now rewrite Hc |].
  now rewrite IH.
Qed.

Lemma sort_by_percentage_perm (l : list ColorItem) : Permutation l (sort_by_percentage l).
Proof.
  induction l as [|c l IH]; simpl; [reflexivity |].
  rewrite <- insert_desc_perm. now apply perm_skip.
Qed.

(** C7: The color ordering of [analyzeColorsAdvanced] is a stable sort:
    it permutes the input, puts percentages in decreasing order, and keeps
    the input order among colors of equal percentage. *)
Theorem sort_by_percentage_stable (l : list ColorItem) :
  Permutation l (sort_by_percentage l) /\
  Sorted desc (sort_by_percentage l) /\
  (forall q, filter (pct_is q) (sort_by_percentage l) = filter (pct_is q) l).
Proof.
  split; [apply sort_by_percentage_perm |].
  induction l as [|c l (IHs & IHf)]; simpl; [now repeat constructor |].
  split.
  - now apply insert_desc_sorted.
  - intros q. destruct (pct_is q c) eqn:Ec.
    + rewrite filter_insert_same by exact Ec. now rewrite IHf.
    + rewrite filter_insert_other by exact Ec. apply IHf.
Qed.

(** ** Saturation, vibrancy and brightness *)

Lemma saturation_range (c : ColorItem) : 0 <= saturation c <= 1.
Proof.
  unfold saturation. destruct (hexToRgb (c_hex c)) as [x|] eqn:E; [| lra].
  destruct (hexToRgb_range _ _ E) as (Hr & Hg & Hb); unfold channel_ok in *.
  cbv zeta. destruct (Z.eqb_spec (Z.max (r x) (Z.max (g x) (b x))) 0) as [|Hne]; [lra |].
  set (mx := Z.max (r x) (Z.max (g x) (b x))) in *.
  set (mn := Z.min (r x) (Z.min (g x) (b x))).
  assert (H1 : (0 <= mx - mn <= mx)%Z) by (unfold mx, mn; lia).
  assert (H2 : (0 < mx)%Z) by (unfold mx in *; lia).
  rewrite Zle_Qle, Zle_Qle in H1. rewrite Zlt_Qlt in H2.
  change (inject_Z 0) with 0 in H1, H2.
  split.
  - apply Qle_shift_div_l; [exact H2 | lra].
  - apply Qle_shift_div_r; [exact H2 | lra].
Qed.

Lemma saturation_grey (c : ColorItem) :
  (forall x, hexToRgb (c_hex c) = Some x -> r x = g x /\ g x = b x) ->
  saturation c == 0.
Proof.
  unfold saturation. destruct (hexToRgb (c_hex c)) as [x|]; [| reflexivity].
  intros H. destruct (H x eq_refl) as [E1 E2]. cbv zeta.
  rewrite E1, E2, !Z.max_id, !Z.min_id, Z.sub_diag.
  destruct (b x =? 0)%Z; [reflexivity |]. change (inject_Z 0) with 0. apply Qmult_0_l.
Qed.

(** Colors without saturation (greys, black and white, and malformed
    hexes) always give the vibrancy 'Baja'. *)
Theorem calculateVibrancy_grey (colors : list ColorItem)
  (Hgrey : forall c, In c colors ->
     forall x, hexToRgb (c_hex c) = Some x -> r x = g x /\ g x = b x) :
  calculateVibrancy colors = Baja.
Proof.
  destruct colors as [|c0 cs]; [reflexivity |]. cbv beta iota zeta delta [calculateVibrancy].
  pose proof (reduce_add_mean_bounds (saturation c0) (map saturation cs) 0 0) as Hm.
  assert (Hlen : length (saturation c0 :: map saturation cs) = length (c0 :: cs))
    by (simpl; now rewrite length_map).
  rewrite Hlen in Hm.
  set (avg := reduce_add (saturation c0) (map saturation cs) / _) in *.
  assert (Havg : 0 <= avg <= 0).
  { apply Hm.
    - pose proof (saturation_grey c0 (Hgrey c0 (or_introl eq_refl))). lra.
    - intros y Hy. apply in_map_iff in Hy as (c & <- & Hc).
      pose proof (saturation_grey c (Hgrey c (or_intror Hc))). lra. }
  qcase; try reflexivity; lra.
Qed.

Lemma calculateVibrancy_grey_witness :
  calculateVibrancy [mkColor (Some "#808080"%string) (Some 60); mkColor (Some "#FFFFFF"%string) (Some 40)] = Baja.
Proof.
  apply calculateVibrancy_grey. intros c Hc x Hx. simpl in Hc.
  destruct Hc as [<-|[<-|[]]]; vm_compute in Hx; injection Hx as <-; vm_compute; split; reflexivity.
Defined.

(** C31: The average brightness reported by [analyzeColorsAdvanced] is
    within [0, 255] for every color list (50 for the empty one): it is the
    mean of [calculateBrightness] over the list, never a value outside the
    channel range. *)
Theorem analyzeColorsAdvanced_avg_brightness (colors : list ColorItem) :
  0 <= avg_brightness (analyzeColorsAdvanced colors) <= 255.
Proof.
  destruct colors as [|c0 cs]; [simpl; lra |].
  cbv beta iota zeta delta [analyzeColorsAdvanced]. cbn [avg_brightness map].
  apply reduce_add_mean_bounds.
  - pose proof (calculateBrightness_range (c_hex c0)) as H.
    rewrite !Zle_Qle in H. exact H.
  - intros y Hy. apply in_map_iff in Hy as (c & <- & _).
    pose proof (calculateBrightness_range (c_hex c)) as H.
    rewrite !Zle_Qle in H. exact H.
Qed.

(** C40: [calculateBrightness] ranges over [0, 255], not over the 0-100
    its comment announces: white has brightness 255, and [detectMood]'s
    thresholds 70 and 30 are compared against this 0-255 scale. *)
Theorem calculateBrightness_scale (hex : option string) :
  (0 <= calculateBrightness hex <= 255)%Z /\
  calculateBrightness (Some "#FFFFFF"%string) = 255%Z.
Proof. split; [apply calculateBrightness_range | reflexivity]. Qed.

End Color.
