(* ===== verification/Tags.v ===== *)
(** * Tag categorisation and scene description

    [categorizeTags], [detectSceneType], [detectSetting], [detectMood],
    [findDominantTheme] and [generateDetailedSceneDescription] of
    [src/server.js] (lines 251-355).  Labels are lower-cased with
    [toLowerCase] and searched with [String.prototype.includes]; the
    scene heuristics search the labels joined with a space. *)

From Stdlib Require Import QArith ZArith String Ascii List Bool Lia Lqa.
From S2P Require Import Prelude Imagga Confidence Colors.
Import ListNotations.
Import Payload Conf Color.
Local Open Scope Q_scope.
Local Open Scope js_scope.

Module Tags.

(** The keys of the [keywords] and [categorized] objects, in their
    insertion order. *)
Inductive category := Entities | Attributes | Environment | Actions | Concepts.

Definition category_eqb (x y : category) : bool :=
  match x, y with
  | Entities, Entities | Attributes, Attributes | Environment, Environment
  | Actions, Actions | Concepts, Concepts => true
  | _, _ => false
  end.

(** The [keywords] table of [categorizeTags]. *)
Definition keywords : list (category * list string) :=
  [(Entities, ["person"; "people"; "man"; "woman"; "child"; "animal"; "dog"; "cat";
               "bird"; "car"; "building"; "tree"; "flower"; "plant"]);
   (Attributes, ["beautiful"; "dark"; "bright"; "color"; "colorful"; "monochrome";
                 "small"; "large"; "old"; "new"]);
   (Environment, ["outdoor"; "indoor"; "nature"; "mountain"; "sea"; "beach"; "forest";
                  "city"; "street"; "sky"; "water"; "ground"]);
   (Actions, ["running"; "walking"; "sitting"; "standing"; "playing"; "sleeping";
              "eating"; "jumping"; "flying"; "swimming"]);
   (Concepts, ["love"; "happy"; "sad"; "beautiful"; "ugly"; "fun"; "serious"; "calm";
               "exciting"; "peaceful"])]%string.

(** The [categorized] object: one array per category. *)
Record Categorized := mkCat {
  entities : list ConfItem; attributes : list ConfItem; environment : list ConfItem;
  actions : list ConfItem; concepts : list ConfItem }.

Definition empty_categorized : Categorized := mkCat [] [] [] [] [].

Definition category_list (cat : category) (st : Categorized) : list ConfItem :=
  match cat with
  | Entities => entities st | Attributes => attributes st
  | Environment => environment st | Actions => actions st
  | Concepts => concepts st
  end.

(** [categorized[category].push(item)]. *)
Definition push (cat : category) (item : ConfItem) (st : Categorized) : Categorized :=
  let add c l := if category_eqb cat c then l ++ [item] else l in
  mkCat (add Entities (entities st)) (add Attributes (attributes st))
        (add Environment (environment st)) (add Actions (actions st))
        (add Concepts (concepts st)).

(** The inner loop: the first category, in table order, one of whose
    keywords occurs in the lower-cased label. *)
Fixpoint first_category (tagName : string) (table : list (category * list string))
    : option category :=
  match table with
  | [] => None
  | (cat, keywords_list) :: rest =>
      if existsb (fun kw => contains tagName kw) keywords_list then Some cat
      else first_category tagName rest
  end.

(** One iteration of [tags.forEach]: push the item to the first matching
    category, or to [concepts] when none matches. *)
Definition categorize_step (table : list (category * list string))
    (st : Categorized) (t : TagItem) : Categorized :=
  let tagName := tag_name_lower t in
  let item := conf_item t in
  match first_category tagName table with
  | Some cat => push cat item st
  | None => push Concepts item st
  end.

Definition categorizeTags_with (table : list (category * list string))
    (tags : list TagItem) : Categorized :=
  fold_left (categorize_step table) tags empty_categorized.

(** [categorizeTags]. *)
Definition categorizeTags (tags : list TagItem) : Categorized :=
  categorizeTags_with keywords tags.

(** The category a tag lands in. *)
Definition category_of (table : list (category * list string)) (t : TagItem) : category :=
  match first_category (tag_name_lower t) table with
  | Some cat => cat
  | None => Concepts
  end.

(** [tags.map(t => (t.tag?.en || 'Unknown').toLowerCase()).join(' ')]. *)
Definition tagNames (tags : list TagItem) : string :=
  join " " (map tag_name_lower tags).

Inductive scene_type := Retrato | Paisaje | Comida | VidaSilvestre | Arquitectura
                      | Naturaleza | General.

(** [detectSceneType]; its [objects] argument is unused. *)
Definition detectSceneType (tags objects : list TagItem) : scene_type :=
  let names := tagNames tags in
  if contains names "portrait" || contains names "person" then Retrato
  else if contains names "landscape" || contains names "mountain" then Paisaje
  else if contains names "food" || contains names "drink" then Comida
  else if contains names "animal" then VidaSilvestre
  else if contains names "building" || contains names "architecture" then Arquitectura
  else if contains names "nature" || contains names "outdoor" then Naturaleza
  else General.

Inductive setting := Interior | Exterior | Noche | Dia | NoEspecificado.

(** [detectSetting]. *)
Definition detectSetting (tags : list TagItem) : setting :=
  let names := tagNames tags in
  if contains names "indoor" then Interior
  else if contains names "outdoor" || contains names "sky" then Exterior
  else if contains names "night" then Noche
  else if contains names "day" then Dia
  else NoEspecificado.

Inductive mood := Alegre | Oscuro | Tranquilo | Dinamico | Neutral.

(** The [brightness] of [detectMood]: the sum of the brightness of the
    first three colors divided by 3, or 50 without colors. *)
Definition mood_brightness (colors : list ColorItem) : Q :=
  match map (fun c => inject_Z (calculateBrightness (c_hex c))) (slice 3 colors) with
  | [] => 50
  | b0 :: bs => reduce_add b0 bs / 3
  end.

(** [detectMood]. *)
Definition detectMood (colors : list ColorItem) (tags : list TagItem) : mood :=
  let names := tagNames tags in
  let brightness := mood_brightness colors in
  if brightness >? 70 then Alegre
  else if brightness <? 30 then Oscuro
  else if contains names "nature" || contains names "calm" then Tranquilo
  else if contains names "action" || contains names "sport" then Dinamico
  else Neutral.

(** [findDominantTheme]. *)
Definition findDominantTheme (tags : list TagItem) : string :=
  match tags with
  | [] => "Desconocido"
  | t :: _ => str_or (t_en t) "Desconocido"
  end.

(** [generateDetailedSceneDescription]. *)
Definition generateDetailedSceneDescription
    (tags : list TagItem) (colors : list ColorItem) (objects : list TagItem) : string :=
  let topTags := map tag_name (slice 6 tags) in
  let topColors := map (fun c => colorNameFromHex (c_hex c)) (slice 3 colors) in
  let topObjects := map tag_name (slice 3 objects) in
  let description := ("Imagen que contiene: " ++ join ", " topTags ++ ". ")%string in
  let description :=
    match topObjects with
    | [] => description
    | _ :: _ => (description ++ "Objetos principales: " ++ join ", " topObjects ++ ". ")%string
    end in
  match topColors with
  | [] => description
  | _ :: _ => (description ++ "Tonalidades: " ++ join ", " topColors ++ ".")%string
  end.

(** Sample tags of the witnesses. *)
Definition tag_of (label : string) : TagItem := mkTag (Some 90) (Some label).

(** ** Categorisation *)

Lemma category_list_push (c cat : category) (item : ConfItem) (st : Categorized) :
  category_list c (push cat item st) =
    if category_eqb cat c then category_list c st ++ [item] else category_list c st.
Proof. destruct c; reflexivity. Qed.

Lemma categorize_step_push (table : list (category * list string)) st t :
  categorize_step table st t = push (category_of table t) (conf_item t) st.
Proof. unfold categorize_step, category_of. now destruct first_category. Qed.

Lemma category_list_fold (table : list (category * list string)) (c : category)
    (tags : list TagItem) (st : Categorized) :
  category_list c (fold_left (categorize_step table) tags st) =
    category_list c st ++
    map conf_item (filter (fun t => category_eqb (category_of table t) c) tags).
Proof.
  revert st; induction tags as [|t tags IH]; intros st; simpl.
  - now rewrite app_nil_r.
  - rewrite IH, categorize_step_push, category_list_push.
    destruct (category_eqb (category_of table t) c); simpl; [| reflexivity].
    now rewrite <- app_assoc.
Qed.

Lemma category_counts (table : list (category * list string)) (tags : list TagItem) :
  let n c := length (filter (fun t => category_eqb (category_of table t) c) tags) in
  (n Entities + n Attributes + n Environment + n Actions + n Concepts = length tags)%nat.
Proof.
  induction tags as [|t tags IH]; simpl in *; [reflexivity |].
  destruct (category_of table t); simpl; lia.
Qed.

(** C2: [categorizeTags] partitions the tags: each category receives, in
    input order, the items of exactly the tags whose first matching
    category (in table order, [concepts] by default) it is, so the five
    lists hold every tag once. *)
Theorem categorizeTags_partition (tags : list TagItem) :
  (forall c, category_list c (categorizeTags tags) =
     map conf_item (filter (fun t => category_eqb (category_of keywords t) c) tags)) /\
  (length (entities (categorizeTags tags)) + length (attributes (categorizeTags tags)) +
   length (environment (categorizeTags tags)) + length (actions (categorizeTags tags)) +
   length (concepts (categorizeTags tags)) = length tags)%nat.
Proof.
  assert (Hc : forall c, category_list c (categorizeTags tags) =
     map conf_item (filter (fun t => category_eqb (category_of keywords t) c) tags))
    by (intros c; unfold categorizeTags, categorizeTags_with;
        rewrite category_list_fold; now destruct c).
  split; [exact Hc |].
  rewrite <- (category_counts keywords tags).
  change (entities ?x) with (category_list Entities x).
  change (attributes ?x) with (category_list Attributes x).
  change (environment ?x) with (category_list Environment x).
  change (actions ?x) with (category_list Actions x).
  change (concepts ?x) with (category_list Concepts x).
  now rewrite !Hc, !length_map.
Qed.

Lemma categorize_fold_ext (t1 t2 : list (category * list string)) (tags : list TagItem) st :
  (forall t, category_of t1 t = category_of t2 t) ->
  fold_left (categorize_step t1) tags st = fold_left (categorize_step t2) tags st.
Proof.
  intros Heq. revert st; induction tags as [|t tags IH]; intros st; simpl; [reflexivity |].
  now rewrite !categorize_step_push, Heq, IH.
Qed.

(** C36: The keyword list of [concepts] has no effect: it is the last
    category and also the default, so replacing its keywords by any list
    (the empty one included) gives the same categorisation; in particular
    'beautiful', listed under both attributes and concepts, always lands
    in attributes. *)
Theorem concepts_keywords_irrelevant (kws : list string) (tags : list TagItem) :
  categorizeTags_with (firstn 4 keywords ++ [(Concepts, kws)]) tags = categorizeTags tags.
Proof.
  apply categorize_fold_ext. intros t. unfold category_of.
  cbn [first_category firstn app keywords].
  repeat destruct (existsb _ _); reflexivity.
Qed.

(** ** Scene heuristics *)

(** The scene keywords have no space: searching them in the joined labels
    is searching them in each label. *)
Lemma tagNames_contains (tags : list TagItem) (kw : string) :
  has_char " " kw = false -> kw <> EmptyString ->
  contains (tagNames tags) kw = existsb (fun t => contains (tag_name_lower t) kw) tags.
Proof.
  intros Hs Hne. unfold tagNames. rewrite contains_join by assumption.
  induction tags as [|t tags IH]; simpl; [reflexivity | now rewrite IH].
Qed.

Ltac kw_ok := first [reflexivity | discriminate].

(** Scene-type rules are ordered: as soon as one tag label contains
    'portrait' or 'person' the scene is 'Retrato', whatever the other tags
    ('mountain' included) say. *)
Theorem detectSceneType_portrait_first (tags objects : list TagItem) (t : TagItem)
  (Ht : In t tags)
  (Hp : contains (tag_name_lower t) "portrait" || contains (tag_name_lower t) "person" = true) :
  detectSceneType tags objects = Retrato.
Proof.
  unfold detectSceneType. rewrite !tagNames_contains by kw_ok.
  apply orb_true_iff in Hp as [Hp|Hp].
  - now rewrite (proj2 (existsb_exists _ _) (ex_intro _ t (conj Ht Hp))).
  - rewrite (proj2 (existsb_exists _ _) (ex_intro _ t (conj Ht Hp))).
    now rewrite orb_true_r.
Qed.

Lemma detectSceneType_portrait_first_witness :
  detectSceneType [tag_of "mountain"; tag_of "Portrait"] [] = Retrato.
Proof.
  apply (detectSceneType_portrait_first _ _ (tag_of "Portrait")); [simpl; auto | vm_compute; reflexivity].
Defined.

(** Without a portrait or person label, a label containing 'mountain'
    makes the scene 'Paisaje'. *)
Theorem detectSceneType_mountain (tags objects : list TagItem) (t : TagItem)
  (Hnone : forall u, In u tags ->
     contains (tag_name_lower u) "portrait" = false /\ contains (tag_name_lower u) "person" = false)
  (Ht : In t tags) (Hm : contains (tag_name_lower t) "mountain" = true) :
  detectSceneType tags objects = Paisaje.
Proof.
  unfold detectSceneType. rewrite !tagNames_contains by kw_ok.
  assert (E : forall kw, (kw = "portrait" \/ kw = "person")%string ->
            existsb (fun u => contains (tag_name_lower u) kw) tags = false).
  { intros kw Hkw. apply not_true_iff_false. intros Hex.
    apply existsb_exists in Hex as (u & Hu & Hc).
    destruct (Hnone u Hu). destruct Hkw as [->| ->]; congruence. }
  rewrite (E "portrait"%string), (E "person"%string) by auto. simpl.
  rewrite (proj2 (existsb_exists _ _) (ex_intro _ t (conj Ht Hm))).
  now rewrite orb_true_r.
Qed.

Lemma detectSceneType_mountain_witness :
  detectSceneType [tag_of "Snow"; tag_of "Mountain range"] [] = Paisaje.
Proof.
  apply (detectSceneType_mountain _ _ (tag_of "Mountain range")).
  - intros u Hu. simpl in Hu. destruct Hu as [<-|[<-|[]]]; vm_compute; split; reflexivity.
  - simpl; auto.
  - vm_compute; reflexivity.
Defined.

Lemma existsb_none (tags : list TagItem) (kw : string) :
  (forall u, In u tags -> contains (tag_name_lower u) kw = false) ->
  existsb (fun u => contains (tag_name_lower u) kw) tags = false.
Proof.
  intros H. apply not_true_iff_false. intros Hex.
  apply existsb_exists in Hex as (u & Hu & Hc). now rewrite (H u Hu) in Hc.
Qed.

(** 'day' is searched as a substring of the labels: a label such as
    'holiday' or 'birthday', with no 'indoor', 'outdoor', 'sky' or
    'night' label, makes the setting 'Día'. *)
Theorem detectSetting_day_substring (tags : list TagItem) (t : TagItem)
  (Hnone : forall u, In u tags ->
     contains (tag_name_lower u) "indoor" = false /\ contains (tag_name_lower u) "outdoor" = false /\
     contains (tag_name_lower u) "sky" = false /\ contains (tag_name_lower u) "night" = false)
  (Ht : In t tags) (Hday : contains (tag_name_lower t) "day" = true) :
  detectSetting tags = Dia.
Proof.
  unfold detectSetting. rewrite !tagNames_contains by kw_ok.
  rewrite !existsb_none by (intros u Hu; apply Hnone, Hu). simpl.
  now rewrite (proj2 (existsb_exists _ _) (ex_intro _ t (conj Ht Hday))).
Qed.

Lemma detectSetting_day_substring_witness :
  detectSetting [tag_of "holiday"; tag_of "beach"] = Dia.
Proof.
  apply (detectSetting_day_substring _ (tag_of "holiday")).
  - intros u Hu. simpl in Hu. destruct Hu as [<-|[<-|[]]]; vm_compute; repeat split.
  - simpl; auto.
  - vm_compute; reflexivity.
Defined.

(** C33: The mood divides the brightness sum of the first three colors by
    3 even when there are fewer: a single color of brightness up to 210
    (whose average brightness may be far above the threshold 70) never
    gives 'Alegre y Luminoso'. *)
Theorem detectMood_one_color (c : ColorItem) (tags : list TagItem)
  (Hb : (calculateBrightness (c_hex c) <= 210)%Z) :
  detectMood [c] tags <> Alegre.
Proof.
  assert (Hm : mood_brightness [c] <= 70).
  { cbn [mood_brightness slice firstn map reduce_add fold_left].
    apply Qle_shift_div_r; [reflexivity |].
    rewrite Zle_Qle in Hb. change (inject_Z 210) with 210 in Hb. lra. }
  unfold detectMood. destruct (QltbP 70 (mood_brightness [c])); [lra |].
  destruct (Qltb _ 30); [discriminate |].
  destruct (_ || _); [discriminate |]. destruct (_ || _); discriminate.
Qed.

Lemma detectMood_one_color_witness :
  detectMood [mkColor (Some "#969696"%string) (Some 100)] [] <> Alegre.
Proof. apply detectMood_one_color. vm_compute. discriminate. Defined.

(** Without colors the mood is decided by the tags alone (brightness
    defaults to 50), so it is never 'Alegre y Luminoso' nor 'Oscuro y
    Misterioso'. *)
Theorem detectMood_no_colors (tags : list TagItem) :
  detectMood [] tags <> Alegre /\ detectMood [] tags <> Oscuro.
Proof.
  unfold detectMood. cbn [mood_brightness slice firstn map].
  change (Qltb 70 50) with false. change (Qltb 50 30) with false. cbv iota.
  destruct (_ || _); [split; discriminate |]. destruct (_ || _); split; discriminate.
Qed.

(** The description names every one of the first six tag labels. *)
Theorem description_mentions_tags (tags : list TagItem) (colors : list ColorItem)
    (objects : list TagItem) (t : TagItem) (Ht : In t (slice 6 tags)) :
  contains (generateDetailedSceneDescription tags colors objects) (tag_name t) = true.
Proof.
  unfold generateDetailedSceneDescription. cbv zeta.
  assert (Hbase : contains ("Imagen que contiene: " ++ join ", " (map tag_name (slice 6 tags)) ++ ". ")
                    (tag_name t) = true)
    by (apply contains_app_r, contains_app_l, contains_join_mem, in_map, Ht).
  destruct (map tag_name (slice 3 objects)), (map (fun c => colorNameFromHex (c_hex c)) (slice 3 colors));
    first [exact Hbase | apply contains_app_l; exact Hbase | apply contains_app_l, contains_app_l; exact Hbase].
Qed.

Lemma description_mentions_tags_witness :
  contains (generateDetailedSceneDescription [tag_of "dog"; tag_of "grass"] [] [])
           (tag_name (tag_of "grass")) = true.
Proof. apply description_mentions_tags. simpl; auto. Defined.

End Tags.
