(* ===== verification/Metrics.v ===== *)
(** * Composition metrics

    [calculateSceneMetrics] and [calculateComplexity] of [src/server.js]
    (lines 357-375); the vibrancy comes from [Colors]. *)

From Stdlib Require Import QArith ZArith List Bool Lia Lqa.
From S2P Require Import Prelude Imagga Colors.
Import ListNotations.
Import Payload Color.
Local Open Scope Q_scope.
Local Open Scope js_scope.

Module Metrics.

(** An array length as a number. *)
Definition count {A} (l : list A) : Q := inject_Z (Z.of_nat (length l)).

(** [(tags.length * 0.4 + objects.length * 0.3 + colors.length * 0.3) / 2]. *)
Definition complexity_score (tags : list TagItem) (colors : list ColorItem)
    (objects : list TagItem) : Q :=
  (count tags * (4 # 10) + count objects * (3 # 10) + count colors * (3 # 10)) / 2.

(** [calculateComplexity]. *)
Definition calculateComplexity (tags : list TagItem) (colors : list ColorItem)
    (objects : list TagItem) : grade :=
  let score := complexity_score tags colors objects in
  if score >? 7 then MuyAlta
  else if score >? 5 then Alta
  else if score >? 3 then Media
  else Baja.

Record SceneMetrics := mkMetrics {
  object_diversity : nat; color_diversity : nat; tag_diversity : nat;
  complexity : grade; vibrancy : grade }.

(** [calculateSceneMetrics]. *)
Definition calculateSceneMetrics (tags : list TagItem) (colors : list ColorItem)
    (objects : list TagItem) : SceneMetrics :=
  {| object_diversity := min10 (length objects);
     color_diversity := min10 (length colors);
     tag_diversity := min10 (length tags);
     complexity := calculateComplexity tags colors objects;
     vibrancy := calculateVibrancy colors |}.

(** The order of the grades. *)
Definition grade_rank (x : grade) : nat :=
  match x with Baja => 0 | Media => 1 | Alta => 2 | MuyAlta => 3 end.

(** ** Theorems *)

Lemma count_le {A B} (l : list A) (l' : list B) :
  (length l <= length l')%nat -> count l <= count l'.
Proof. intros H. unfold count. rewrite <- Zle_Qle. lia. Qed.

Lemma count_nonneg {A} (l : list A) : 0 <= count l.
Proof. unfold count. change 0 with (inject_Z 0). rewrite <- Zle_Qle. lia. Qed.

Lemma complexity_score_le tags colors objects tags' colors' objects' :
  (length tags <= length tags')%nat -> (length colors <= length colors')%nat ->
  (length objects <= length objects')%nat ->
  complexity_score tags colors objects <= complexity_score tags' colors' objects'.
Proof.
  intros Ht Hc Ho. unfold complexity_score.
  apply Qmult_le_compat_r; [| discriminate].
  pose proof (count_le _ _ Ht). pose proof (count_le _ _ Hc). pose proof (count_le _ _ Ho).
  lra.
Qed.

(** More tags, colors or objects never lower the complexity grade. *)
Theorem calculateComplexity_monotone tags colors objects tags' colors' objects'
  (Ht : (length tags <= length tags')%nat) (Hc : (length colors <= length colors')%nat)
  (Ho : (length objects <= length objects')%nat) :
  (grade_rank (calculateComplexity tags colors objects) <=
   grade_rank (calculateComplexity tags' colors' objects'))%nat.
Proof.
  pose proof (complexity_score_le _ _ _ _ _ _ Ht Hc Ho).
  unfold calculateComplexity.
  set (s := complexity_score tags colors objects) in *.
  set (s' := complexity_score tags' colors' objects') in *.
  qcase; simpl; first [lia | lra].
Qed.

Lemma calculateComplexity_monotone_witness :
  (grade_rank (calculateComplexity (repeat (mkTag None None) 10) [] []) <=
   grade_rank (calculateComplexity (repeat (mkTag None None) 20)
                 (repeat (mkColor None None) 8) (repeat (mkTag None None) 5)))%nat.
Proof. apply calculateComplexity_monotone; simpl; lia. Defined.

(** Tags alone, at most twenty of them as the synthesizer passes,
    never make the complexity more than 'Media': 'Alta' needs colors or
    objects. *)
Theorem calculateComplexity_tags_only (tags : list TagItem)
  (Hlen : (length tags <= 20)%nat) :
  (grade_rank (calculateComplexity tags [] []) <= 1)%nat.
Proof.
  assert (Hs : complexity_score tags [] [] <= 4).
  { unfold complexity_score. apply Qle_shift_div_r; [reflexivity |].
    assert (H20 : count tags <= 20).
    { unfold count. change 20 with (inject_Z (Z.of_nat 20)). rewrite <- Zle_Qle. lia. }
    change (count (@nil TagItem)) with 0. change (count (@nil ColorItem)) with 0. lra. }
  unfold calculateComplexity.
  set (s := complexity_score tags [] []) in *.
  qcase; simpl; first [lia | lra].
Qed.

Lemma calculateComplexity_tags_only_witness :
  (grade_rank (calculateComplexity (repeat (mkTag None None) 20) [] []) <= 1)%nat.
Proof. apply calculateComplexity_tags_only. simpl; lia. Defined.

End Metrics.
