(* ===== verification/Scene.v ===== *)
(** * The scene context

    [generateSceneContext] of [src/server.js] (lines 51-144): it reads the
    three optional result sets, runs the color, tag and metric components
    on them and assembles the [context] object with its display caps. *)

From Stdlib Require Import QArith ZArith String List Bool Lia Lqa.
From S2P Require Import Prelude Imagga Confidence Colors Tags Metrics.
Import ListNotations.
Import Payload Conf Color Tags Metrics.
Local Open Scope Q_scope.
Local Open Scope js_scope.

Module Scene.

(** The object [analyzeImageFull] returns: the tags response (mandatory)
    and the colors and auto-tagging responses ([null] when their call
    failed).  Each field holds the array at [result.tags] /
    [result.colors], [None] when any step of the optional chain is
    missing. *)
Record AnalysisData := mkAnalysisData {
  a_tags : option (list TagItem);
  a_colors : option (list ColorItem);
  a_objects : option (list TagItem) }.

(** [x || []]. *)
Definition or_nil {A} (o : option (list A)) : list A :=
  match o with Some l => l | None => [] end.

(** [o.confidence >= confidenceThreshold] with [confidenceThreshold = 0.5],
    on the raw value: an absent confidence compares false. *)
Definition confidenceThreshold : Q := 1 # 2.

Definition is_high_confidence (o : TagItem) : bool :=
  match t_confidence o with
  | Some q => q >=? confidenceThreshold
  | None => false
  end.

(** An entry of [color_analysis.dominant]. *)
Record DominantOut := mkDominantOut {
  do_hex : option string; do_rgb : option rgb; do_percentage : Q;
  do_name : string; do_brightness : Z }.

Definition dominant_out (c : Dominant) : DominantOut :=
  {| do_hex := d_hex c; do_rgb := d_rgb c;
     do_percentage := to_fixed2 (d_percentage c);
     do_name := colorNameFromHex (d_hex c);
     do_brightness := calculateBrightness (d_hex c) |}.

(** The [context] object. *)
Record SceneContext := mkContext {
  high_confidence : list ConfItem;
  all_objects : list ConfItem;
  dominant_colors : list DominantOut;
  palette_colors : list (option string);
  color_harmony : harmony;
  avg_brightness_out : Q;
  tags_by_category : Categorized;
  description : string;
  scene_kind : scene_type;
  scene_setting : setting;
  scene_mood : mood;
  dominant_theme : string;
  composition_metrics : SceneMetrics;
  overall_confidence : Q;
  all_tags : list ConfItem }.

(** [categorizedTags.<category>.slice(0, 8)] for the five categories. *)
Definition cap_categories (c : Categorized) : Categorized :=
  mkCat (slice 8 (entities c)) (slice 8 (attributes c)) (slice 8 (environment c))
        (slice 8 (actions c)) (slice 8 (concepts c)).

(** [generateSceneContext]. *)
Definition generateSceneContext (analysisData : AnalysisData) : SceneContext :=
  let tags := slice 20 (or_nil (a_tags analysisData)) in
  let colors := or_nil (a_colors analysisData) in
  let objects := or_nil (a_objects analysisData) in
  let highConfidenceObjects := filter is_high_confidence objects in
  let allObjects := slice 10 objects in
  let colorAnalysis := analyzeColorsAdvanced colors in
  let categorizedTags := categorizeTags tags in
  let sceneMetrics := calculateSceneMetrics tags colors objects in
  {| high_confidence := map conf_item (slice 5 highConfidenceObjects);
     all_objects := map conf_item allObjects;
     dominant_colors := map dominant_out (slice 5 (dominant colorAnalysis));
     palette_colors := slice 8 (palette colorAnalysis);
     color_harmony := analyzeColorHarmony colors;
     avg_brightness_out := to_fixed2 (avg_brightness colorAnalysis);
     tags_by_category := cap_categories categorizedTags;
     description := generateDetailedSceneDescription tags colors objects;
     scene_kind := detectSceneType tags objects;
     scene_setting := detectSetting tags;
     scene_mood := detectMood colors tags;
     dominant_theme := findDominantTheme tags;
     composition_metrics := sceneMetrics;
     overall_confidence := to_fixed2 (calculateAverageConfidence tags);
     all_tags := map conf_item (slice 20 tags) |}.

(** The items a context shows with a confidence: [all_tags], both object
    views and the five tag categories. *)
Definition surfaced_items (ctx : SceneContext) : list ConfItem :=
  all_tags ctx ++ high_confidence ctx ++ all_objects ctx ++
  entities (tags_by_category ctx) ++ attributes (tags_by_category ctx) ++
  environment (tags_by_category ctx) ++ actions (tags_by_category ctx) ++
  concepts (tags_by_category ctx).

(** ** Theorems *)

(** Sample inputs of the witnesses. *)
Definition sample_tags : list TagItem :=
  [mkTag (Some (95 # 100)) (Some "dog"%string); mkTag (Some (71 # 100)) (Some "grass"%string)].
Definition sample_objects : list TagItem := [mkTag (Some 87) (Some "car"%string)].

Lemma category_items (c : category) (tags : list TagItem) (i : ConfItem) :
  In i (category_list c (categorizeTags tags)) -> exists t, In t tags /\ i = conf_item t.
Proof.
  unfold categorizeTags, categorizeTags_with. rewrite category_list_fold.
  replace (category_list c empty_categorized) with (@nil ConfItem) by (now destruct c).
  simpl. intros Hi. apply in_map_iff in Hi as (t & <- & Ht).
  apply filter_In in Ht as [Ht _]. eauto.
Qed.

Lemma slice_items (n : nat) (l : list TagItem) (i : ConfItem) :
  In i (map conf_item (slice n l)) -> exists t, In t l /\ i = conf_item t.
Proof.
  intros Hi. apply in_map_iff in Hi as (t & <- & Ht). exists t. split; [| reflexivity].
  now apply (slice_incl n l).
Qed.

(** C1: With the colors and auto-tagging sections missing (their calls
    failed), the context is still built: no objects and no colors, zero
    object and color diversity, harmony 'Insuficientes datos', average
    brightness 50, vibrancy 'Baja', and a mood decided by the tags. *)
Theorem generateSceneContext_missing_sections (ad : AnalysisData)
  (Hc : a_colors ad = None) (Ho : a_objects ad = None) :
  let ctx := generateSceneContext ad in
  high_confidence ctx = [] /\ all_objects ctx = [] /\ dominant_colors ctx = [] /\
  palette_colors ctx = [] /\ color_harmony ctx = InsuficientesDatos /\
  avg_brightness_out ctx == 50 /\
  object_diversity (composition_metrics ctx) = 0%nat /\
  color_diversity (composition_metrics ctx) = 0%nat /\
  vibrancy (composition_metrics ctx) = Baja /\
  scene_mood ctx <> Alegre /\ scene_mood ctx <> Oscuro.
Proof.
  destruct ad as [tg cl ob]; simpl in Hc, Ho; subst cl ob.
  cbv zeta. unfold generateSceneContext; simpl or_nil.
  destruct (detectMood_no_colors (slice 20 (or_nil tg))) as [Hm1 Hm2].
  repeat split; try reflexivity; assumption.
Qed.

Lemma generateSceneContext_missing_sections_witness :
  let ctx := generateSceneContext (mkAnalysisData (Some sample_tags) None None) in
  high_confidence ctx = [] /\ all_objects ctx = [] /\ dominant_colors ctx = [] /\
  palette_colors ctx = [] /\ color_harmony ctx = InsuficientesDatos /\
  avg_brightness_out ctx == 50 /\
  object_diversity (composition_metrics ctx) = 0%nat /\
  color_diversity (composition_metrics ctx) = 0%nat /\
  vibrancy (composition_metrics ctx) = Baja /\
  scene_mood ctx <> Alegre /\ scene_mood ctx <> Oscuro.
Proof. apply generateSceneContext_missing_sections; reflexivity. Defined.

(** C6: Every list of the context respects its display cap (5 confident
    objects, 10 objects, 5 dominant colors, 8 palette entries, 8 tags per
    category, 20 tags), the diversity metrics are at most 10 and the
    overall confidence is within [0, 100]. *)
Theorem generateSceneContext_caps (ad : AnalysisData) :
  let ctx := generateSceneContext ad in
  (length (high_confidence ctx) <= 5 /\ length (all_objects ctx) <= 10 /\
   length (dominant_colors ctx) <= 5 /\ length (palette_colors ctx) <= 8 /\
   (forall c, length (category_list c (tags_by_category ctx)) <= 8) /\
   length (all_tags ctx) <= 20 /\
   object_diversity (composition_metrics ctx) <= 10 /\
   color_diversity (composition_metrics ctx) <= 10 /\
   tag_diversity (composition_metrics ctx) <= 10)%nat /\
  0 <= overall_confidence ctx <= 100.
Proof.
  cbv zeta. unfold generateSceneContext; cbn [high_confidence all_objects dominant_colors
    palette_colors tags_by_category all_tags composition_metrics overall_confidence].
  rewrite !length_map. unfold calculateSceneMetrics, min10; cbn [object_diversity color_diversity tag_diversity].
  split.
  - repeat split; auto with scene; try lia.
    intros c; destruct c; cbn [category_list cap_categories entities attributes environment actions concepts]; auto with scene.
  - apply (to_fixed2_range _ 0 100); [lia | apply calculateAverageConfidence_range].
Qed.

(** C5: Every confidence the context shows (all tags, both object views,
    the five categories) is within [0, 100] when the raw confidences of
    the tags and objects are, on either scale. *)
Theorem surfaced_confidences_range (ad : AnalysisData)
  (Hraw : forall t, In t (or_nil (a_tags ad) ++ or_nil (a_objects ad)) ->
     0 <= conf_value t <= 100) :
  forall i, In i (surfaced_items (generateSceneContext ad)) -> 0 <= ci_confidence i <= 100.
Proof.
  intros i Hi.
  assert (Hincl : incl (surfaced_items (generateSceneContext ad))
                       (map conf_item (or_nil (a_tags ad) ++ or_nil (a_objects ad)))).
  { unfold surfaced_items, generateSceneContext; cbn [all_tags high_confidence all_objects
      tags_by_category cap_categories entities attributes environment actions concepts].
    rewrite map_app.
    assert (Ht : incl (slice 20 (or_nil (a_tags ad))) (or_nil (a_tags ad))) by apply slice_incl.
    assert (Hcat : forall c, incl (slice 8 (category_list c (categorizeTags (slice 20 (or_nil (a_tags ad))))))
                                  (map conf_item (or_nil (a_tags ad)))).
    { intros c j Hj. apply slice_incl, category_items in Hj as (t & Htin & ->).
      apply in_map, Ht, Htin. }
    repeat apply incl_app.
    - apply incl_appl, incl_map, (incl_tran (slice_incl _ _)), Ht.
    - apply incl_appr, incl_map, (incl_tran (slice_incl _ _)), incl_filter.
    - apply incl_appr, incl_map, slice_incl.
    - apply incl_appl, (Hcat Entities).
    - apply incl_appl, (Hcat Attributes).
    - apply incl_appl, (Hcat Environment).
    - apply incl_appl, (Hcat Actions).
    - apply incl_appl, (Hcat Concepts). }
  apply Hincl, in_map_iff in Hi as (t & <- & Ht).
  now apply conf_item_confidence_range, Hraw.
Qed.

Lemma surfaced_confidences_range_witness :
  Forall (fun i => 0 <= ci_confidence i <= 100)
    (surfaced_items (generateSceneContext
       (mkAnalysisData (Some sample_tags) None (Some sample_objects)))).
Proof.
  apply Forall_forall, surfaced_confidences_range. intros t Ht. simpl in Ht.
  destruct Ht as [<-|[<-|[<-|[]]]]; vm_compute; split; discriminate.
Defined.

(** C32: The high-confidence filter compares the raw confidence with 0.5,
    while levels use the normalised one: an object whose confidence is
    reported as a percentage between 1 and 50 is listed among the
    high-confidence objects with level 'BAJO'. *)
Theorem high_confidence_raw_threshold (ad : AnalysisData) (o : TagItem) (q : Q)
  (Hobj : a_objects ad = Some [o]) (Hq : t_confidence o = Some q) (Hrange : 1 < q < 50) :
  high_confidence (generateSceneContext ad) = [conf_item o] /\ ci_level (conf_item o) = BAJO.
Proof.
  unfold generateSceneContext; cbn [high_confidence]. rewrite Hobj. simpl or_nil.
  assert (Hhigh : is_high_confidence o = true).
  { unfold is_high_confidence. rewrite Hq. apply Qle_bool_iff. unfold confidenceThreshold. lra. }
  cbn [filter]. rewrite Hhigh. split; [reflexivity |].
  unfold conf_item, conf_value, conf_fraction, getConfidenceLevel; cbn [ci_level].
  rewrite Hq; cbn [or0].
  assert (Hf : 1 # 100 < q / 100 < 1 # 2).
  { split; [apply Qlt_shift_div_l | apply Qlt_shift_div_r]; try reflexivity; lra. }
  qcase; try reflexivity; lra.
Qed.

Lemma high_confidence_raw_threshold_witness :
  high_confidence (generateSceneContext
    (mkAnalysisData (Some sample_tags) None (Some [mkTag (Some 30) (Some "lamp"%string)]))) =
    [conf_item (mkTag (Some 30) (Some "lamp"%string))] /\
  ci_level (conf_item (mkTag (Some 30) (Some "lamp"%string))) = BAJO.
Proof.
  apply (high_confidence_raw_threshold _ _ 30); [reflexivity | reflexivity |].
  vm_compute. split; reflexivity.
Defined.

(** [analyzeColorHarmony] reads only the hex codes of the first two
    colors of its list. *)
Lemma analyzeColorHarmony_first_hexes (l l' : list ColorItem) :
  firstn 2 (map c_hex l) = firstn 2 (map c_hex l') ->
  analyzeColorHarmony l = analyzeColorHarmony l'.
Proof.
  destruct l as [|c1 [|c2 r]], l' as [|d1 [|d2 r']]; cbn; intros H;
    try discriminate; try reflexivity.
  injection H as H1 H2. now rewrite H1, H2.
Qed.

(** C34: The context's color harmony is taken from the first two colors
    in the order Imagga sends them, not from the dominant colors the
    context lists: any two analyses whose color lists start with the same
    two hex codes get the same harmony, whatever the percentages (and so
    whatever the dominant order) and the remaining colors. *)
Theorem color_harmony_input_order (ad ad' : AnalysisData)
  (H : firstn 2 (map c_hex (or_nil (a_colors ad))) =
       firstn 2 (map c_hex (or_nil (a_colors ad')))) :
  color_harmony (generateSceneContext ad) = color_harmony (generateSceneContext ad').
Proof. unfold generateSceneContext. cbn [color_harmony]. now apply analyzeColorHarmony_first_hexes. Qed.

(** Two reds of 10% and 20% followed by a blue of 70% share their harmony
    ('Análogo') with reds of 60% and 20% followed by a blue of 10%,
    although blue is the most dominant color of the first analysis only. *)
Lemma color_harmony_input_order_witness :
  let red1 := mkColor (Some "#FF0000"%string) (Some 10) in
  let red2 := mkColor (Some "#FF0000"%string) (Some 20) in
  let blue := mkColor (Some "#0000FF"%string) (Some 70) in
  let red3 := mkColor (Some "#FF0000"%string) (Some 60) in
  let blue' := mkColor (Some "#0000FF"%string) (Some 10) in
  firstn 2 (map c_hex (or_nil (a_colors (mkAnalysisData (Some []) (Some [red1; red2; blue]) None)))) =
  firstn 2 (map c_hex (or_nil (a_colors (mkAnalysisData (Some []) (Some [red3; red2; blue']) None)))) /\
  color_harmony (generateSceneContext (mkAnalysisData (Some []) (Some [red1; red2; blue]) None)) =
  color_harmony (generateSceneContext (mkAnalysisData (Some []) (Some [red3; red2; blue']) None)).
Proof.
  intros red1 red2 blue red3 blue'. split; [reflexivity |].
  apply color_harmony_input_order. reflexivity.
Defined.

(** The dominant colors of a context are the first five colors of the
    percentage order, each with its parsed channels. *)
Lemma dominant_colors_spec (ad : AnalysisData) :
  dominant_colors (generateSceneContext ad) =
    map (fun c => dominant_out (mkDominant (c_hex c) (hexToRgb (c_hex c)) (pct c)))
        (slice 5 (sort_by_percentage (or_nil (a_colors ad)))).
Proof.
  unfold generateSceneContext. cbn [dominant_colors].
  destruct (or_nil (a_colors ad)) as [|c cs]; [reflexivity |].
  cbv beta iota zeta delta [analyzeColorsAdvanced]. cbn [dominant].
  autorewrite with scene_rw. now rewrite map_map.
Qed.

End Scene.
