(* ===== verification/Server.v ===== *)
(** * The HTTP endpoints

    [getAuthHeader], [analyzeImageFull] and the Express handlers of
    [src/server.js] (lines 18-48 and 414-637).  A handler runs in a small
    monad that threads the list of upstream requests issued so far (the
    trace) and carries an exception, as [async] code with [try]/[catch]
    does.  The Imagga API is the interface [Upstream]: it answers the
    [n]-th request of the trace; every theorem holds for every upstream. *)

From Stdlib Require Import QArith ZArith String List Bool Lia Lqa.
From S2P Require Import Prelude Imagga Confidence Colors Tags Metrics Scene.
Import ListNotations.
Import Payload Conf Scene.
Local Open Scope Q_scope.
Local Open Scope js_scope.

Module Server.

(** ** Upstream data *)

Record Face := mkFace { face_id : option string }.
Record Person := mkPerson { person_id : option string; score : option Q }.

(** The JSON body of an Imagga response, by the paths the server reads:
    [result.tags], [result.colors], [result.upload_id], [result.faces],
    [result.people] and [status.text]. *)
Record Data := mkData {
  result_tags : option (list TagItem);
  result_colors : option (list ColorItem);
  result_upload_id : option string;
  result_faces : option (list Face);
  result_people : option (list Person);
  status_text : option string }.

(** An axios outcome: a response with its body, or a rejection with the
    HTTP status and body of the error response ([err.response]), both
    absent for a network error. *)
Inductive HttpResult :=
| Ok (data : option Data)
| Fail (status : option Z) (data : option Data).

(** The [Authorization: Basic base64(key:secret)] header, by its two
    credentials. *)
Record Headers := mkHeaders { auth_key : string; auth_secret : string }.

Inductive ImageRef := ByUrl (url : string) | ByUpload (upload_id : string).

(** The upstream requests the server issues, with their headers. *)
Inductive Call :=
| GetTags (h : Headers) (img : ImageRef)
| GetColors (h : Headers) (img : ImageRef)
| GetAutoTagging (h : Headers) (img : ImageRef)
| PostUpload (h : Headers) (filename : string)
| GetFaceDetection (h : Headers) (img : ImageRef)
| PutRecognition (h : Headers) (indexId : string) (people : list (string * list string))
| GetRecognition (h : Headers) (indexId : string) (faceId : string).

(** The interface the server relies on: the answer to the [n]-th request. *)
Class Upstream := respond : nat -> Call -> HttpResult.

(** Exceptions: an axios rejection, or an [Error] with a message. *)
Inductive Exn :=
| HttpErr (status : option Z) (data : option Data)
| MsgErr (message : string).

(** ** The request monad *)

Definition M (A : Type) : Type := list Call -> list Call * (Exn + A).

Definition ret {A} (x : A) : M A := fun tr => (tr, inr x).
Definition throw {A} (e : Exn) : M A := fun tr => (tr, inl e).
Definition bind {A B} (m : M A) (k : A -> M B) : M B :=
  fun tr => match m tr with
            | (tr', inl e) => (tr', inl e)
            | (tr', inr x) => k x tr'
            end.
(** [try { m } catch (err) { h(err) }]. *)
Definition catch {A} (m : M A) (h : Exn -> M A) : M A :=
  fun tr => match m tr with
            | (tr', inl e) => h e tr'
            | ok => ok
            end.
Definition lift {A} (r : Exn + A) : M A := fun tr => (tr, r).

Declare Scope srv_scope.
Delimit Scope srv_scope with srv.
Notation "x <- m ;; k" := (bind m (fun x => k))
  (at level 61, m at next level, right associativity) : srv_scope.
Local Open Scope srv_scope.

Section WithUpstream.
Context `{U : Upstream}.

(** Issue a request; the promise is not awaited as a rejection here. *)
Definition request (c : Call) : M HttpResult :=
  fun tr => (tr ++ [c], inr (respond (length tr) c)).

(** [await axios...(...)]: a rejection throws. *)
Definition axios (c : Call) : M (option Data) :=
  r <- request c ;;
  match r with
  | Ok d => ret d
  | Fail st d => throw (HttpErr st d)
  end.

End WithUpstream.

(** ** Credentials and the analysis call *)

Record Env := mkEnv { imagga_key : option string; imagga_secret : option string }.

(** [getAuthHeader]. *)
Definition getAuthHeader (env : Env) : Exn + Headers :=
  match imagga_key env, imagga_secret env with
  | Some key, Some secret =>
      if truthy_str (Some key) && truthy_str (Some secret)
      then inr (mkHeaders key secret)
      else inl (MsgErr "Missing IMAGGA_API_KEY/IMAGGA_API_SECRET env vars")
  | _, _ => inl (MsgErr "Missing IMAGGA_API_KEY/IMAGGA_API_SECRET env vars")
  end.

(** The object [analyzeImageFull] returns: [tagsRes.data],
    [colorsRes?.data || null] and [objectsRes?.data || null]. *)
Record Analysis := mkAnalysis { an_tags : option Data; an_colors : option Data; an_objects : option Data }.

(** [res?.data || null] for a call whose rejection was caught into [null]. *)
Definition data_or_null (r : HttpResult) : option Data :=
  match r with Ok d => d | Fail _ _ => None end.

Section WithUpstream2.
Context `{U : Upstream}.

(** [analyzeImageFull]: the three requests start together
    ([Promise.all]); the colors and auto-tagging rejections are caught
    into [null], so only the tags rejection rejects the whole. *)
Definition analyzeImageFull (headers : Headers) (img : ImageRef) : M Analysis :=
  tagsRes <- request (GetTags headers img) ;;
  colorsRes <- request (GetColors headers img) ;;
  objectsRes <- request (GetAutoTagging headers img) ;;
  match tagsRes with
  | Fail st d => throw (HttpErr st d)
  | Ok d => ret (mkAnalysis d (data_or_null colorsRes) (data_or_null objectsRes))
  end.

End WithUpstream2.

Definition bind_opt {A B} (o : option A) (f : A -> option B) : option B :=
  match o with Some x => f x | None => None end.

(** What [generateSceneContext] reads of an [Analysis]:
    [tags?.result?.tags], [colors?.result?.colors], [objects?.result?.tags]. *)
Definition to_analysis_data (a : Analysis) : AnalysisData :=
  mkAnalysisData (bind_opt (an_tags a) result_tags)
                 (bind_opt (an_colors a) result_colors)
                 (bind_opt (an_objects a) result_tags).

(** ** Responses *)

(** [details: err?.response?.data || err.message]. *)
Inductive Details := DetailsData (d : Data) | DetailsMsg (message : option string).

(** The JSON bodies the handlers send. *)
Inductive Body :=
| AnalyzeOk (source : string) (data : Analysis) (context : SceneContext)
| ErrorMsg (error : string)
| Failure (error : string) (message : string) (details : Details).

Record Response := mkResponse { res_status : Z; res_body : Body }.

(** [err.response]: present for an HTTP error response, with its status. *)
Definition response_status (err : Exn) : option Z :=
  match err with HttpErr st _ => st | MsgErr _ => None end.

Definition response_data (err : Exn) : option Data :=
  match err with HttpErr (Some _) d => d | _ => None end.

(** The message of an [Error]; the text axios puts in its own errors is
    not modelled. *)
Definition message (err : Exn) : option string :=
  match err with MsgErr m => Some m | HttpErr _ _ => None end.

Definition details (err : Exn) : Details :=
  match response_data err with
  | Some d => DetailsData d
  | None => DetailsMsg (message err)
  end.

(** [clientMessage] of the [/api/analyze] error handler. *)
Definition clientMessage (err : Exn) : string :=
  match bind_opt (response_data err) status_text with
  | Some text => if truthy_str (Some text) then text
                 else "Unexpected error while analyzing the image."
  | None => "Unexpected error while analyzing the image."
  end.

(** [status && status >= 500 && status < 600]. *)
Definition is_server_error (err : Exn) : bool :=
  match response_status err with
  | Some st => ((500 <=? st) && (st <? 600))%Z
  | None => false
  end.

Record UploadedFile := mkFile { originalname : option string }.

(** [req.body.image_url] and [req.file] of [/api/analyze] and
    [/api/detect-faces]. *)
Record ImageRequest := mkImageRequest { body_image_url : option string; file : option UploadedFile }.

Definition upload_filename (f : UploadedFile) : string := str_or (originalname f) "upload.jpg".

Section Handlers.
Context `{U : Upstream}.

(** [app.post('/api/analyze', ...)]. *)
Definition api_analyze (env : Env) (req : ImageRequest) : M Response :=
  catch
    (headers <- lift (getAuthHeader env) ;;
     if truthy_str (body_image_url req) then
       let imageUrl := str_or (body_image_url req) "" in
       analysis <- analyzeImageFull headers (ByUrl imageUrl) ;;
       ret (mkResponse 200 (AnalyzeOk "url" analysis
                              (generateSceneContext (to_analysis_data analysis))))
     else
       match file req with
       | Some f =>
           uploadRes <- axios (PostUpload headers (upload_filename f)) ;;
           let uploadId := bind_opt uploadRes result_upload_id in
           if negb (truthy_str uploadId) then throw (MsgErr "No upload_id returned from Imagga")
           else
             let uid := str_or uploadId "" in
             analysis <- catch (analyzeImageFull headers (ByUpload uid))
                           (fun err => if is_server_error err
                                       then analyzeImageFull headers (ByUpload uid)
                                       else throw err) ;;
             ret (mkResponse 200 (AnalyzeOk "upload" analysis
                                    (generateSceneContext (to_analysis_data analysis))))
       | None =>
           ret (mkResponse 400 (ErrorMsg "Provide image_url or upload an image file (form field: image)"))
       end)
    (fun err => ret (mkResponse 500 (Failure "Analysis failed" (clientMessage err) (details err)))).

End Handlers.

(** ** Sample upstreams *)

Definition sample_env : Env := mkEnv (Some "key"%string) (Some "secret"%string).
Definition sample_headers : Headers := mkHeaders "key" "secret".
Definition upload_data : Data := mkData None None (Some "up1"%string) None None None.
Definition tags_data : Data :=
  mkData (Some [mkTag (Some 90) (Some "dog"%string)]) None None None None None.

(** The first analysis of an upload fails with 503; the rest succeeds. *)
Definition flaky_upstream : Upstream := fun n c =>
  match n, c with
  | 0%nat, PostUpload _ _ => Ok (Some upload_data)
  | 1%nat, GetTags _ _ => Fail (Some 503%Z) None
  | _, GetTags _ _ => Ok (Some tags_data)
  | _, _ => Ok None
  end.

(** Tags succeed; colors and auto-tagging fail. *)
Definition partial_upstream : Upstream := fun _ c =>
  match c with
  | GetTags _ _ => Ok (Some tags_data)
  | GetColors _ _ | GetAutoTagging _ _ => Fail (Some 500%Z) None
  | _ => Ok None
  end.

(** Every request fails with 503. *)
Definition down_upstream : Upstream := fun _ _ => Fail (Some 503%Z) None.

(** The message of a missing credential. *)
Definition missing_credentials_msg : string := "Missing IMAGGA_API_KEY/IMAGGA_API_SECRET env vars".

(** The three analysis requests, in the order they are issued. *)
Definition analysis_calls (h : Headers) (img : ImageRef) : list Call :=
  [GetTags h img; GetColors h img; GetAutoTagging h img].

(** ** Theorems on [/api/analyze] *)


Section AnalyzeRun.
Context `{U : Upstream}.

Lemma getAuthHeader_missing (env : Env) :
  truthy_str (imagga_key env) && truthy_str (imagga_secret env) = false ->
  getAuthHeader env = inl (MsgErr missing_credentials_msg).
Proof.
  unfold getAuthHeader. destruct (imagga_key env), (imagga_secret env); simpl; try reflexivity.
  intros ->. reflexivity.
Qed.

Lemma getAuthHeader_ok (env : Env) (key secret : string) :
  imagga_key env = Some key -> imagga_secret env = Some secret ->
  truthy_str (Some key) && truthy_str (Some secret) = true ->
  getAuthHeader env = inr (mkHeaders key secret).
Proof. intros Hk Hs Ht. unfold getAuthHeader. now rewrite Hk, Hs, Ht. Qed.

Lemma analyzeImageFull_run (h : Headers) (img : ImageRef) (tr : list Call) :
  analyzeImageFull h img tr =
    (tr ++ analysis_calls h img,
     match respond (length tr) (GetTags h img) with
     | Fail st d => inl (HttpErr st d)
     | Ok d => inr (mkAnalysis d (data_or_null (respond (S (length tr)) (GetColors h img)))
                                 (data_or_null (respond (S (S (length tr))) (GetAutoTagging h img))))
     end).
Proof.
  unfold analyzeImageFull, bind, request. rewrite !length_app, <- !app_assoc. simpl.
  rewrite !Nat.add_1_r. destruct (respond (length tr) (GetTags h img)); reflexivity.
Qed.

Lemma axios_run (c : Call) (tr : list Call) :
  axios c tr = (tr ++ [c], match respond (length tr) c with
                           | Ok d => inr d
                           | Fail st d => inl (HttpErr st d)
                           end).
Proof. unfold axios, bind, request. now destruct (respond (length tr) c). Qed.

End AnalyzeRun.

(** Case analysis on every upstream answer and test of a handler run. *)
Ltac run_handler :=
  repeat first
    [ progress (rewrite ?analyzeImageFull_run, ?axios_run)
    | progress cbn [fst snd app length negb analysis_calls]
    | match goal with
      | |- context [respond ?n ?c] => destruct (respond n c)
      | |- context [truthy_str ?x] => destruct (truthy_str x)
      | |- context [is_server_error ?e] => destruct (is_server_error e)
      | |- context [file ?r] => destruct (file r)
      end ].

Section AnalyzeTheorems.
Context `{U : Upstream}.

(** Without both credentials [/api/analyze] answers 500 with the
    generic message before issuing any upstream request. *)
Theorem api_analyze_missing_credentials (env : Env) (req : ImageRequest)
  (Hmiss : truthy_str (imagga_key env) && truthy_str (imagga_secret env) = false) :
  api_analyze env req [] =
    ([], inr (mkResponse 500 (Failure "Analysis failed" "Unexpected error while analyzing the image."
                                (DetailsMsg (Some missing_credentials_msg))))).
Proof.
  unfold api_analyze, catch, bind, lift. now rewrite (getAuthHeader_missing env Hmiss).
Qed.


(** C12: Every run of [/api/analyze] ends with a response (no exception
    escapes the handler) after at most seven upstream requests: one
    upload and at most two rounds of the three analysis requests. *)
Theorem api_analyze_bounded (env : Env) (req : ImageRequest) :
  (length (fst (api_analyze env req [])) <= 7)%nat /\
  exists resp, snd (api_analyze env req []) = inr resp.
Proof.
  unfold api_analyze, catch, bind, lift, ret, throw.
  destruct (getAuthHeader env) as [e|h]; cbn [fst snd]; run_handler; split; eauto; lia.
Qed.

(** C11: On the upload path the analysis is retried once, and only when
    the tags request fails with a 5xx status: whatever the failure of the
    first tags request (with any status, or with no response at all, as a
    network error has), the requests are the upload, the three analysis
    requests, and the three again exactly when a status is present and in
    [500, 600). *)
Theorem api_analyze_upload_retry (env : Env) (req : ImageRequest) (key secret uid : string)
  (f : UploadedFile) (d0 : Data) (st : option Z) (dd : option Data)
  (Hk : imagga_key env = Some key) (Hs : imagga_secret env = Some secret)
  (Hcred : truthy_str (Some key) && truthy_str (Some secret) = true)
  (Hurl : truthy_str (body_image_url req) = false) (Hfile : file req = Some f)
  (Hup : respond 0 (PostUpload (mkHeaders key secret) (upload_filename f)) = Ok (Some d0))
  (Hid : result_upload_id d0 = Some uid) (Huid : truthy_str (Some uid) = true)
  (Htags : respond 1 (GetTags (mkHeaders key secret) (ByUpload uid)) = Fail st dd) :
  fst (api_analyze env req []) =
    PostUpload (mkHeaders key secret) (upload_filename f) ::
    analysis_calls (mkHeaders key secret) (ByUpload uid) ++
    (match st with
     | Some s => if ((500 <=? s) && (s <? 600))%Z
                 then analysis_calls (mkHeaders key secret) (ByUpload uid) else []
     | None => []
     end).
Proof.
  unfold api_analyze, catch, bind, lift, ret, throw.
  rewrite (getAuthHeader_ok env key secret Hk Hs Hcred), Hurl, Hfile.
  rewrite axios_run. cbn [fst snd app length analysis_calls]. rewrite Hup. cbn [bind_opt negb].
  rewrite Hid, Huid, (str_or_truthy uid "" Huid). cbn [negb].
  rewrite analyzeImageFull_run. cbn [fst snd app length analysis_calls]. rewrite Htags.
  unfold is_server_error; cbn [response_status].
  destruct st as [st|]; [| reflexivity].
  destruct ((500 <=? st) && (st <? 600))%Z; [| reflexivity].
  rewrite analyzeImageFull_run. cbn [fst snd app length analysis_calls].
  now destruct (respond 4 (GetTags (mkHeaders key secret) (ByUpload uid))).
Qed.

(** C13: On the URL path a failure of the colors and auto-tagging requests
    is tolerated: the handler answers 200 with those sections [null] and
    the context built from the tags alone. *)
Theorem api_analyze_url_partial_failure (env : Env) (req : ImageRequest)
  (key secret url : string) (dt : option Data) (s1 s2 : option Z) (d1 d2 : option Data)
  (Hk : imagga_key env = Some key) (Hs : imagga_secret env = Some secret)
  (Hcred : truthy_str (Some key) && truthy_str (Some secret) = true)
  (Hurl : body_image_url req = Some url) (Hu : truthy_str (Some url) = true)
  (Htags : respond 0 (GetTags (mkHeaders key secret) (ByUrl url)) = Ok dt)
  (Hcol : respond 1 (GetColors (mkHeaders key secret) (ByUrl url)) = Fail s1 d1)
  (Hobj : respond 2 (GetAutoTagging (mkHeaders key secret) (ByUrl url)) = Fail s2 d2) :
  api_analyze env req [] =
    (analysis_calls (mkHeaders key secret) (ByUrl url),
     inr (mkResponse 200 (AnalyzeOk "url" (mkAnalysis dt None None)
            (generateSceneContext (mkAnalysisData (bind_opt dt result_tags) None None))))).
Proof.
  unfold api_analyze, catch, bind, lift, ret, throw.
  rewrite (getAuthHeader_ok env key secret Hk Hs Hcred), Hurl, Hu, (str_or_truthy url "" Hu).
  rewrite analyzeImageFull_run. cbn [fst snd app length analysis_calls]. rewrite Htags, Hcol, Hobj.
  reflexivity.
Qed.

(** C37: The URL path never retries: a 5xx failure of the tags request
    answers 500 after the three analysis requests, where the upload path
    would have tried again. *)
Theorem api_analyze_url_no_retry (env : Env) (req : ImageRequest)
  (key secret url : string) (st : Z) (dd : option Data)
  (Hk : imagga_key env = Some key) (Hs : imagga_secret env = Some secret)
  (Hcred : truthy_str (Some key) && truthy_str (Some secret) = true)
  (Hurl : body_image_url req = Some url) (Hu : truthy_str (Some url) = true)
  (Htags : respond 0 (GetTags (mkHeaders key secret) (ByUrl url)) = Fail (Some st) dd)
  (H5xx : (500 <= st < 600)%Z) :
  api_analyze env req [] =
    (analysis_calls (mkHeaders key secret) (ByUrl url),
     inr (mkResponse 500 (Failure "Analysis failed" (clientMessage (HttpErr (Some st) dd))
                                                    (details (HttpErr (Some st) dd))))).
Proof.
  unfold api_analyze, catch, bind, lift, ret, throw.
  rewrite (getAuthHeader_ok env key secret Hk Hs Hcred), Hurl, Hu, (str_or_truthy url "" Hu).
  rewrite analyzeImageFull_run. cbn [fst snd app length analysis_calls]. rewrite Htags.
  reflexivity.
Qed.

(** Every 200 answer of [/api/analyze] carries an analysis and the
    context [generateSceneContext] builds from it. *)
Lemma api_analyze_ok_shape (env : Env) (req : ImageRequest) (r : Response) :
  snd (api_analyze env req []) = inr r -> res_status r = 200%Z ->
  exists src a, res_body r = AnalyzeOk src a (generateSceneContext (to_analysis_data a)).
Proof.
  unfold api_analyze, catch, bind, lift, ret, throw.
  destruct (getAuthHeader env) as [e|h]; cbn [fst snd]; run_handler;
    intros Hr Hs; injection Hr as <-; try discriminate Hs; do 2 eexists; reflexivity.
Qed.

End AnalyzeTheorems.

Lemma api_analyze_missing_credentials_witness :
  @api_analyze down_upstream (mkEnv None (Some "secret"%string)) (mkImageRequest (Some "http://x/y.jpg"%string) None) [] =
    ([], inr (mkResponse 500 (Failure "Analysis failed" "Unexpected error while analyzing the image."
                                (DetailsMsg (Some missing_credentials_msg))))).
Proof. apply (@api_analyze_missing_credentials down_upstream). reflexivity. Defined.

Lemma api_analyze_upload_retry_witness :
  fst (@api_analyze flaky_upstream sample_env (mkImageRequest None (Some (mkFile None))) []) =
    PostUpload sample_headers (upload_filename (mkFile None)) ::
    analysis_calls sample_headers (ByUpload "up1") ++
    (match Some 503%Z with
     | Some s => if ((500 <=? s) && (s <? 600))%Z then analysis_calls sample_headers (ByUpload "up1") else []
     | None => []
     end).
Proof.
  apply (@api_analyze_upload_retry flaky_upstream sample_env _ "key" "secret" "up1"
           (mkFile None) upload_data (Some 503%Z) None); reflexivity.
Defined.

Lemma api_analyze_url_partial_failure_witness :
  @api_analyze partial_upstream sample_env (mkImageRequest (Some "http://x/y.jpg"%string) None) [] =
    (analysis_calls sample_headers (ByUrl "http://x/y.jpg"),
     inr (mkResponse 200 (AnalyzeOk "url" (mkAnalysis (Some tags_data) None None)
            (generateSceneContext (mkAnalysisData (bind_opt (Some tags_data) result_tags) None None))))).
Proof.
  apply (@api_analyze_url_partial_failure partial_upstream sample_env _ "key" "secret" "http://x/y.jpg"
           (Some tags_data) (Some 500%Z) (Some 500%Z) None None); reflexivity.
Defined.

Lemma api_analyze_url_no_retry_witness :
  @api_analyze down_upstream sample_env (mkImageRequest (Some "http://x/y.jpg"%string) None) [] =
    (analysis_calls sample_headers (ByUrl "http://x/y.jpg"),
     inr (mkResponse 500 (Failure "Analysis failed" (clientMessage (HttpErr (Some 503%Z) None))
                                                    (details (HttpErr (Some 503%Z) None))))).
Proof.
  apply (@api_analyze_url_no_retry down_upstream sample_env _ "key" "secret" "http://x/y.jpg" 503 None);
    try reflexivity. lia.
Defined.


End Server.
