(* ===== verification/Faces.v ===== *)
(** * The face endpoints

    [/api/detect-faces], [/api/create-index] and
    [/api/recognize-face/:indexId] of [src/server.js] (lines 413-572), in
    the request monad of [Server]. *)

From Stdlib Require Import QArith ZArith String List Bool Lia Lqa.
From S2P Require Import Prelude Imagga Confidence Server.
Import ListNotations.
Import Conf Server.
Local Open Scope Q_scope.
Local Open Scope js_scope.

Module Faces.

Local Open Scope srv_scope.

(** An entry of [matches] and the [topMatch] of a recognition. *)
Record MatchOut := mkMatch { m_personId : option string; m_confidence : Q; m_level : level }.
Record TopMatch := mkTop { t_personId : option string; t_confidence : Q; isMatch : bool }.

(** The [people] object of an index: person name to face ids. *)
Definition People := list (string * list string).

(** The bodies of the face endpoints. *)
Inductive FaceBody :=
| FacesOk (source : string) (faces : list Face) (raw : option Data)
| FaceError (error : string)
| FaceFailure (error : string) (message : option string)
| MissingIndexData
| IndexOk (indexId : string) (result : option Data) (message : string)  (* [result]: the data's [result] object *)
| MissingFaceId
| Recognition (indexId faceId : string) (matches : list MatchOut)
              (topMatch : option TopMatch) (raw : option Data)
| ServiceFailure (error : string) (details : Details).

Record FaceResponse := mkFaceResponse { f_status : Z; f_body : FaceBody }.

(** The double quote character. *)
Definition dq : string := String (Ascii.ascii_of_nat 34) EmptyString.

(** [facesRes.data?.result?.faces || []]. *)
Definition faces_of (d : option Data) : list Face :=
  match bind_opt d result_faces with Some l => l | None => [] end.

(** [p.score > 80 ? 'ALTO' : p.score > 50 ? 'MEDIO' : 'BAJO']. *)
Definition recognition_level (score : Q) : level :=
  if score >? 80 then ALTO else if score >? 50 then MEDIO else BAJO.

(** [(p.score).toFixed(2)] on an absent score throws a TypeError. *)
Definition score_error : Exn :=
  MsgErr "Cannot read properties of undefined (reading 'toFixed')".

Section WithUpstream.
Context `{U : Upstream}.

(** A detection request whose failure becomes a 400 answer. *)
Definition detect (headers : Headers) (img : ImageRef) (source notFound : string)
    : M FaceResponse :=
  catch (facesRes <- axios (GetFaceDetection headers img) ;;
         ret (mkFaceResponse 200 (FacesOk source (faces_of facesRes) facesRes)))
        (fun _ => ret (mkFaceResponse 400 (FaceError notFound))).

(** [app.post('/api/detect-faces', ...)]. *)
Definition api_detect_faces (env : Env) (req : ImageRequest) : M FaceResponse :=
  catch
    (headers <- lift (getAuthHeader env) ;;
     if truthy_str (body_image_url req) then
       detect headers (ByUrl (str_or (body_image_url req) "")) "url" "No faces detected in URL image"
     else
       match file req with
       | Some f =>
           uploadRes <- axios (PostUpload headers (upload_filename f)) ;;
           let uploadId := bind_opt uploadRes result_upload_id in
           if negb (truthy_str uploadId) then throw (MsgErr "No upload_id returned from Imagga")
           else detect headers (ByUpload (str_or uploadId "")) "upload"
                       "No faces detected in uploaded image"
       | None =>
           ret (mkFaceResponse 400 (FaceError "Provide image_url or upload an image file (form field: image)"))
       end)
    (fun err => ret (mkFaceResponse 500 (FaceFailure "Face detection failed" (message err)))).

(** [app.put('/api/create-index', ...)]: [indexId] and [people] of the
    body; the body check comes before the credentials. *)
Definition api_create_index (env : Env) (indexId : option string) (people : option People)
    : M FaceResponse :=
  catch
    (match indexId, people with
     | Some idx, Some ppl =>
         if truthy_str (Some idx) then
           headers <- lift (getAuthHeader env) ;;
           response <- axios (PutRecognition headers idx ppl) ;;
           ret (mkFaceResponse 200 (IndexOk idx response
                  ("Index " ++ dq ++ idx ++ dq ++ " created/updated successfully")))
         else ret (mkFaceResponse 400 MissingIndexData)
     | _, _ => ret (mkFaceResponse 400 MissingIndexData)
     end)
    (fun err => ret (mkFaceResponse 500 (ServiceFailure "Index creation failed" (details err)))).

(** [people.map(p => ({ personId, confidence, level }))]: the first
    absent score throws. *)
Fixpoint matches_of (people : list Person) : M (list MatchOut) :=
  match people with
  | [] => ret []
  | p :: ps =>
      match score p with
      | None => throw score_error
      | Some sc =>
          rest <- matches_of ps ;;
          ret (mkMatch (person_id p) (to_fixed2 sc) (recognition_level sc) :: rest)
      end
  end.

(** [topMatch]: the first person, matched when its score is above 80. *)
Definition top_match (people : list Person) : M (option TopMatch) :=
  match people with
  | [] => ret None
  | p :: _ =>
      match score p with
      | None => throw score_error
      | Some sc => ret (Some (mkTop (person_id p) (to_fixed2 sc) (sc >? 80)))
      end
  end.

(** [app.get('/api/recognize-face/:indexId', ...)]. *)
Definition api_recognize_face (env : Env) (indexId : string) (faceId : option string)
    : M FaceResponse :=
  catch
    (if negb (truthy_str faceId) then ret (mkFaceResponse 400 MissingFaceId)
     else
       let fid := str_or faceId "" in
       headers <- lift (getAuthHeader env) ;;
       response <- axios (GetRecognition headers indexId fid) ;;
       let people := match bind_opt response result_people with Some l => l | None => [] end in
       matches <- matches_of people ;;
       topMatch <- top_match people ;;
       ret (mkFaceResponse 200 (Recognition indexId fid matches topMatch response)))
    (fun err => ret (mkFaceResponse 500 (ServiceFailure "Face recognition failed" (details err)))).

End WithUpstream.

(** ** Theorems *)

Section FaceTheorems.
Context `{U : Upstream}.

(** C38: A failed URL face detection is always answered 400 'No faces
    detected in URL image', whatever the failure: an upstream 5xx, a
    rejected credential or a network error are all reported as a client
    error about the image. *)
Theorem detect_faces_url_failure (env : Env) (req : ImageRequest) (key secret url : string)
  (st : option Z) (d : option Data)
  (Hk : imagga_key env = Some key) (Hs : imagga_secret env = Some secret)
  (Hcred : truthy_str (Some key) && truthy_str (Some secret) = true)
  (Hurl : body_image_url req = Some url) (Hu : truthy_str (Some url) = true)
  (Hfail : respond 0 (GetFaceDetection (mkHeaders key secret) (ByUrl url)) = Fail st d) :
  api_detect_faces env req [] =
    ([GetFaceDetection (mkHeaders key secret) (ByUrl url)],
     inr (mkFaceResponse 400 (FaceError "No faces detected in URL image"))).
Proof.
  unfold api_detect_faces, detect, catch, bind, lift, ret, throw.
  rewrite (getAuthHeader_ok env key secret Hk Hs Hcred), Hurl, Hu, (str_or_truthy url "" Hu).
  rewrite axios_run. cbn [fst snd app length]. now rewrite Hfail.
Qed.

(** The index endpoints check their input before the credentials: a
    missing [indexId] or [people], or a missing [faceId], is answered 400
    without any upstream request, whatever the environment. *)
Theorem index_endpoints_validate_first (env : Env) (indexId : option string)
  (people : option People) (idx : string) (faceId : option string)
  (Hidx : truthy_str indexId = false \/ people = None)
  (Hface : truthy_str faceId = false) :
  api_create_index env indexId people [] = ([], inr (mkFaceResponse 400 MissingIndexData)) /\
  api_recognize_face env idx faceId [] = ([], inr (mkFaceResponse 400 MissingFaceId)).
Proof.
  split.
  - unfold api_create_index, catch, ret.
    destruct indexId as [i|], people as [p|]; try reflexivity.
    destruct Hidx as [Hi|Hp]; [| discriminate]. now rewrite Hi.
  - unfold api_recognize_face, catch, ret. now rewrite Hface.
Qed.

(** The detection endpoint answers 200 exactly with a list of faces. *)
Lemma api_detect_faces_shape (env : Env) (req : ImageRequest) (r : FaceResponse) :
  snd (api_detect_faces env req []) = inr r ->
  (f_status r = 200%Z <-> exists src fs raw, f_body r = FacesOk src fs raw).
Proof.
  unfold api_detect_faces, detect, catch, bind, lift, ret, throw.
  destruct (getAuthHeader env) as [e|h]; cbn [fst snd]; run_handler;
    intros Hr; injection Hr as <-; cbn; split;
    first [intros; do 3 eexists; reflexivity | intros (? & ? & ? & ?); discriminate
          | discriminate | reflexivity].
Qed.

(** The recognition endpoint answers a recognition only with status 200. *)
Lemma api_recognize_face_shape (env : Env) (idx : string) (fid : option string) (r : FaceResponse)
    (i f : string) (ms : list MatchOut) (t : option TopMatch) (raw : option Data) :
  snd (api_recognize_face env idx fid []) = inr r -> f_body r = Recognition i f ms t raw ->
  f_status r = 200%Z.
Proof.
  unfold api_recognize_face, catch, bind, lift, ret, throw.
  destruct (getAuthHeader env) as [e|h]; cbn [fst snd]; run_handler;
    repeat match goal with
           | |- context [matches_of ?l ?tr] => destruct (matches_of l tr) as [? [?|?]]
           | |- context [top_match ?l ?tr] => destruct (top_match l tr) as [? [?|?]]
           end;
    intros Hr Hb; injection Hr as <-; first [discriminate | reflexivity].
Qed.

End FaceTheorems.

Lemma detect_faces_url_failure_witness :
  @api_detect_faces down_upstream sample_env (mkImageRequest (Some "http://x/y.jpg"%string) None) [] =
    ([GetFaceDetection sample_headers (ByUrl "http://x/y.jpg")],
     inr (mkFaceResponse 400 (FaceError "No faces detected in URL image"))).
Proof.
  apply (@detect_faces_url_failure down_upstream sample_env _ "key" "secret" "http://x/y.jpg"
           (Some 503%Z) None); reflexivity.
Defined.

Lemma index_endpoints_validate_first_witness :
  @api_create_index down_upstream (mkEnv None None) (Some "celebs"%string) None [] =
    ([], inr (mkFaceResponse 400 MissingIndexData)) /\
  @api_recognize_face down_upstream (mkEnv None None) "celebs" None [] =
    ([], inr (mkFaceResponse 400 MissingFaceId)).
Proof. apply (@index_endpoints_validate_first down_upstream); [right | ]; reflexivity. Defined.


(** C39: The recognition levels use strict thresholds on the percentage
    score ([> 80], [> 50]) while [getConfidenceLevel] uses inclusive ones
    ([>= 0.8], [>= 0.5]): on (1, 100] the two agree except at exactly 80
    and 50, where recognition says MEDIO and BAJO and the other ALTO and
    MEDIO. *)
Theorem recognition_level_vs_getConfidenceLevel (s : Q) (Hs : 1 < s <= 100) :
  recognition_level s = getConfidenceLevel s <-> ~ (s == 80 \/ s == 50).
Proof.
  unfold recognition_level, getConfidenceLevel.
  change (s / 100) with (s * (1 # 100)).
  qcase; split; intros; try discriminate; try reflexivity; try lra;
    try (exfalso; tauto); try (intuition lra).
Qed.

Lemma recognition_level_vs_getConfidenceLevel_witness :
  recognition_level 80 = getConfidenceLevel 80 <-> ~ (80 == 80 \/ 80 == 50).
Proof. apply recognition_level_vs_getConfidenceLevel. vm_compute. split; [reflexivity | discriminate]. Defined.

End Faces.
