(* ===== verification/Router.v ===== *)
(** * Request routing of the Express application

    What happens to a request before a handler of [src/server.js] runs
    (lines 9-13 and the [app.get/post/put] registrations at 414, 484,
    525 and 574): [express.static] on the [public] directory, then the
    route table, matched by path-to-regexp (case-insensitive, an optional
    trailing slash, [:indexId] one path segment decoded with
    [decodeURIComponent], a 400 when that throws), and the query string
    parsed by [qs] into [req.query].  [app] runs the handler a route
    selects in the request monad of [Server].

    The query parser is [qs] on flat keys: a key written with brackets
    ([faceId[x]=...]) builds a nested value, which is reported as
    [QNested] and not followed further.  Percent-decoding works on bytes;
    the UTF-8 validity of decoded sequences is not checked. *)

From Stdlib Require Import QArith ZArith String Ascii List Bool Lia.
From S2P Require Import Prelude Imagga Confidence Colors Server Faces.
Import ListNotations.
Import Color Server Faces.
Local Open Scope string_scope.

Module Router.

(** ** Requests and routes *)

Inductive Method := GET | HEAD | POST | PUT | OtherMethod.

Definition method_name (m : Method) : string :=
  match m with
  | GET => "GET" | HEAD => "HEAD" | POST => "POST" | PUT => "PUT" | OtherMethod => "OTHER"
  end.

(** A query value: a string, the array of a repeated key, or a nested
    value built from a bracketed key. *)
Inductive qvalue := QStr (s : string) | QArr (l : list string) | QNested.

(** Where the router sends a request. *)
Inductive Route :=
| ToAnalyze
| ToDetectFaces
| ToCreateIndex
| ToRecognize (indexId : string) (faceId : option qvalue)
| StaticFile (file : string)
| BadParam                       (** [decodeURIComponent] threw on [:indexId] *)
| NotFound.

(** ** Strings *)

(** The part of [s] before the first [c] and, when [c] occurs, the part
    after it. *)
Fixpoint split_first (c : ascii) (s : string) : string * option string :=
  match s with
  | EmptyString => (EmptyString, None)
  | String x rest =>
      if Ascii.eqb c x then (EmptyString, Some rest)
      else let (a, b) := split_first c rest in (String x a, b)
  end.

(** [s.split(c)]. *)
Fixpoint split_all (c : ascii) (s : string) : list string :=
  match s with
  | EmptyString => [EmptyString]
  | String x rest =>
      match split_all c rest with
      | seg :: segs => if Ascii.eqb c x then EmptyString :: seg :: segs else String x seg :: segs
      | [] => [String x EmptyString]
      end
  end.

(** [decodeURIComponent]: [%XX] with two hex digits is the byte [XX]; a
    ['%'] without them throws a [URIError] ([None]). *)
Fixpoint pct_decode (s : string) : option string :=
  match s with
  | EmptyString => Some EmptyString
  | String x rest =>
      if Ascii.eqb x "%" then
        match rest with
        | String h1 (String h2 rest') =>
            match hex_pair h1 h2, pct_decode rest' with
            | Some v, Some r => Some (String (ascii_of_nat (Z.to_nat v)) r)
            | _, _ => None
            end
        | _ => None
        end
      else option_map (String x) (pct_decode rest)
  end.

(** ['+'] stands for a space in a query string. *)
Fixpoint plus_to_space (s : string) : string :=
  match s with
  | EmptyString => EmptyString
  | String x rest => String (if Ascii.eqb "+" x then " "%char else x) (plus_to_space rest)
  end.

(** The decoder of [qs]: ['+'] to space, then [decodeURIComponent], or
    the string itself when that throws. *)
Definition qs_decode (s : string) : string :=
  let s' := plus_to_space s in
  match pct_decode s' with Some d => d | None => s' end.

(** A part cut just after its first [']='], keeping the [']']. *)
Fixpoint split_bracket_eq (s : string) : option (string * string) :=
  match s with
  | EmptyString => None
  | String x rest =>
      let here :=
        match rest with
        | String y rest' => if Ascii.eqb x "]" && Ascii.eqb y "=" then Some ("]", rest') else None
        | EmptyString => None
        end in
      match here with
      | Some r => Some r
      | None =>
          match split_bracket_eq rest with
          | Some (a, b) => Some (String x a, b)
          | None => None
          end
      end
  end.

(** One [key=value] part as [qs] reads it: cut after [']='] if present,
    else at the first ['=']; a part without ['='] has the value [''];
    both sides decoded. *)
Definition key_value (part : string) : string * string :=
  match split_bracket_eq part with
  | Some (k, v) => (qs_decode k, qs_decode v)
  | None =>
      match split_first "=" part with
      | (k, Some v) => (qs_decode k, qs_decode v)
      | (k, None) => (qs_decode k, "")
      end
  end.

(** [req.query[k]] after [qs.parse(query)]: at most 1000 parts; values of
    a repeated key are combined into an array. *)
Definition query_get (k : string) (query : string) : option qvalue :=
  let kvs := map key_value (firstn 1000 (split_all "&" query)) in
  if existsb (fun kv => prefix (k ++ "[") (fst kv)) kvs then Some QNested
  else match map snd (filter (fun kv => String.eqb (fst kv) k) kvs) with
       | [] => None
       | [v] => Some (QStr v)
       | vs => Some (QArr vs)
       end.

(** ** The route table *)

(** The browser does not send the fragment. *)
Definition request_target (url : string) : string := fst (split_first "#" url).

Definition path_of (target : string) : string := fst (split_first "?" target).

Definition query_of (target : string) : string :=
  match snd (split_first "?" target) with Some q => q | None => "" end.

(** One trailing ['/'] removed ([\/?$]). *)
Fixpoint strip_slash (s : string) : string :=
  match s with
  | EmptyString => EmptyString
  | String x rest =>
      if Ascii.eqb x "/" && String.eqb rest "" then EmptyString else String x (strip_slash rest)
  end.

(** A fixed route path, matched case-insensitively. *)
Definition match_fixed (pat path : string) : bool := String.eqb (lower (strip_slash path)) pat.

Definition recognize_prefix : string := "/api/recognize-face/".

(** ['/api/recognize-face/:indexId']: the raw segment [([^\/]+?)]. *)
Definition match_recognize (path : string) : option string :=
  if String.eqb (lower (substring 0 20 path)) recognize_prefix then
    let seg := strip_slash (substring 20 (String.length path - 20) path) in
    if String.eqb seg "" || has_char "/" seg then None else Some seg
  else None.

(** The files of [src/public] that [express.static] serves. *)
Definition public_files : list string := ["/app.js"].

Definition is_read_method (m : Method) : bool :=
  match m with GET | HEAD => true | _ => false end.

(** The middleware stack on a request target: static files (GET and
    HEAD), then the routes in registration order; a GET route also
    answers HEAD. *)
Definition route_target (m : Method) (target : string) : Route :=
  let path := path_of target in
  if is_read_method m && existsb (String.eqb path) public_files then StaticFile path
  else
    match m with
    | POST =>
        if match_fixed "/api/detect-faces" path then ToDetectFaces
        else if match_fixed "/api/analyze" path then ToAnalyze
        else NotFound
    | PUT => if match_fixed "/api/create-index" path then ToCreateIndex else NotFound
    | GET | HEAD =>
        match match_recognize path with
        | Some seg =>
            match pct_decode seg with
            | Some indexId => ToRecognize indexId (query_get "faceId" (query_of target))
            | None => BadParam
            end
        | None => NotFound
        end
    | OtherMethod => NotFound
    end.

Definition route (m : Method) (url : string) : Route := route_target m (request_target url).

(** ** The application *)

Record HttpRequest := mkRequest {
  req_method : Method; req_url : string;
  req_image : ImageRequest;                         (** [req.body.image_url], [req.file] *)
  req_indexId : option string; req_people : option People }.  (** the create-index body *)

Inductive AppResponse :=
| AnalyzeAnswer (r : Server.Response)
| FaceAnswer (r : FaceResponse)
| StaticAnswer (file : string)
| ExpressError (status : Z) (message : string)
| Unmodelled.                   (** a [faceId] that is an array or an object *)

Section App.
Context `{U : Upstream}.

Local Open Scope srv_scope.

Definition app (env : Env) (req : HttpRequest) : M AppResponse :=
  match route (req_method req) (req_url req) with
  | ToAnalyze => r <- api_analyze env (req_image req) ;; ret (AnalyzeAnswer r)
  | ToDetectFaces => r <- api_detect_faces env (req_image req) ;; ret (FaceAnswer r)
  | ToCreateIndex => r <- api_create_index env (req_indexId req) (req_people req) ;; ret (FaceAnswer r)
  | ToRecognize idx None => r <- api_recognize_face env idx None ;; ret (FaceAnswer r)
  | ToRecognize idx (Some (QStr f)) => r <- api_recognize_face env idx (Some f) ;; ret (FaceAnswer r)
  | ToRecognize _ (Some _) => ret Unmodelled
  | StaticFile f => ret (StaticAnswer f)
  | BadParam => ret (ExpressError 400 "Failed to decode param")
  | NotFound => ret (ExpressError 404 ("Cannot " ++ method_name (req_method req) ++ " " ++
                                       path_of (request_target (req_url req))))
  end.

End App.

(** ** Identifiers that need no encoding *)

(** The unreserved characters of URLs: letters, digits, ['-'], ['_'],
    ['.'] and ['~']. *)
Definition unreserved (c : ascii) : bool :=
  let n := nat_of_ascii c in
  (Nat.leb 48 n && Nat.leb n 57) || (Nat.leb 65 n && Nat.leb n 90) || (Nat.leb 97 n && Nat.leb n 122) ||
  existsb (Ascii.eqb c) ["-"; "_"; "."; "~"]%char.

Definition all_unreserved (s : string) : bool := forallb unreserved (list_ascii_of_string s).

(** A non-empty identifier of unreserved characters. *)
Definition safe_id (s : string) : bool := negb (String.eqb s "") && all_unreserved s.

(** A safe identifier that the browser does not resolve as a dot segment. *)
Definition safe_segment (s : string) : bool := safe_id s && negb (String.eqb s ".") && negb (String.eqb s "..").

(** ** Lemmas on the string functions *)

Lemma has_char_app (c : ascii) (a b : string) : has_char c (a ++ b) = has_char c a || has_char c b.
Proof. induction a as [|x a IH]; simpl; [reflexivity | now rewrite IH, orb_assoc]. Qed.

Lemma has_char_cons (c x : ascii) (s : string) :
  has_char c (String x s) = false -> Ascii.eqb c x = false /\ has_char c s = false.
Proof. simpl. now destruct (Ascii.eqb c x), (has_char c s). Qed.

Lemma split_first_notin (c : ascii) (s : string) : has_char c s = false -> split_first c s = (s, None).
Proof.
  induction s as [|x s IH]; intros H; [reflexivity |].
  apply has_char_cons in H as [Hx Hs]. simpl. now rewrite Hx, IH.
Qed.

Lemma split_first_app (c : ascii) (a b : string) :
  has_char c a = false -> split_first c (a ++ String c b) = (a, Some b).
Proof.
  induction a as [|x a IH]; intros H; simpl; [now rewrite Ascii.eqb_refl |].
  apply has_char_cons in H as [Hx Ha]. now rewrite Hx, IH.
Qed.

Lemma split_all_notin (c : ascii) (s : string) : has_char c s = false -> split_all c s = [s].
Proof.
  induction s as [|x s IH]; intros H; [reflexivity |].
  apply has_char_cons in H as [Hx Hs]. simpl. now rewrite IH, Hx.
Qed.

Lemma split_all_nonnil (c : ascii) (s : string) : split_all c s <> [].
Proof. destruct s as [|x s]; simpl; [discriminate |]. destruct (split_all c s); [discriminate |]. now destruct (Ascii.eqb c x). Qed.

Lemma split_all_app (c : ascii) (a b : string) :
  has_char c a = false -> split_all c (a ++ String c b) = a :: split_all c b.
Proof.
  induction a as [|x a IH]; intros H; simpl.
  - rewrite Ascii.eqb_refl. destruct (split_all c b) eqn:E; [| reflexivity].
    exfalso. exact (split_all_nonnil c b E).
  - apply has_char_cons in H as [Hx Ha]. now rewrite IH, Hx.
Qed.

Lemma split_bracket_eq_notin (s : string) : has_char "]" s = false -> split_bracket_eq s = None.
Proof.
  induction s as [|x s IH]; intros H; [reflexivity |].
  apply has_char_cons in H as [Hx Hs]. simpl. rewrite IH by exact Hs.
  rewrite Ascii.eqb_sym in Hx. destruct s; [reflexivity |]. now rewrite Hx.
Qed.

Lemma pct_decode_notin (s : string) : has_char "%" s = false -> pct_decode s = Some s.
Proof.
  induction s as [|x s IH]; intros H; [reflexivity |].
  apply has_char_cons in H as [Hx Hs]. simpl. rewrite Ascii.eqb_sym, Hx, IH by exact Hs. reflexivity.
Qed.

Lemma plus_to_space_notin (s : string) : has_char "+" s = false -> plus_to_space s = s.
Proof.
  induction s as [|x s IH]; intros H; [reflexivity |].
  apply has_char_cons in H as [Hx Hs]. cbn [plus_to_space]. now rewrite Hx, IH.
Qed.

Lemma qs_decode_plain (s : string) :
  has_char "+" s = false -> has_char "%" s = false -> qs_decode s = s.
Proof. intros Hp Hc. unfold qs_decode. now rewrite plus_to_space_notin, pct_decode_notin. Qed.

Lemma strip_slash_notin (s : string) : has_char "/" s = false -> strip_slash s = s.
Proof.
  induction s as [|x s IH]; intros H; [reflexivity |].
  apply has_char_cons in H as [Hx Hs]. simpl. rewrite Ascii.eqb_sym, Hx. simpl. now rewrite IH.
Qed.

Lemma substring_full (s : string) : substring 0 (String.length s) s = s.
Proof. induction s as [|x s IH]; simpl; [reflexivity | now rewrite IH]. Qed.

(** The characters a URL reserves never occur in an unreserved string. *)
Lemma unreserved_no_char (c : ascii) (s : string) :
  all_unreserved s = true -> unreserved c = false -> has_char c s = false.
Proof.
  unfold all_unreserved. intros Hs Hc. induction s as [|x s IH]; [reflexivity |].
  simpl in Hs |- *. apply andb_prop in Hs as [Hx Hs].
  destruct (Ascii.eqb_spec c x) as [->|_]; [congruence | now apply IH].
Qed.

#[export] Hint Resolve unreserved_no_char : scene.

(** ** The recognize route *)

Lemma match_recognize_segment (idx : string) :
  idx <> "" -> has_char "/" idx = false -> match_recognize (recognize_prefix ++ idx) = Some idx.
Proof.
  intros Hne Hslash. unfold match_recognize.
  replace (lower (substring 0 20 (recognize_prefix ++ idx))) with recognize_prefix
    by (destruct idx; reflexivity).
  rewrite String.eqb_refl.
  replace (substring 20 (String.length (recognize_prefix ++ idx) - 20) (recognize_prefix ++ idx)) with idx
    by (cbn; now rewrite Nat.sub_0_r, substring_full).
  rewrite strip_slash_notin, Hslash by exact Hslash. destruct idx; [contradiction | reflexivity].
Qed.

(** A request target of the recognize route: the segment is decoded, the
    query parsed. *)
Lemma route_recognize (idx q : string)
  (Hne : idx <> "") (Hslash : has_char "/" idx = false) (Hq : has_char "?" idx = false) :
  route_target GET (recognize_prefix ++ idx ++ "?" ++ q) =
    match pct_decode idx with Some i => ToRecognize i (query_get "faceId" q) | None => BadParam end.
Proof.
  unfold route_target, path_of, query_of.
  change (recognize_prefix ++ idx ++ "?" ++ q) with ((recognize_prefix ++ idx) ++ String "?" q).
  rewrite split_first_app by (rewrite has_char_app; exact Hq).
  cbn [fst snd is_read_method andb]. rewrite match_recognize_segment by assumption.
  replace (existsb _ public_files) with false by reflexivity. reflexivity.
Qed.

(** ** The query of the recognize request *)

Lemma prefix_no_bracket (k s : string) : has_char "[" s = false -> prefix (k ++ "[") s = false.
Proof.
  intros Hs. destruct (prefix (k ++ "[") s) eqn:E; [| reflexivity].
  apply prefix_spec in E as [q ->]. rewrite !has_char_app in Hs.
  cbn in Hs. now rewrite orb_true_r in Hs.
Qed.

Lemma key_value_faceId (v : string) : all_unreserved v = true -> key_value ("faceId=" ++ v) = ("faceId", v).
Proof.
  intros Hv. unfold key_value.
  rewrite split_bracket_eq_notin by (rewrite has_char_app; apply unreserved_no_char; auto).
  change ("faceId=" ++ v) with ("faceId" ++ String "=" v).
  rewrite split_first_app by reflexivity.
  rewrite (qs_decode_plain v) by (apply unreserved_no_char; auto). reflexivity.
Qed.

Lemma key_value_bare (s : string) : all_unreserved s = true -> key_value s = (s, "").
Proof.
  intros Hs. unfold key_value.
  rewrite split_bracket_eq_notin, split_first_notin, qs_decode_plain
    by (apply unreserved_no_char; auto). reflexivity.
Qed.

Lemma query_get_faceId (v : string) :
  all_unreserved v = true -> query_get "faceId" ("faceId=" ++ v) = Some (QStr v).
Proof.
  intros Hv. unfold query_get.
  rewrite split_all_notin by (rewrite has_char_app; apply unreserved_no_char; auto).
  cbn [firstn map]. rewrite key_value_faceId by exact Hv. reflexivity.
Qed.

Lemma query_get_faceId_amp (v s : string) :
  all_unreserved v = true -> all_unreserved s = true -> s <> "faceId" ->
  query_get "faceId" ("faceId=" ++ v ++ "&" ++ s) = Some (QStr v).
Proof.
  intros Hv Hs Hne. unfold query_get.
  rewrite <- string_app_assoc. change ("&" ++ s) with (String "&" s).
  rewrite split_all_app, split_all_notin by
    (try rewrite has_char_app; apply unreserved_no_char; auto).
  cbn [firstn map]. rewrite key_value_faceId, key_value_bare by assumption.
  cbn [existsb fst]. rewrite (prefix_no_bracket "faceId" s) by (apply unreserved_no_char; auto).
  apply String.eqb_neq in Hne. cbn [filter fst]. rewrite Hne. reflexivity.
Qed.

(** ** Fragments *)

Lemma route_no_fragment (m : Method) (u : string) : has_char "#" u = false -> route m u = route_target m u.
Proof. intros Hu. unfold route, request_target. now rewrite split_first_notin. Qed.

Lemma route_fragment (m : Method) (u t : string) :
  has_char "#" u = false -> route m (u ++ "#" ++ t) = route m u.
Proof.
  intros Hu. rewrite (route_no_fragment m u Hu). unfold route, request_target.
  change ("#" ++ t) with (String "#" t). now rewrite split_first_app.
Qed.

End Router.
