(* ===== verification/Wire.v ===== *)
(** * The response bodies as JSON

    What [res.json(...)] of [src/server.js] puts on the wire: the object
    literals of [generateSceneContext] and of the handlers, with the
    labels the source writes as string literals, as [ToJson] instances.
    Properties whose value is [undefined] are left out, as
    [JSON.stringify] does; [null] values are kept.  The upstream bodies
    the server forwards ([raw], [data], [details]) are serialized from
    the fields of [Data] the development models. *)

From Stdlib Require Import QArith ZArith String List Bool.
From S2P Require Import Prelude Json Imagga Confidence Colors Tags Metrics Scene Server Faces.
Import ListNotations.
Import Json Payload Conf Color Tags Metrics Scene Server Faces.
Local Open Scope string_scope.

Module Wire.

(** ** Labels *)

#[export] Instance ToJson_level : ToJson level := fun l =>
  JStr match l with ALTO => "ALTO" | MEDIO => "MEDIO" | BAJO => "BAJO" end.

#[export] Instance ToJson_harmony : ToJson harmony := fun h => JStr (harmony_label h).

#[export] Instance ToJson_grade : ToJson grade := fun g =>
  JStr match g with MuyAlta => "Muy Alta" | Alta => "Alta" | Media => "Media" | Baja => "Baja" end.

#[export] Instance ToJson_scene_type : ToJson scene_type := fun t =>
  JStr match t with
       | Retrato => "Retrato" | Paisaje => "Paisaje" | Comida => "Comida"
       | VidaSilvestre => "Vida Silvestre" | Arquitectura => "Arquitectura"
       | Naturaleza => "Naturaleza" | General => "General"
       end.

#[export] Instance ToJson_setting : ToJson setting := fun s =>
  JStr match s with
       | Interior => "Interior" | Exterior => "Exterior" | Noche => "Noche"
       | Dia => "Día" | NoEspecificado => "No especificado"
       end.

#[export] Instance ToJson_mood : ToJson mood := fun m =>
  JStr match m with
       | Alegre => "Alegre y Luminoso" | Oscuro => "Oscuro y Misterioso"
       | Tranquilo => "Tranquilo y Sereno" | Dinamico => "Dinámico y Energético"
       | Neutral => "Neutral"
       end.

(** ** The scene context *)

(** An object entry [{name, confidence, level}]. *)
Definition object_json (i : ConfItem) : json :=
  JObj [("name", JStr (ci_name i)); ("confidence", JNum (ci_confidence i));
        ("level", to_json (ci_level i))].

(** A tag entry [{tag, confidence, level}]. *)
Definition tag_json (i : ConfItem) : json :=
  JObj [("tag", JStr (ci_name i)); ("confidence", JNum (ci_confidence i));
        ("level", to_json (ci_level i))].

#[export] Instance ToJson_rgb : ToJson rgb := fun c =>
  JObj [("r", to_json (r c)); ("g", to_json (g c)); ("b", to_json (b c))].

#[export] Instance ToJson_DominantOut : ToJson DominantOut := fun d =>
  JObj (opt_field "hex" (option_map JStr (do_hex d)) ++
        [("rgb", to_json (do_rgb d)); ("percentage", JNum (do_percentage d));
         ("name", JStr (do_name d)); ("brightness", to_json (do_brightness d))]).

Definition categorized_json (c : Categorized) : json :=
  JObj [("entities", JArr (map tag_json (entities c)));
        ("attributes", JArr (map tag_json (attributes c)));
        ("environment", JArr (map tag_json (environment c)));
        ("actions", JArr (map tag_json (actions c)));
        ("concepts", JArr (map tag_json (concepts c)))].

#[export] Instance ToJson_SceneMetrics : ToJson SceneMetrics := fun m =>
  JObj [("object_diversity", to_json (object_diversity m));
        ("color_diversity", to_json (color_diversity m));
        ("tag_diversity", to_json (tag_diversity m));
        ("complexity", to_json (complexity m)); ("vibrancy", to_json (vibrancy m))].

#[export] Instance ToJson_SceneContext : ToJson SceneContext := fun ctx =>
  JObj [("objects_detected",
           JObj [("high_confidence", JArr (map object_json (high_confidence ctx)));
                 ("all_objects", JArr (map object_json (all_objects ctx)))]);
        ("color_analysis",
           JObj [("dominant", to_json (dominant_colors ctx));
                 ("palette", to_json (palette_colors ctx));
                 ("color_harmony", to_json (color_harmony ctx));
                 ("avg_brightness", JNum (avg_brightness_out ctx))]);
        ("tags_by_category", categorized_json (tags_by_category ctx));
        ("scene_analysis",
           JObj [("description", JStr (description ctx)); ("type", to_json (scene_kind ctx));
                 ("setting", to_json (scene_setting ctx)); ("mood", to_json (scene_mood ctx));
                 ("dominant_theme", JStr (dominant_theme ctx))]);
        ("composition_metrics", to_json (composition_metrics ctx));
        ("overall_confidence", JNum (overall_confidence ctx));
        ("all_tags", JArr (map tag_json (all_tags ctx)))].

(** ** Upstream bodies *)

#[export] Instance ToJson_TagItem : ToJson TagItem := fun t =>
  JObj (opt_field "confidence" (option_map JNum (Payload.t_confidence t)) ++
        opt_field "tag" (option_map (fun en => JObj [("en", JStr en)]) (t_en t))).

#[export] Instance ToJson_ColorItem : ToJson ColorItem := fun c =>
  JObj (opt_field "hex" (option_map JStr (c_hex c)) ++
        opt_field "percentage" (option_map JNum (c_percentage c))).

#[export] Instance ToJson_Face : ToJson Face := fun f =>
  JObj (opt_field "face_id" (option_map JStr (face_id f))).

#[export] Instance ToJson_Person : ToJson Person := fun p =>
  JObj (opt_field "id" (option_map JStr (person_id p)) ++
        opt_field "score" (option_map JNum (score p))).

(** The [result] object of an Imagga body. *)
Definition result_json (d : Data) : json :=
  JObj (opt_field "tags" (option_map to_json (result_tags d)) ++
        opt_field "colors" (option_map to_json (result_colors d)) ++
        opt_field "upload_id" (option_map JStr (result_upload_id d)) ++
        opt_field "faces" (option_map to_json (result_faces d)) ++
        opt_field "people" (option_map to_json (result_people d))).

#[export] Instance ToJson_Data : ToJson Data := fun d =>
  JObj (("result", result_json d) ::
        opt_field "status" (option_map (fun t => JObj [("text", JStr t)]) (status_text d))).

(** [{ tags: tagsRes.data, colors: colorsRes?.data || null,
       objects: objectsRes?.data || null }]. *)
#[export] Instance ToJson_Analysis : ToJson Analysis := fun a =>
  JObj (opt_field "tags" (option_map to_json (an_tags a)) ++
        [("colors", to_json (an_colors a)); ("objects", to_json (an_objects a))]).

(** [err?.response?.data || err.message]. *)
Definition details_json (d : Details) : option json :=
  match d with
  | DetailsData data => Some (to_json data)
  | DetailsMsg m => option_map JStr m
  end.

(** ** The bodies of [/api/analyze] *)

#[export] Instance ToJson_Body : ToJson Body := fun b =>
  match b with
  | AnalyzeOk source data context =>
      JObj [("source", JStr source); ("data", to_json data); ("context", to_json context)]
  | ErrorMsg error => JObj [("error", JStr error)]
  | Failure error message details =>
      JObj ([("error", JStr error); ("message", JStr message)] ++
            opt_field "details" (details_json details))
  end.

(** ** The bodies of the face endpoints *)

#[export] Instance ToJson_MatchOut : ToJson MatchOut := fun m =>
  JObj (opt_field "personId" (option_map JStr (m_personId m)) ++
        [("confidence", JNum (m_confidence m)); ("level", to_json (m_level m))]).

#[export] Instance ToJson_TopMatch : ToJson TopMatch := fun t =>
  JObj (opt_field "personId" (option_map JStr (Faces.t_personId t)) ++
        [("confidence", JNum (Faces.t_confidence t)); ("isMatch", JBool (isMatch t))]).

(** The [example] of the create-index validation answer. *)
Definition index_example : json :=
  JObj [("indexId", JStr "my_celebrities");
        ("people", JObj [("person_name", JArr [JStr "face_id_1"; JStr "face_id_2"]);
                         ("another_person", JArr [JStr "face_id_3"; JStr "face_id_4"])])].

#[export] Instance ToJson_FaceBody : ToJson FaceBody := fun b =>
  match b with
  | FacesOk source faces raw =>
      JObj ([("source", JStr source); ("faces", to_json faces)] ++
            opt_field "raw" (option_map to_json raw))
  | FaceError error => JObj [("error", JStr error)]
  | FaceFailure error message =>
      JObj (("error", JStr error) :: opt_field "message" (option_map JStr message))
  | MissingIndexData =>
      JObj [("error", JStr "Missing indexId or people data"); ("example", index_example)]
  | IndexOk indexId result message =>
      JObj ([("success", JBool true); ("indexId", JStr indexId)] ++
            opt_field "result" (option_map result_json result) ++
            [("message", JStr message)])
  | MissingFaceId =>
      JObj [("error", JStr "Missing faceId parameter");
            ("usage", JStr "/api/recognize-face/my_index?faceId=<face_id_from_detection>")]
  | Recognition indexId faceId matches topMatch raw =>
      JObj ([("success", JBool true); ("indexId", JStr indexId); ("faceId", JStr faceId);
             ("matches", to_json matches); ("topMatch", to_json topMatch)] ++
            opt_field "raw" (option_map to_json raw))
  | ServiceFailure error details =>
      JObj (("error", JStr error) :: opt_field "details" (details_json details))
  end.

End Wire.
