(* ===== verification/Dom.v ===== *)
(** * The page of the browser client

    The document [src/public/index.html] gives [src/public/app.js]: the
    status line, the results area and the preview area, each a list of
    DOM nodes; and the UI monad in which the client's functions run:
    state passing on the [Page], with a thrown [Error] as a value (its
    message), as the [try]/[catch] blocks of the client see it.

    Text is kept as a list of pieces: literal strings, and numbers as the
    client converts them ([String(n)], [n.toFixed(d)]) or a value as
    [JSON.stringify] prints it, so that no decimal printing of numbers is
    needed.  Presentational CSS (the [style.cssText] strings) is not
    kept; the attributes that carry data ([class], [src], the bar width,
    a color swatch) are. *)

From Stdlib Require Import QArith ZArith String List Bool Lia.
From S2P Require Import Prelude Json.
Import ListNotations.
Import Json.
Local Open Scope string_scope.

Module Dom.

#[local] Set Warnings "-register-all".

(** ** Text *)

Inductive piece :=
| PStr (s : string)            (** literal characters *)
| PNum (q : Q)                 (** [String(n)] of a number *)
| PFixed (q : Q) (digits : nat) (** [n.toFixed(digits)] *)
| PJson (j : json).            (** [JSON.stringify(j)] *)

Definition text := list piece.

(** [`${v}`] of a JSON value: an array prints its elements joined by
    commas, [null] elements as nothing; an object prints
    ['[object Object]']. *)
Fixpoint show_json (j : json) : text :=
  match j with
  | JNull => [PStr "null"]
  | JBool true => [PStr "true"]
  | JBool false => [PStr "false"]
  | JNum q => [PNum q]
  | JStr s => [PStr s]
  | JArr l =>
      (fix go (l : list json) : text :=
         match l with
         | [] => []
         | [x] => match x with JNull => [] | _ => show_json x end
         | x :: xs => ((match x with JNull => [] | _ => show_json x end) ++ PStr "," :: go xs)%list
         end) l
  | JObj _ => [PStr "[object Object]"]
  end.

(** [`${v}`] of a JavaScript value. *)
Definition show (v : jsval) : text :=
  match v with None => [PStr "undefined"] | Some j => show_json j end.

(** ** Nodes *)

(** A text node, an element with its data attributes and children, or an
    element whose [innerHTML] was assigned a markup string. *)
Inductive node :=
| TextNode (t : text)
| Elem (tag : string) (attrs : list (string * text)) (kids : list node)
| HtmlElem (tag : string) (attrs : list (string * text)) (markup : text).

(** An element whose [textContent] is set to literal text. *)
Definition text_el (tag : string) (t : text) : node := Elem tag [] [TextNode t].

(** The children [el.textContent = v] leaves: setting [undefined] or
    [null] empties the element. *)
Definition text_content (v : jsval) : list node :=
  match v with None | Some JNull => [] | Some j => [TextNode (show_json j)] end.

(** The texts and markups of a list of nodes, in document order. *)
Fixpoint node_texts (n : node) : list text :=
  match n with
  | TextNode t => [t]
  | Elem _ _ kids => (fix go (l : list node) : list text :=
                        match l with [] => [] | k :: ks => (node_texts k ++ go ks)%list end) kids
  | HtmlElem _ _ m => [m]
  end.

Definition texts (l : list node) : list text := flat_map node_texts l.

(** ** The page *)

Record Page := mkPage {
  status : text;            (** [statusEl.textContent] *)
  status_color : string;    (** [statusEl.style.color] *)
  results : list node;      (** the children of [resultsEl] *)
  preview : list node }.    (** the children of [previewEl] *)

Definition initial_page : Page := mkPage [] "" [] [].

Definition set_status (t : text) (color : string) (p : Page) : Page :=
  mkPage t color (results p) (preview p).
Definition set_results (l : list node) (p : Page) : Page :=
  mkPage (status p) (status_color p) l (preview p).
Definition set_preview (l : list node) (p : Page) : Page :=
  mkPage (status p) (status_color p) (results p) l.

(** [showStatus], [showError] and [clearStatus]; clearing keeps the color. *)
Definition showStatus (t : text) (p : Page) : Page := set_status t "#111" p.
Definition showError (t : text) (p : Page) : Page := set_status t "crimson" p.
Definition clearStatus (p : Page) : Page := set_status [] (status_color p) p.

(** ** The UI monad *)

Definition UI (A : Type) : Type := Page -> Page * (string + A).

Definition ui_ret {A} (x : A) : UI A := fun p => (p, inr x).
Definition ui_throw {A} (msg : string) : UI A := fun p => (p, inl msg).
Definition ui_bind {A B} (m : UI A) (k : A -> UI B) : UI B :=
  fun p => match m p with
           | (p', inl e) => (p', inl e)
           | (p', inr x) => k x p'
           end.
(** [try { m } catch (err) { h(err.message) }]. *)
Definition ui_catch {A} (m : UI A) (h : string -> UI A) : UI A :=
  fun p => match m p with
           | (p', inl e) => h e p'
           | ok => ok
           end.
Definition ui_lift {A} (r : string + A) : UI A := fun p => (p, r).
Definition modify (f : Page -> Page) : UI unit := fun p => (f p, inr tt).
Definition read_page : UI Page := fun p => (p, inr p).

Declare Scope ui_scope.
Delimit Scope ui_scope with ui.
Notation "x <- m ;; k" := (ui_bind m (fun x => k))
  (at level 61, m at next level, right associativity) : ui_scope.
Notation "m ;;; k" := (ui_bind m (fun _ => k))
  (at level 61, right associativity) : ui_scope.
Local Open Scope ui_scope.

(** [v.k] inside the client: a [TypeError] is thrown. *)
Definition get (v : jsval) (k : string) : UI jsval := ui_lift (prop v k).

(** [resultsEl.appendChild(n)]. *)
Definition append_result (n : node) : UI unit :=
  modify (fun p => set_results (results p ++ [n])%list p).

(** [arr.forEach(f)] (after the array was read). *)
Fixpoint for_each {A} (f : A -> UI unit) (l : list A) : UI unit :=
  match l with
  | [] => ui_ret tt
  | x :: xs => f x ;;; for_each f xs
  end.

(** [arr.map(f)] with a function that may throw. *)
Fixpoint map_ui {A B} (f : A -> UI B) (l : list A) : UI (list B) :=
  match l with
  | [] => ui_ret []
  | x :: xs => y <- f x ;; ys <- map_ui f xs ;; ui_ret (y :: ys)
  end.

(** [v.length > 0] and [v.length === 0] on a value read from a body. *)
Definition positive_num (v : jsval) : bool :=
  match v with Some (JNum q) => Qltb 0 q | _ => false end.
Definition zero_num (v : jsval) : bool :=
  match v with Some (JNum q) => Qeq_bool q 0 | _ => false end.

(** ** Frame conditions of UI actions *)

(** An action that succeeds and only appends nodes to [resultsEl]. *)
Definition Appends (m : UI unit) : Prop :=
  forall p, exists ns, m p = (set_results (results p ++ ns)%list p, inr tt).

(** An action that appends nodes to [resultsEl] and then throws [e]. *)
Definition AppendsThenThrows (m : UI unit) (e : string) : Prop :=
  forall p, exists ns, m p = (set_results (results p ++ ns)%list p, inl e).

(** An action on the results area only, as the renderers are: it reads
    no part of the page and writes only [resultsEl], so it keeps the
    status line and the preview, and what it leaves in [resultsEl] and
    what it returns depend on the page only through its results. *)
Definition ResultsOnly {A} (m : UI A) : Prop :=
  forall p,
    (status (fst (m p)) = status p /\ status_color (fst (m p)) = status_color p /\
     preview (fst (m p)) = preview p) /\
    forall q, results p = results q ->
      results (fst (m p)) = results (fst (m q)) /\ snd (m p) = snd (m q).

(** An action that keeps the preview. *)
Definition KeepsPreview {A} (m : UI A) : Prop := forall p, preview (fst (m p)) = preview p.

(** An action after which [P] holds when it held before. *)
Definition Preserves {A} (P : Page -> Prop) (m : UI A) : Prop := forall p, P p -> P (fst (m p)).

(** ** Lemmas *)

Lemma ui_bind_ret {A B} (x : A) (k : A -> UI B) (p : Page) : ui_bind (ui_ret x) k p = k x p.
Proof. reflexivity. Qed.

Lemma ui_bind_assoc {A B C} (m : UI A) (k : A -> UI B) (h : B -> UI C) (p : Page) :
  ui_bind (ui_bind m k) h p = ui_bind m (fun x => ui_bind (k x) h) p.
Proof. unfold ui_bind. destruct (m p) as [p' [e|x]]; reflexivity. Qed.

Lemma ui_bind_pure {A B} (m : UI A) (k : A -> UI B) (p : Page) (x : A) :
  m p = (p, inr x) -> ui_bind m k p = k x p.
Proof. intros H. unfold ui_bind. now rewrite H. Qed.

Lemma ui_bind_ok {A B} (m : UI A) (k : A -> UI B) (p p' : Page) (x : A) :
  m p = (p', inr x) -> ui_bind m k p = k x p'.
Proof. intros H. unfold ui_bind. now rewrite H. Qed.

Lemma ui_bind_ext {A B} (m : UI A) (k1 k2 : A -> UI B) (p : Page) :
  (forall x p', k1 x p' = k2 x p') -> ui_bind m k1 p = ui_bind m k2 p.
Proof. intros H. unfold ui_bind. destruct (m p) as [p' [e|x]]; auto. Qed.

Lemma for_each_app {A} (f : A -> UI unit) (l1 l2 : list A) (p : Page) :
  for_each f (l1 ++ l2)%list p = ui_bind (for_each f l1) (fun _ => for_each f l2) p.
Proof.
  revert p; induction l1 as [|x xs IH]; intros p; simpl; [reflexivity |].
  rewrite ui_bind_assoc. apply ui_bind_ext. intros _ p'. apply IH.
Qed.

Lemma texts_app (l1 l2 : list node) : texts (l1 ++ l2)%list = (texts l1 ++ texts l2)%list.
Proof. apply flat_map_app. Qed.

Lemma set_results_twice (l l' : list node) (p : Page) :
  set_results l (set_results l' p) = set_results l p.
Proof. reflexivity. Qed.

Lemma results_set_results (l : list node) (p : Page) : results (set_results l p) = l.
Proof. reflexivity. Qed.

Lemma appends_ret : Appends (ui_ret tt).
Proof. intros p. exists []. rewrite app_nil_r. now destruct p. Qed.

Lemma appends_append (n : node) : Appends (append_result n).
Proof. intros p. now exists [n]. Qed.

Lemma appends_seq (m k : UI unit) : Appends m -> Appends k -> Appends (m ;;; k).
Proof.
  intros Hm Hk p. destruct (Hm p) as [ns1 H1].
  destruct (Hk (set_results (results p ++ ns1)%list p)) as [ns2 H2].
  exists (ns1 ++ ns2)%list. unfold ui_bind. rewrite H1, H2.
  now rewrite set_results_twice, results_set_results, app_assoc.
Qed.

Lemma throws_of_pure_fail (m : UI unit) (e : string) :
  (forall p, m p = (p, inl e)) -> AppendsThenThrows m e.
Proof. intros H p. exists []. rewrite H, app_nil_r. now destruct p. Qed.

Lemma throws_seq_l (m k : UI unit) (e : string) :
  AppendsThenThrows m e -> AppendsThenThrows (m ;;; k) e.
Proof. intros Hm p. destruct (Hm p) as [ns H]. exists ns. unfold ui_bind. now rewrite H. Qed.

Lemma throws_seq_r (m k : UI unit) (e : string) :
  Appends m -> AppendsThenThrows k e -> AppendsThenThrows (m ;;; k) e.
Proof.
  intros Hm Hk p. destruct (Hm p) as [ns1 H1].
  destruct (Hk (set_results (results p ++ ns1)%list p)) as [ns2 H2].
  exists (ns1 ++ ns2)%list. unfold ui_bind. rewrite H1, H2.
  now rewrite set_results_twice, results_set_results, app_assoc.
Qed.

(** [map_ui] of a function that succeeds without touching the page on
    every element. *)
Lemma map_ui_ok {A B} (f : A -> UI B) (l : list A) (p : Page) :
  (forall x, In x l -> exists y, f x p = (p, inr y)) -> exists ys, map_ui f l p = (p, inr ys).
Proof.
  induction l as [|x xs IH]; intros H; simpl; [now exists [] |].
  destruct (H x (or_introl eq_refl)) as [y Hy].
  destruct IH as [ys Hys]; [intros z Hz; apply H; now right |].
  exists (y :: ys). unfold ui_bind. now rewrite Hy, Hys.
Qed.

(** [map_ui] of a function that succeeds without touching the page on
    the images of a list. *)
Lemma map_ui_map {A B C} (f : A -> UI B) (h : C -> A) (g : C -> B) (l : list C) (p : Page) :
  (forall x, In x l -> f (h x) p = (p, inr (g x))) -> map_ui f (map h l) p = (p, inr (map g l)).
Proof.
  induction l as [|x xs IH]; intros H; simpl; [reflexivity |].
  unfold ui_bind. rewrite H by now left. rewrite IH by (intros z Hz; apply H; now right). reflexivity.
Qed.

(** [map_ui] throws the exception of the first element that throws. *)
Lemma map_ui_fail {A B} (f : A -> UI B) (pre post : list A) (x : A) (e : string) (p : Page) :
  (forall z, In z pre -> exists y, f z p = (p, inr y)) -> f x p = (p, inl e) ->
  map_ui f (pre ++ x :: post)%list p = (p, inl e).
Proof.
  intros Hpre Hx. induction pre as [|z zs IH]; simpl.
  - unfold ui_bind. now rewrite Hx.
  - destruct (Hpre z (or_introl eq_refl)) as [y Hy].
    unfold ui_bind at 1. rewrite Hy. fold (@ui_bind (list B) (list B)).
    unfold ui_bind. rewrite IH by (intros w Hw; apply Hpre; now right). reflexivity.
Qed.

Lemma positive_num_length (n : nat) : positive_num (Some (num_of_nat n)) = negb (Nat.eqb n 0).
Proof.
  unfold positive_num, num_of_nat. destruct (QltbP 0 (inject_Z (Z.of_nat n))) as [H|H];
    change 0%Q with (inject_Z 0) in H; [rewrite <- Zlt_Qlt in H | rewrite <- Zlt_Qlt in H];
    destruct n; simpl; try reflexivity; lia.
Qed.

Lemma zero_num_length (n : nat) : zero_num (Some (num_of_nat n)) = Nat.eqb n 0.
Proof.
  unfold zero_num, num_of_nat. destruct n; [reflexivity |].
  simpl Nat.eqb. destruct (Qeq_bool _ _) eqn:E; [| reflexivity].
  apply Qeq_bool_iff in E. change 0%Q with (inject_Z 0) in E.
  rewrite inject_Z_injective in E. lia.
Qed.

(** ** Actions on the results area only *)

Lemma ro_ret {A} (x : A) : ResultsOnly (ui_ret x).
Proof. intros p. split; [repeat split | intros q Hq; split; [exact Hq | reflexivity]]. Qed.

Lemma ro_lift {A} (r : string + A) : ResultsOnly (ui_lift r).
Proof. intros p. split; [repeat split | intros q Hq; split; [exact Hq | reflexivity]]. Qed.

Lemma ro_throw {A} (e : string) : ResultsOnly (@ui_throw A e).
Proof. intros p. split; [repeat split | intros q Hq; split; [exact Hq | reflexivity]]. Qed.

Lemma ro_append (n : node) : ResultsOnly (append_result n).
Proof. intros p. split; [repeat split | intros q Hq; cbn; now rewrite Hq]. Qed.

Lemma ro_set (l : list node) : ResultsOnly (modify (set_results l)).
Proof. intros p. split; [repeat split | intros q Hq; split; reflexivity]. Qed.

Lemma ro_get (v : jsval) (k : string) : ResultsOnly (get v k).
Proof. apply ro_lift. Qed.

Lemma ro_bind {A B} (m : UI A) (k : A -> UI B) :
  ResultsOnly m -> (forall x, ResultsOnly (k x)) -> ResultsOnly (ui_bind m k).
Proof.
  intros Hm Hk p. unfold ui_bind.
  destruct (Hm p) as [(Hs & Hc & Hp) Hr].
  destruct (m p) as [p1 [e|x]] eqn:E; cbn in *.
  - split; [auto | intros q Hq].
    destruct (Hr q Hq) as [Hr1 Ho]. destruct (m q) as [q1 [e'|x']]; cbn in *; [|discriminate].
    injection Ho as <-. split; [exact Hr1 | reflexivity].
  - destruct (Hk x p1) as [(Hs' & Hc' & Hp') Hr']. split; [repeat split; congruence |].
    intros q Hq. destruct (Hr q Hq) as [Hr1 Ho]. destruct (m q) as [q1 [e'|x']]; cbn in *;
      [discriminate |]. injection Ho as <-. exact (Hr' q1 Hr1).
Qed.

Lemma ro_if {A} (b : bool) (m1 m2 : UI A) :
  ResultsOnly m1 -> ResultsOnly m2 -> ResultsOnly (if b then m1 else m2).
Proof. now destruct b. Qed.

Lemma ro_map_ui {A B} (f : A -> UI B) (l : list A) :
  (forall x, ResultsOnly (f x)) -> ResultsOnly (map_ui f l).
Proof.
  intros Hf. induction l as [|x xs IH]; simpl; [apply ro_ret |].
  apply ro_bind; [apply Hf | intros y; apply ro_bind; [exact IH | intros ys; apply ro_ret]].
Qed.

Lemma ro_for_each {A} (f : A -> UI unit) (l : list A) :
  (forall x, ResultsOnly (f x)) -> ResultsOnly (for_each f l).
Proof.
  intros Hf. induction l as [|x xs IH]; simpl; [apply ro_ret |].
  apply ro_bind; [apply Hf | intros; exact IH].
Qed.

(** An action on the results area that starts by emptying it: what it
    leaves does not depend on the page. *)
Lemma ro_reset_results {A} (m : UI A) (p q : Page) :
  ResultsOnly m ->
  results (fst ((modify (set_results []) ;;; m) p)) = results (fst ((modify (set_results []) ;;; m) q)) /\
  snd ((modify (set_results []) ;;; m) p) = snd ((modify (set_results []) ;;; m) q).
Proof. intros Hm. unfold ui_bind. cbn. now apply Hm. Qed.

(** Decompose an action into the results-only steps it is built of. *)
Ltac results_only :=
  repeat first
    [ apply ro_bind; [| intros ?]
    | apply ro_if
    | apply ro_map_ui; intros ?
    | apply ro_for_each; intros ?
    | apply ro_ret | apply ro_lift | apply ro_throw | apply ro_append | apply ro_set | apply ro_get
    | match goal with |- ResultsOnly (let '(_, _) := ?x in _) => destruct x end
    | match goal with |- ResultsOnly (match ?x with _ => _ end) => destruct x end ].

(** ** Actions that keep the preview *)

Lemma kp_ro {A} (m : UI A) : ResultsOnly m -> KeepsPreview m.
Proof. intros H p. apply (H p). Qed.

Lemma kp_modify (f : Page -> Page) : (forall p, preview (f p) = preview p) -> KeepsPreview (modify f).
Proof. intros H p. apply H. Qed.

Lemma kp_bind {A B} (m : UI A) (k : A -> UI B) :
  KeepsPreview m -> (forall x, KeepsPreview (k x)) -> KeepsPreview (ui_bind m k).
Proof.
  intros Hm Hk p. unfold ui_bind. specialize (Hm p).
  destruct (m p) as [p1 [e|x]]; cbn in *; [exact Hm | now rewrite Hk].
Qed.

Lemma kp_catch {A} (m : UI A) (h : string -> UI A) :
  KeepsPreview m -> (forall e, KeepsPreview (h e)) -> KeepsPreview (ui_catch m h).
Proof.
  intros Hm Hh p. unfold ui_catch. specialize (Hm p).
  destruct (m p) as [p1 [e|x]]; cbn in *; [now rewrite Hh | exact Hm].
Qed.

(** [showStatus], [showError] and [clearStatus] keep the preview. *)
Lemma status_keeps_preview (t : text) (p : Page) :
  preview (showStatus t p) = preview p /\ preview (showError t p) = preview p /\
  preview (clearStatus p) = preview p.
Proof. repeat split. Qed.

(** ** Actions that preserve a property of the page *)

Lemma pres_modify (P : Page -> Prop) (f : Page -> Page) :
  (forall p, P p -> P (f p)) -> Preserves P (modify f).
Proof. intros H p. apply H. Qed.

Lemma pres_bind {A B} (P : Page -> Prop) (m : UI A) (k : A -> UI B) :
  Preserves P m -> (forall x, Preserves P (k x)) -> Preserves P (ui_bind m k).
Proof.
  intros Hm Hk p Hp. unfold ui_bind. specialize (Hm p Hp).
  destruct (m p) as [p1 [e|x]]; cbn in *; [exact Hm | now apply Hk].
Qed.

Lemma pres_catch {A} (P : Page -> Prop) (m : UI A) (h : string -> UI A) :
  Preserves P m -> (forall e, Preserves P (h e)) -> Preserves P (ui_catch m h).
Proof.
  intros Hm Hh p Hp. unfold ui_catch. specialize (Hm p Hp).
  destruct (m p) as [p1 [e|x]]; cbn in *; [now apply Hh | exact Hm].
Qed.

(** A property of the status line is kept by the renderers. *)
Lemma pres_ro {A} (P : Page -> Prop) (m : UI A) :
  (forall p q, status p = status q -> status_color p = status_color q -> P p -> P q) ->
  ResultsOnly m -> Preserves P m.
Proof. intros HP Hm p Hp. destruct (Hm p) as [(Hs & Hc & _) _]. exact (HP p _ (eq_sym Hs) (eq_sym Hc) Hp). Qed.

End Dom.
