(* ===== verification/Render.v ===== *)
(** * The renderers of the browser client

    [renderResponse], [renderAdvancedSceneContext], [renderSceneContext],
    [renderFaceDetectionResults] and [renderRecognitionResults] of
    [src/public/app.js], in the UI monad of [Dom]: every property read of
    a parsed body may throw a [TypeError], and an element is attached to
    [resultsEl] when the source attaches it, so a throw leaves what was
    attached before it.  Markup assigned to [innerHTML] is kept as the
    text the template builds, without its [style] attributes. *)

From Stdlib Require Import QArith Qround Qminmax ZArith String List Bool.
From S2P Require Import Prelude Json Dom.
Import ListNotations.
Import Json Dom.
Local Open Scope string_scope.
Local Open Scope ui_scope.

Module Render.

(** ** Numbers in the client *)

(** [Number(v)] for the values a body holds: [null] is 0, booleans 0 and
    1; [None] stands for [NaN] (strings are not converted). *)
Definition to_number (v : jsval) : option Q :=
  match v with
  | Some (JNum q) => Some q
  | Some JNull => Some 0
  | Some (JBool b) => Some (if b then 1 else 0)
  | _ => None
  end.

(** [parseFloat(v)] of a number; anything else is [NaN] here. *)
Definition parse_float (v : jsval) : option Q :=
  match v with Some (JNum q) => Some q | _ => None end.

(** [n.toFixed(d)] of a number that may be [NaN]. *)
Definition fixed (n : option Q) (d : nat) : text :=
  match n with Some q => [PFixed q d] | None => [PStr "NaN"] end.

(** [String(n)] of a number that may be [NaN]. *)
Definition show_number (n : option Q) : text :=
  match n with Some q => [PNum q] | None => [PStr "NaN"] end.

(** [v > k] on a value read from a body ([NaN] compares false). *)
Definition gt_num (v : jsval) (k : Q) : bool :=
  match to_number v with Some q => Qltb k q | None => false end.

(** [(v).toFixed(d)]: a [TypeError] unless [v] is a number. *)
Definition to_fixed_of (v : jsval) : UI Q :=
  match v with
  | Some (JNum q) => ui_ret q
  | None => ui_throw (read_error "undefined" "toFixed")
  | Some JNull => ui_throw (read_error "null" "toFixed")
  | Some _ => ui_throw "toFixed is not a function"
  end.

(** [parseFloat(q.toFixed(1))]: rounding to one decimal, halves away from
    zero. *)
Definition round1 (q : Q) : Q :=
  if Qltb q 0 then - (inject_Z (Qfloor (- q * 10 + (1 # 2))) / 10)
  else inject_Z (Qfloor (q * 10 + (1 # 2))) / 10.

(** The double quote character. *)
Definition quote : string := String (Ascii.ascii_of_nat 34) EmptyString.

(** ** [renderAdvancedSceneContext] *)

(** A cell of the scene grid: [`<div>${item.label}</div><div>${item.value}</div>`]. *)
Definition scene_item (label : string) (value : jsval) : node :=
  HtmlElem "div" [] ([PStr "<div>"; PStr label; PStr "</div><div>"] ++ show value ++ [PStr "</div>"])%list.

(** 1. The scene section. *)
Definition scene_section (context : jsval) : UI node :=
  scene <- get context "scene_analysis" ;;
  body <- (if truthy scene then
             description <- get scene "description" ;;
             type <- get scene "type" ;;
             setting <- get scene "setting" ;;
             mood <- get scene "mood" ;;
             theme <- get scene "dominant_theme" ;;
             ui_ret [Elem "div" [] (text_content description);
                     Elem "div" [] [scene_item "🎯 Tipo" type; scene_item "📍 Ambiente" setting;
                                    scene_item "😊 Mood" mood; scene_item "⭐ Tema Principal" theme]]
           else ui_ret []) ;;
  ui_ret (Elem "div" [] (text_el "div" [PStr "🎬 ANÁLISIS DE ESCENA"] :: body)).

(** A high-confidence object: its name and [`${obj.confidence}% - ${obj.level}`]. *)
Definition object_node (obj : json) : UI node :=
  name <- get (Some obj) "name" ;;
  conf <- get (Some obj) "confidence" ;;
  level <- get (Some obj) "level" ;;
  ui_ret (Elem "div" [] [Elem "div" [] (text_content name);
                         text_el "div" (show conf ++ [PStr "% - "] ++ show level)%list]).

(** [x && x.arr.length > 0]. *)
Definition has_items (x : jsval) (arr : string) : UI bool :=
  if truthy x then a <- get x arr ;; len <- get a "length" ;; ui_ret (positive_num len)
  else ui_ret false.

(** 2. The objects section, when there are high-confidence objects. *)
Definition objects_section (context : jsval) : UI unit :=
  od <- get context "objects_detected" ;;
  shown <- has_items od "high_confidence" ;;
  if shown then
    hc <- get od "high_confidence" ;;
    items <- ui_lift (array_of hc "slice") ;;
    kids <- map_ui object_node (slice 5 items) ;;
    append_result (Elem "div" [] [text_el "h3" [PStr "🔍 OBJETOS DETECTADOS (CONFIANZA ALTA)"];
                                  Elem "div" [] kids])
  else ui_ret tt.

(** A dominant color: its swatch and the markup with its name, hex, RGB
    channels, percentage and brightness (read in this order). *)
Definition color_node (color : json) : UI node :=
  let c := Some color in
  hex <- get c "hex" ;;
  name <- get c "name" ;;
  rgb <- get c "rgb" ;;
  r <- get rgb "r" ;;
  g <- get rgb "g" ;;
  b <- get rgb "b" ;;
  pct <- get c "percentage" ;;
  br <- get c "brightness" ;;
  ui_ret (Elem "div" []
    [Elem "div" [("background-color", show hex)] [];
     HtmlElem "div" []
       ([PStr "<div>"] ++ show name ++ [PStr "</div><div>"] ++ show hex ++ [PStr " • RGB("] ++
        show r ++ [PStr ", "] ++ show g ++ [PStr ", "] ++ show b ++
        [PStr ")</div><div>Porcentaje: <strong>"] ++ show pct ++
        [PStr "%</strong> | Brillo: <strong>"] ++ show br ++ [PStr "</strong>/100</div>"])%list]).

(** A metric cell of the color section. *)
Definition metric_cell (label : string) (value : jsval) (suffix : string) : node :=
  HtmlElem "div" [] ([PStr ("<div>" ++ label ++ "</div><div>")] ++ show value ++
                     [PStr (suffix ++ "</div>")])%list.

(** 3. The colors section, when there are dominant colors. *)
Definition colors_section (context : jsval) : UI unit :=
  ca <- get context "color_analysis" ;;
  shown <- has_items ca "dominant" ;;
  if shown then
    dom <- get ca "dominant" ;;
    items <- ui_lift (array_of dom "forEach") ;;
    kids <- map_ui color_node items ;;
    harmony <- get ca "color_harmony" ;;
    avg <- get ca "avg_brightness" ;;
    cm <- get context "composition_metrics" ;;
    vib <- get cm "vibrancy" ;;
    cx <- get cm "complexity" ;;
    append_result (Elem "div" []
      [text_el "h3" [PStr "🎨 ANÁLISIS DE COLORES"]; Elem "div" [] kids;
       Elem "div" [] [metric_cell "Armonía de Colores" harmony "";
                      metric_cell "Brillo Promedio" avg "/100";
                      metric_cell "Vibración de Colores" vib "";
                      metric_cell "Complejidad Visual" cx ""]])
  else ui_ret tt.

(** The categories in display order: key, icon and label. *)
Definition categories : list (string * string * string) :=
  [("entities", "👥", "Entidades"); ("environment", "🌍", "Ambiente");
   ("attributes", "✨", "Atributos"); ("actions", "⚡", "Acciones");
   ("concepts", "💡", "Conceptos")].

(** A tag badge [`${tag.tag} (${tag.confidence}%)`]. *)
Definition tag_badge (tag : json) : UI node :=
  t <- get (Some tag) "tag" ;;
  c <- get (Some tag) "confidence" ;;
  ui_ret (text_el "span" (show t ++ [PStr " ("] ++ show c ++ [PStr "%)"])%list).

(** One category of the categories section: nothing when it is empty,
    else its label and its first five badges. *)
Definition category_block (tbc : jsval) (cat : string * string * string) : UI (list node) :=
  let '(key, icon, label) := cat in
  tags0 <- get tbc key ;;
  let tags := js_or tags0 (Some (JArr [])) in
  len <- get tags "length" ;;
  if zero_num len then ui_ret []
  else
    items <- ui_lift (array_of tags "slice") ;;
    badges <- map_ui tag_badge (slice 5 items) ;;
    ui_ret [Elem "div" [] [text_el "div" [PStr (icon ++ " " ++ label)]; Elem "div" [] badges]].

(** 4. The categories section. *)
Definition categories_section (context : jsval) : UI unit :=
  tbc <- get context "tags_by_category" ;;
  if truthy tbc then
    blocks <- map_ui (category_block tbc) categories ;;
    append_result (Elem "div" [] (text_el "h3" [PStr "📂 ETIQUETAS POR CATEGORÍA"] :: concat blocks))
  else ui_ret tt.

(** A diversity bar: [(m.value / m.max) * 100] as its width, and
    [`${m.value}/10`]. *)
Definition diversity_cell (label : string) (value : jsval) : node :=
  HtmlElem "div" []
    ([PStr ("<div>" ++ label ++ "</div><div><div width: ")] ++
     show_number (option_map (fun q => q / 10 * 100) (to_number value)) ++
     [PStr "%;></div></div><div>"] ++ show value ++ [PStr "/10</div>"])%list.

(** 5. The composition section. *)
Definition metrics_section (context : jsval) : UI unit :=
  cm <- get context "composition_metrics" ;;
  if truthy cm then
    od <- get cm "object_diversity" ;;
    cd <- get cm "color_diversity" ;;
    td <- get cm "tag_diversity" ;;
    append_result (Elem "div" []
      [text_el "h3" [PStr "📊 MÉTRICAS DE COMPOSICIÓN"];
       Elem "div" [] [diversity_cell "Diversidad de Objetos" od;
                      diversity_cell "Diversidad de Colores" cd;
                      diversity_cell "Diversidad de Tags" td]])
  else ui_ret tt.

(** 6. The overall confidence, [`${parseFloat(c).toFixed(1)}%`]. *)
Definition confidence_section (context : jsval) : UI unit :=
  oc <- get context "overall_confidence" ;;
  append_result (Elem "div" []
    [text_el "div" [PStr "✅ CONFIANZA GENERAL DEL ANÁLISIS"];
     text_el "div" (fixed (parse_float oc) 1 ++ [PStr "%"])%list]).

(** [renderAdvancedSceneContext(context)]. *)
Definition renderAdvancedSceneContext (context : jsval) : UI unit :=
  scene <- scene_section context ;;
  append_result scene ;;;
  objects_section context ;;;
  colors_section context ;;;
  categories_section context ;;;
  metrics_section context ;;;
  confidence_section context.

(** ** [renderResponse] *)

(** A tag row of the raw tag list: its name (or a dash) and its
    percentage bar [Math.max(0, Math.min(100, (t.confidence || 0).toFixed(1)))]. *)
Definition tag_row (t : json) : UI node :=
  tag <- get (Some t) "tag" ;;
  en <- (if truthy tag then get tag "en" else ui_ret tag) ;;
  conf0 <- get (Some t) "confidence" ;;
  c <- to_fixed_of (js_or conf0 (Some (JNum 0))) ;;
  let percent := Qmax 0 (Qmin 100 (round1 c)) in
  let name := if truthy en then text_content en else [TextNode [PStr "—"]] in
  ui_ret (Elem "div" [("class", [PStr "tag"])]
    [Elem "div" [] name;
     Elem "div" [] [Elem "div" [("class", [PStr "bar"])] [Elem "i" [("width", [PNum percent; PStr "%"])] []];
                    text_el "div" [PNum percent; PStr "%"]]]).

(** The title of the raw tag list and its empty-list message. *)
Definition tags_title : node := text_el "h3" [PStr "📌 Todas las Etiquetas Detectadas"].
Definition no_tags : node := text_el "p" [PStr "No se encontraron etiquetas."].

(** [renderResponse(json)]. *)
Definition renderResponse (json : jsval) : UI unit :=
  modify (set_results []) ;;;
  data <- (if truthy json then get json "data" else ui_ret None) ;;
  if negb (truthy json) || negb (truthy data) then
    modify (set_results (match json with Some j => [TextNode [PJson j]] | None => [] end))
  else
    context <- get json "context" ;;
    (if truthy context then renderAdvancedSceneContext context else ui_ret tt) ;;;
    result <- get data "result" ;;
    tags0 <- (if truthy result then get result "tags" else ui_ret result) ;;
    let tags := js_or tags0 (Some (JArr [])) in
    append_result tags_title ;;;
    len <- get tags "length" ;;
    if zero_num len then append_result no_tags
    else
      items <- ui_lift (array_of tags "forEach") ;;
      for_each (fun t => row <- tag_row t ;; append_result row) items.

(** ** [renderSceneContext]

    The renderer of an earlier shape of the context ([scene_description],
    [confidence_score], [main_objects], [dominant_colors]); nothing in the
    client calls it. *)

(** [`• ${obj.name} (${parseFloat(obj.confidence).toFixed(1)}%)`]. *)
Definition main_object_line (obj : json) : UI unit :=
  conf <- get (Some obj) "confidence" ;;
  name <- get (Some obj) "name" ;;
  append_result (text_el "div" ([PStr "• "] ++ show name ++ [PStr " ("] ++
                                fixed (parse_float conf) 1 ++ [PStr "%)"])%list).

(** A swatch [color.hex || '#ccc'] and [`${color.hex || 'N/A'} - ${percentage}%`],
    the percentage [color.percentage ? color.percentage.toFixed(1) : '0']. *)
Definition dominant_color_line (color : json) : UI unit :=
  hex <- get (Some color) "hex" ;;
  pct0 <- get (Some color) "percentage" ;;
  pct <- (if truthy pct0 then q <- to_fixed_of pct0 ;; ui_ret [PFixed q 1] else ui_ret [PStr "0"]) ;;
  hex2 <- get (Some color) "hex" ;;
  append_result (Elem "div" []
    [Elem "div" [("background-color", show (js_or hex (Some (JStr "#ccc"))))] [];
     text_el "div" (show (js_or hex2 (Some (JStr "N/A"))) ++ [PStr " - "] ++ pct ++ [PStr "%"])%list]).

Definition renderSceneContext (context : jsval) : UI unit :=
  sd <- get context "scene_description" ;;
  cs <- get context "confidence_score" ;;
  let conf := if truthy cs
              then [text_el "div" ([PStr "Confianza promedio: "] ++
                                   fixed (option_map (fun q => q * 100) (to_number cs)) 1 ++
                                   [PStr "%"])%list]
              else [] in
  append_result (Elem "div" []
    (text_el "div" [PStr "🎬 Análisis de Escena"] ::
     Elem "div" [] (text_content (js_or sd (Some (JStr "Escena detectada en la imagen")))) :: conf)) ;;;
  mo <- get context "main_objects" ;;
  shown_o <- (if truthy mo then len <- get mo "length" ;; ui_ret (positive_num len) else ui_ret false) ;;
  (if shown_o then
     append_result (text_el "h4" [PStr "🔍 Objetos Principales"]) ;;;
     items <- ui_lift (array_of mo "forEach") ;;
     for_each main_object_line items
   else ui_ret tt) ;;;
  dc <- get context "dominant_colors" ;;
  shown_c <- (if truthy dc then len <- get dc "length" ;; ui_ret (positive_num len) else ui_ret false) ;;
  if shown_c then
    append_result (text_el "h4" [PStr "🎨 Colores Dominantes"]) ;;;
    items <- ui_lift (array_of dc "forEach") ;;
    for_each dominant_color_line items
  else ui_ret tt.

(** ** [renderFaceDetectionResults] *)

Definition faces_title : node := text_el "div" [PStr "🎭 DETECCIÓN DE ROSTROS"].
Definition no_faces : node := text_el "div" [PStr "No se detectaron rostros en la imagen."].

(** The next-step instructions under the detected faces. *)
Definition face_instructions : node :=
  HtmlElem "div" []
    [PStr ("<strong>📝 Próximo paso:</strong><br>1. Copia el ID de uno de los rostros<br>2. Ve a " ++
           quote ++ "Reconocer Rostro" ++ quote ++ "<br>3. Pega el ID y selecciona un índice<br>4. Haz clic en " ++
           quote ++ "Reconocer" ++ quote ++ " para identificar")].

(** A detected face [idx]: [`Rostro ${idx + 1}`], [`ID: ${face.id.substring(0, 16)}...`]
    and its copy button (whose click handler is not modelled). *)
Definition face_node (idx : nat) (face : json) : UI node :=
  id <- get (Some face) "id" ;;
  short <- ui_lift (substring_of id 16) ;;
  ui_ret (Elem "div" []
    [HtmlElem "div" [] [PStr "<div>Rostro "; PNum (inject_Z (Z.of_nat (S idx)));
                        PStr ("</div><div>ID: " ++ short ++ "...</div>")];
     text_el "button" [PStr "Copiar ID"]]).

(** [faces.slice(0, 10).forEach((face, idx) => ...)]. *)
Fixpoint face_nodes (idx : nat) (faces : list json) : UI (list node) :=
  match faces with
  | [] => ui_ret []
  | f :: fs => n <- face_node idx f ;; ns <- face_nodes (S idx) fs ;; ui_ret (n :: ns)
  end.

Definition renderFaceDetectionResults (json : jsval) : UI unit :=
  modify (set_results []) ;;;
  faces0 <- get json "faces" ;;
  let faces := js_or faces0 (Some (JArr [])) in
  len <- get faces "length" ;;
  if zero_num len then append_result (Elem "div" [] [faces_title; no_faces])
  else
    items <- ui_lift (array_of faces "slice") ;;
    kids <- face_nodes 0 (slice 10 items) ;;
    append_result (Elem "div" []
      [faces_title; text_el "div" ([PStr "✅ Se detectaron "] ++ show len ++ [PStr " rostro(s)"])%list;
       Elem "div" [] kids; face_instructions]).

(** ** [renderRecognitionResults] *)

(** A match row: its border color and confidence color by [match.confidence]
    ([> 80] green, [> 50] amber, red otherwise), [personId], confidence and
    level. *)
Definition match_row (m : json) : UI node :=
  conf <- get (Some m) "confidence" ;;
  pid <- get (Some m) "personId" ;;
  level <- get (Some m) "level" ;;
  let border := if gt_num conf 80 then "#22c55e" else if gt_num conf 50 then "#f59e0b" else "#ef4444" in
  let color := if gt_num conf 80 then "#16a34a" else if gt_num conf 50 then "#d97706" else "#dc2626" in
  ui_ret (HtmlElem "div" [("border-left-color", [PStr border])]
    ([PStr "<div>"] ++ show pid ++ [PStr ("</div><div color: " ++ color ++ ";>")] ++ show conf ++
     [PStr "% <span>"] ++ show level ++ [PStr "</span></div>"])%list).

Definition recognition_title : node := text_el "div" [PStr "🔍 RESULTADOS DE RECONOCIMIENTO"].

Definition renderRecognitionResults (json : jsval) : UI unit :=
  modify (set_results []) ;;;
  indexId <- get json "indexId" ;;
  faceId <- get json "faceId" ;;
  fshort <- ui_lift (substring_of faceId 20) ;;
  let indexInfo := HtmlElem "div" []
        ([PStr "<strong>Índice:</strong> "] ++ show indexId ++
         [PStr ("<br><strong>Face ID:</strong> " ++ fshort ++ "...")])%list in
  top <- get json "topMatch" ;;
  isMatch <- (if truthy top then get top "isMatch" else ui_ret top) ;;
  verdict <- (if truthy isMatch then
                pid <- get top "personId" ;;
                c <- get top "confidence" ;;
                ui_ret [HtmlElem "div" []
                          ([PStr "<div>✅ ¡COINCIDENCIA ENCONTRADA!</div><div>"] ++ show pid ++
                           [PStr "</div><div>Confianza: <strong>"] ++ show c ++
                           [PStr "%</strong></div>"])%list]
              else if truthy top then
                pid <- get top "personId" ;;
                c <- get top "confidence" ;;
                ui_ret [HtmlElem "div" []
                          ([PStr "<div>❌ NO SE ENCONTRÓ COINCIDENCIA</div><div>Confianza más alta: "] ++
                           show pid ++ [PStr " ("] ++ show c ++ [PStr "%)</div>"])%list]
              else ui_ret []) ;;
  ms <- get json "matches" ;;
  shown <- (if truthy ms then len <- get ms "length" ;; ui_ret (positive_num len) else ui_ret false) ;;
  listing <- (if shown then
                items <- ui_lift (array_of ms "slice") ;;
                rows <- map_ui match_row (slice 5 items) ;;
                ui_ret [text_el "div" [PStr "📊 Todas las coincidencias:"]; Elem "div" [] rows]
              else ui_ret []) ;;
  append_result (Elem "div" [] (recognition_title :: indexInfo :: verdict ++ listing)%list).

(** ** Theorems *)

Lemma to_fixed_of_only (v : jsval) : ResultsOnly (to_fixed_of v).
Proof. unfold to_fixed_of. results_only. Qed.

(** The renderers act on the results area only. *)
Ltac render_only :=
  unfold renderResponse, renderAdvancedSceneContext, scene_section, objects_section,
    colors_section, categories_section, metrics_section, confidence_section, has_items,
    object_node, color_node, category_block, tag_badge, tag_row, to_fixed_of,
    renderSceneContext, main_object_line, dominant_color_line,
    renderFaceDetectionResults, face_node, renderRecognitionResults, match_row;
  cbv zeta; results_only; try apply to_fixed_of_only.

Lemma face_nodes_only (idx : nat) (faces : list json) : ResultsOnly (face_nodes idx faces).
Proof.
  revert idx; induction faces as [|f fs IH]; intros idx; simpl; [apply ro_ret |].
  apply ro_bind; [unfold face_node; results_only | intros n; apply ro_bind; [apply IH | intros; apply ro_ret]].
Qed.

Lemma renderResponse_only (json : jsval) : ResultsOnly (renderResponse json).
Proof. render_only. Qed.

Lemma renderSceneContext_only (context : jsval) : ResultsOnly (renderSceneContext context).
Proof. render_only. Qed.

Lemma renderFaceDetectionResults_only (json : jsval) : ResultsOnly (renderFaceDetectionResults json).
Proof. render_only; apply face_nodes_only. Qed.

Lemma renderRecognitionResults_only (json : jsval) : ResultsOnly (renderRecognitionResults json).
Proof. render_only. Qed.

(** [renderResponse] starts by emptying [resultsEl]: what it leaves there,
    and whether it throws, depend on the body only. *)
Lemma renderResponse_reset (json : jsval) (p q : Page) :
  results (fst (renderResponse json p)) = results (fst (renderResponse json q)) /\
  snd (renderResponse json p) = snd (renderResponse json q).
Proof.
  unfold renderResponse at 1 3. apply ro_reset_results.
  unfold renderAdvancedSceneContext, scene_section, objects_section,
    colors_section, categories_section, metrics_section, confidence_section, has_items,
    object_node, color_node, category_block, tag_badge, tag_row, to_fixed_of.
  cbv zeta; results_only; try apply to_fixed_of_only.
Qed.

End Render.
