(* ===== verification/Client.v ===== *)
(** * The event handlers of the browser client

    The handlers of [src/public/app.js] ([fileInput] change, [fileForm]
    submit, [detectFaces], [recognizeFace]) and the continuations of their
    asynchronous work ([FileReader] loads, [canvas.toBlob] callbacks and
    [fetch] settlements).  The client state is the [Page] with the list of
    pending tasks in start order; an [Event] is a user action or the
    settlement of the [i]-th pending task, so every interleaving of the
    asynchronous work is a sequence of events.  [handle] is the transition
    function and [step] the transition relation of the client. *)

From Stdlib Require Import QArith ZArith String Ascii List Bool Lia.
From S2P Require Import Prelude Json Dom Render.
Import ListNotations.
Import Json Dom Render.
Local Open Scope string_scope.
Local Open Scope ui_scope.

Module Client.

Local Open Scope nat_scope.

(** ** State *)

(** A file of the file input: its name and the data URL a [FileReader]
    produces for it. *)
Record File := mkFile { file_name : option string; data_url : string }.

(** The outcome of a [fetch]: a response with [res.ok] and its JSON body,
    or a network failure with its message.  The server only sends JSON
    bodies. *)
Inductive Answer :=
| Response (ok : bool) (body : json)
| NetworkError (message : string).

(** The asynchronous work in flight. *)
Inductive Task :=
| ReadTask (f : File)              (** [reader.readAsDataURL(file)] *)
| AnalyzeTask (f : File)           (** [await fetch('/api/analyze', ...)] *)
| DetectUrlTask (url : string)     (** [await fetch('/api/detect-faces', ...)] on a URL *)
| BlobTask (src : string)          (** [canvas.toBlob(...)] of the image [src] *)
| DetectBlobTask (src : string)    (** [fetch('/api/detect-faces', ...).then(...)] on its blob *)
| RecognizeTask (url : string).    (** [await fetch(`/api/recognize-face/...`)] *)

Record Client := mkClient { page : Page; tasks : list Task }.

Definition initial : Client := mkClient initial_page [].

Definition with_page (c : Client) (p : Page) : Client := mkClient p (tasks c).
Definition spawn (c : Client) (t : Task) : Client := mkClient (page c) (tasks c ++ [t])%list.

(** The list without its [i]-th element. *)
Fixpoint remove_nth {A} (i : nat) (l : list A) : list A :=
  match i, l with
  | _, [] => []
  | O, _ :: xs => xs
  | S i', x :: xs => x :: remove_nth i' xs
  end.

(** Run a UI action whose exceptions are handled inside it (or escape as
    an unhandled rejection): the page it leaves. *)
Definition run (m : UI unit) (p : Page) : Page := fst (m p).

(** ** Helpers of the handlers *)

(** [String.prototype.trim] on ASCII whitespace. *)
Definition is_ws (c : ascii) : bool :=
  match nat_of_ascii c with 9 | 10 | 11 | 12 | 13 | 32 => true | _ => false end%nat.

Fixpoint drop_ws (l : list ascii) : list ascii :=
  match l with c :: l' => if is_ws c then drop_ws l' else l | [] => [] end.

Definition trim (s : string) : string :=
  string_of_list_ascii (rev (drop_ws (rev (drop_ws (list_ascii_of_string s))))).

(** [previewEl.querySelector('img')]: the source of the first image of the
    preview. *)
Fixpoint first_img (l : list node) : option string :=
  match l with
  | [] => None
  | Elem "img" attrs _ :: _ =>
      Some (match find (fun a => String.eqb (fst a) "src") attrs with
            | Some (_, [PStr s]) => s
            | _ => ""
            end)
  | _ :: rest => first_img rest
  end.

(** The preview image a loaded [FileReader] appends. *)
Definition preview_img (f : File) : node := Elem "img" [("src", [PStr (data_url f)])] [].

(** [showPreviewFromUrl(url)], which no handler calls: the preview
    becomes the image, and a failed load replaces it with a message. *)
Definition showPreviewFromUrl (url : string) (p : Page) : Page :=
  set_preview [Elem "img" [("src", [PStr url]); ("alt", [PStr "Preview"])] []] p.

Definition preview_url_failed (p : Page) : Page :=
  set_preview [TextNode [PStr "No se pudo cargar la imagen"]] p.

(** [showPreviewFromFile(file)]: the preview is emptied and a read starts. *)
Definition showPreviewFromFile (f : File) (c : Client) : Client :=
  spawn (with_page c (set_preview [] (page c))) (ReadTask f).

(** [showError('Error de red: ' + err.message)]. *)
Definition network_error (m : string) : UI unit := modify (showError [PStr "Error de red: "; PStr m]).

(** [JSON.stringify(json)]. *)
Definition stringify (v : jsval) : text :=
  match v with Some j => [PJson j] | None => [PStr "undefined"] end.

(** ** The handlers *)

(** The [change] listener of the file input. *)
Definition on_change (files : list File) (c : Client) : Client :=
  match files with f :: _ => showPreviewFromFile f c | [] => c end.

(** The [submit] listener of the form, up to its [await fetch]. *)
Definition on_submit (files : list File) (c : Client) : Client :=
  let c := with_page c (clearStatus (page c)) in
  match files with
  | [] => with_page c (showError [PStr "Selecciona un archivo"] (page c))
  | f :: _ =>
      let c := showPreviewFromFile f c in
      spawn (with_page c (showStatus [PStr "Subiendo y analizando..."] (page c))) (AnalyzeTask f)
  end.

(** The rest of the [submit] listener once its [fetch] settles. *)
Definition analyze_done (a : Answer) : UI unit :=
  ui_catch
    (match a with
     | NetworkError m => ui_throw m
     | Response ok body =>
         let json := Some body in
         if negb ok then
           e <- get json "error" ;;
           modify (showError (PStr "Error: " :: (if truthy e then show e else stringify json)))
         else modify clearStatus ;;; renderResponse json
     end)
    network_error.

(** [detectFaces()] up to its [fetch] (URL image) or [canvas.toBlob]
    (any other image). *)
Definition on_detect (c : Client) : Client :=
  match first_img (preview (page c)) with
  | None => with_page c (showError [PStr "Primero carga una imagen para detectar rostros"] (page c))
  | Some src =>
      let c := with_page c (showStatus [PStr "Detectando rostros..."] (page c)) in
      if prefix "http" src then spawn c (DetectUrlTask src) else spawn c (BlobTask src)
  end.

(** The rest of [detectFaces()] once the URL [fetch] settles. *)
Definition detect_url_done (a : Answer) : UI unit :=
  ui_catch
    (match a with
     | NetworkError m => ui_throw m
     | Response ok body =>
         modify clearStatus ;;;
         if negb ok then
           e <- get (Some body) "error" ;;
           modify (showError (PStr "Error detectando rostros: " :: show (js_or e (Some (JStr "Desconocido")))))
         else renderFaceDetectionResults (Some body)
     end)
    network_error.

(** The [.then] chain of the blob [fetch]: no [res.ok] check and no
    [catch]; a rejection or a throw is an unhandled rejection that leaves
    the page as it is. *)
Definition detect_blob_done (a : Answer) : UI unit :=
  match a with
  | NetworkError _ => ui_ret tt
  | Response _ body => modify clearStatus ;;; renderFaceDetectionResults (Some body)
  end.

(** The URL [recognizeFace()] requests. *)
Definition recognize_url (indexId faceId : string) : string :=
  "/api/recognize-face/" ++ indexId ++ "?faceId=" ++ faceId.

(** [recognizeFace()] up to its [fetch]. *)
Definition on_recognize (faceIdInput indexIdInput : string) (c : Client) : Client :=
  let faceId := trim faceIdInput in
  let indexId := trim indexIdInput in
  if String.eqb faceId "" || String.eqb indexId "" then
    with_page c (showError [PStr "Por favor rellena Face ID e Index ID"] (page c))
  else
    spawn (with_page c (showStatus [PStr "Reconociendo rostro..."] (page c)))
          (RecognizeTask (recognize_url indexId faceId)).

(** The rest of [recognizeFace()] once its [fetch] settles. *)
Definition recognize_done (a : Answer) : UI unit :=
  ui_catch
    (match a with
     | NetworkError m => ui_throw m
     | Response ok body =>
         if negb ok then
           e <- get (Some body) "error" ;;
           modify (showError (PStr "Error: " :: show (js_or e (Some (JStr "Desconocido")))))
         else modify clearStatus ;;; renderRecognitionResults (Some body)
     end)
    network_error.

(** ** Events *)

Inductive Event :=
| FileChange (files : list File)
| FormSubmit (files : list File)
| DetectClick
| RecognizeClick (faceIdInput indexIdInput : string)
| ReaderLoaded (i : nat)          (** [reader.onload] of the [i]-th task *)
| ReaderFailed (i : nat)          (** [reader.onerror] of the [i]-th task *)
| BlobReady (i : nat)             (** the [toBlob] callback of the [i]-th task *)
| FetchSettled (i : nat) (a : Answer).

(** The transition function: [None] when the event does not apply (the
    [i]-th task is not of the kind the event settles). *)
Definition handle (c : Client) (e : Event) : option Client :=
  let settle i := mkClient (page c) (remove_nth i (tasks c)) in
  match e with
  | FileChange files => Some (on_change files c)
  | FormSubmit files => Some (on_submit files c)
  | DetectClick => Some (on_detect c)
  | RecognizeClick f x => Some (on_recognize f x c)
  | ReaderLoaded i =>
      match nth_error (tasks c) i with
      | Some (ReadTask f) =>
          let c' := settle i in
          Some (with_page c' (set_preview (preview (page c') ++ [preview_img f])%list (page c')))
      | _ => None
      end
  | ReaderFailed i =>
      match nth_error (tasks c) i with
      | Some (ReadTask _) =>
          let c' := settle i in
          Some (with_page c' (set_preview [TextNode [PStr "No se pudo leer el archivo"]] (page c')))
      | _ => None
      end
  | BlobReady i =>
      match nth_error (tasks c) i with
      | Some (BlobTask src) => Some (spawn (settle i) (DetectBlobTask src))
      | _ => None
      end
  | FetchSettled i a =>
      let k := match nth_error (tasks c) i with
               | Some (AnalyzeTask _) => Some (analyze_done a)
               | Some (DetectUrlTask _) => Some (detect_url_done a)
               | Some (DetectBlobTask _) => Some (detect_blob_done a)
               | Some (RecognizeTask _) => Some (recognize_done a)
               | _ => None
               end in
      match k with
      | Some m => let c' := settle i in Some (with_page c' (run m (page c')))
      | None => None
      end
  end.

(** A run of events from a state; [None] when one does not apply. *)
Fixpoint run_events (c : Client) (es : list Event) : option Client :=
  match es with
  | [] => Some c
  | e :: es' => match handle c e with Some c' => run_events c' es' | None => None end
  end.

(** The transition relation and the reachable states. *)
Inductive step : Client -> Client -> Prop :=
| step_event c e c' : handle c e = Some c' -> step c c'.

Inductive reachable : Client -> Prop :=
| reach_init : reachable initial
| reach_step c c' : reachable c -> step c c' -> reachable c'.

(** ** Observations of a state *)

Definition is_img (n : node) : bool := match n with Elem "img" _ _ => true | _ => false end.
Definition is_read (t : Task) : bool := match t with ReadTask _ => true | _ => false end.

(** The images of the preview and the pending file reads. *)
Definition img_count (l : list node) : nat := length (filter is_img l).
Definition reads (ts : list Task) : nat := length (filter is_read ts).

(** The events that start a file read. *)
Definition starts_read (e : Event) : bool :=
  match e with FileChange (_ :: _) | FormSubmit (_ :: _) => true | _ => false end.

(** The states reached when a file is read only while no other read is
    pending. *)
Inductive seq_reachable : Client -> Prop :=
| seq_init : seq_reachable initial
| seq_next c e c' : seq_reachable c -> handle c e = Some c' ->
    (starts_read e = true -> reads (tasks c) = 0) -> seq_reachable c'.

(** The progress messages of the status line. *)
Definition progress_texts : list text :=
  [[PStr "Subiendo y analizando..."]; [PStr "Detectando rostros..."]; [PStr "Reconociendo rostro..."]].

(** A status text that reports an error ('Error: ...', 'Error de red: ...',
    'Error detectando rostros: ...'). *)
Definition error_text (t : text) : bool :=
  match t with PStr s :: _ => prefix "Error" s | _ => false end.

(** The events a user causes, as opposed to settlements. *)
Definition user_event (e : Event) : bool :=
  match e with FileChange _ | FormSubmit _ | DetectClick | RecognizeClick _ _ => true | _ => false end.

(** The messages of [showStatus]. *)
Definition progress_strings : list string :=
  ["Subiendo y analizando..."; "Detectando rostros..."; "Reconociendo rostro..."].

Definition is_progress (t : text) : bool :=
  match t with [PStr s] => existsb (String.eqb s) progress_strings | _ => false end.

(** A well-formed status line: empty, or a progress message in ['#111'],
    or any other message in ['crimson']. *)
Definition status_wf (p : Page) : bool :=
  match status p with
  | [] => true
  | t => String.eqb (status_color p) (if is_progress t then "#111" else "crimson")
  end.

(** A continuation that keeps the status line well-formed. *)
Definition keeps_status_wf (m : UI unit) : Prop := Preserves (fun p => status_wf p = true) m.

(** The invariant of sequential reading: the preview images and the
    pending reads are at most one together. *)
Definition one_image (c : Client) : Prop := (img_count (preview (page c)) + reads (tasks c) <= 1)%nat.

(** The status a continuation leaves: cleared or an error. *)
Definition settled_status (t : text) : Prop := t = [] \/ error_text t = true.

(** Sample files of the witnesses. *)
Definition cat_file : File := mkFile (Some "cat.jpg") "data:image/jpeg;base64,Y2F0".
Definition dog_file : File := mkFile (Some "dog.jpg") "data:image/jpeg;base64,ZG9n".

(** The answer of the first of two submissions, settling last. *)
Definition older_body : json :=
  JObj [("data", JObj [("result", JObj [("tags", JArr [JObj [("tag", JObj [("en", JStr "cat")]); ("confidence", JNum 90)]])])])].
Definition newer_body : json :=
  JObj [("data", JObj [("result", JObj [("tags", JArr [JObj [("tag", JObj [("en", JStr "dog")]); ("confidence", JNum 80)]])])])].

(** The state after running events from the initial page (the initial
    state when an event does not apply). *)
Definition after (es : list Event) : Client :=
  match run_events initial es with Some c => c | None => initial end.

(** ** Theorems *)

(** The continuations on a successful response. *)
Lemma analyze_done_ok (body : json) (p : Page) :
  run (analyze_done (Response true body)) p =
    match renderResponse (Some body) (clearStatus p) with
    | (p', inl e) => fst (network_error e p')
    | (p', inr _) => p'
    end.
Proof. unfold run, analyze_done, ui_catch, ui_bind. cbn -[renderResponse]. now destruct (renderResponse (Some body) (clearStatus p)) as [? [|]]. Qed.

Lemma detect_url_done_ok (body : json) (p : Page) :
  run (detect_url_done (Response true body)) p =
    match renderFaceDetectionResults (Some body) (clearStatus p) with
    | (p', inl e) => fst (network_error e p')
    | (p', inr _) => p'
    end.
Proof. unfold run, detect_url_done, ui_catch, ui_bind. cbn -[renderFaceDetectionResults]. now destruct (renderFaceDetectionResults (Some body) (clearStatus p)) as [? [|]]. Qed.

Lemma recognize_done_ok (body : json) (p : Page) :
  run (recognize_done (Response true body)) p =
    match renderRecognitionResults (Some body) (clearStatus p) with
    | (p', inl e) => fst (network_error e p')
    | (p', inr _) => p'
    end.
Proof.
  unfold run, recognize_done, ui_catch, ui_bind. cbn -[renderRecognitionResults].
  now destruct (renderRecognitionResults (Some body) (clearStatus p)) as [? [|]].
Qed.

Lemma detect_blob_done_any (ok : bool) (body : json) (p : Page) :
  run (detect_blob_done (Response ok body)) p = fst (renderFaceDetectionResults (Some body) (clearStatus p)).
Proof. unfold run, detect_blob_done, ui_bind. cbn -[renderFaceDetectionResults]. now destruct (renderFaceDetectionResults (Some body) (clearStatus p)) as [? [|]]. Qed.

(** The continuations of the fetches keep the preview. *)
Lemma continuations_keep_preview (a : Answer) :
  KeepsPreview (analyze_done a) /\ KeepsPreview (detect_url_done a) /\
  KeepsPreview (detect_blob_done a) /\ KeepsPreview (recognize_done a).
Proof.
  assert (Hm : forall f, (forall p, preview (f p) = preview p) -> KeepsPreview (modify f)) by apply kp_modify.
  unfold analyze_done, detect_url_done, detect_blob_done, recognize_done, network_error.
  destruct a as [[|] body | m]; cbn [negb];
    repeat first
      [ apply kp_ro; first [apply renderResponse_only | apply renderFaceDetectionResults_only
                           | apply renderRecognitionResults_only | apply ro_get | apply ro_throw | apply ro_ret]
      | apply kp_catch; [| intros ?] | apply kp_bind; [| intros ?]
      | apply Hm; intros; reflexivity
      | split ].
Qed.

Lemma reads_app (ts : list Task) (t : Task) :
  reads (ts ++ [t])%list = (reads ts + (if is_read t then 1 else 0))%nat.
Proof. unfold reads. rewrite filter_app, length_app. simpl. destruct (is_read t); simpl; lia. Qed.

Lemma reads_remove_nth (ts : list Task) (i : nat) (t : Task) :
  nth_error ts i = Some t -> (reads (remove_nth i ts) + (if is_read t then 1 else 0) = reads ts)%nat.
Proof.
  unfold reads. revert i; induction ts as [|u us IH]; intros [|i] H; try discriminate; simpl in *.
  - injection H as ->. destruct (is_read t); simpl; lia.
  - specialize (IH i H). destruct (is_read u); simpl; lia.
Qed.

Lemma img_count_app (l : list node) (n : node) :
  img_count (l ++ [n])%list = (img_count l + (if is_img n then 1 else 0))%nat.
Proof. unfold img_count. rewrite filter_app, length_app. simpl. destruct (is_img n); simpl; lia. Qed.

Lemma one_image_step (c c' : Client) (e : Event) :
  one_image c -> handle c e = Some c' -> (starts_read e = true -> reads (tasks c) = 0) -> one_image c'.
Proof.
  unfold one_image. intros Hc He Hseq.
  destruct e as [files|files| |fi ii|i|i|i|i a]; cbn [handle] in He.
  - destruct files as [|f fs]; injection He as <-; [exact Hc |].
    cbn -[reads img_count]. rewrite reads_app, Hseq by reflexivity. reflexivity.
  - destruct files as [|f fs]; injection He as <-; [exact Hc |].
    cbn -[reads img_count]. rewrite !reads_app, Hseq by reflexivity. reflexivity.
  - injection He as <-. unfold on_detect.
    destruct (first_img _); [destruct (prefix _ _) |]; cbn -[reads img_count]; rewrite ?reads_app; cbn -[reads img_count]; lia.
  - injection He as <-. unfold on_recognize.
    destruct (_ || _); cbn -[reads img_count]; rewrite ?reads_app; cbn -[reads img_count]; lia.
  - destruct (nth_error (tasks c) i) as [[f| | | | |]|] eqn:E; try discriminate.
    injection He as <-. pose proof (reads_remove_nth _ _ _ E). cbn -[reads img_count] in *.
    rewrite img_count_app. cbn -[reads img_count]. lia.
  - destruct (nth_error (tasks c) i) as [[f| | | | |]|] eqn:E; try discriminate.
    injection He as <-. pose proof (reads_remove_nth _ _ _ E). cbn -[reads] in *. lia.
  - destruct (nth_error (tasks c) i) as [[| | |src| |]|] eqn:E; try discriminate.
    injection He as <-. pose proof (reads_remove_nth _ _ _ E). cbn -[reads img_count] in *.
    rewrite reads_app. cbn -[reads img_count]. lia.
  - destruct (continuations_keep_preview a) as (Ha & Hu & Hb & Hr).
    destruct (nth_error (tasks c) i) as [t|] eqn:E; [| discriminate].
    pose proof (reads_remove_nth _ _ _ E).
    destruct t; try discriminate; injection He as <-; cbn -[run reads img_count] in *; unfold run;
      rewrite ?Ha, ?Hu, ?Hb, ?Hr; lia.
Qed.

(** C16: While files are read one at a time (no selection while a read is
    pending), the preview never shows more than one image. *)
Theorem preview_single_image (c : Client) (Hc : seq_reachable c) :
  (img_count (preview (page c)) <= 1)%nat.
Proof.
  assert (H : one_image c).
  { induction Hc as [|c e c' Hr IH He Hs]; [unfold one_image; cbn; lia |].
    exact (one_image_step c c' e IH He Hs). }
  unfold one_image in H. lia.
Qed.

(** The [i]-th element of a list past a prefix, and its removal. *)
Lemma nth_error_app_len {A} (k i : nat) (l r : list A) :
  i = k + List.length l -> nth_error (l ++ r)%list i = nth_error r k.
Proof. intros ->. rewrite nth_error_app2 by lia. f_equal. lia. Qed.

Lemma remove_nth_app_len {A} (k i : nat) (l r : list A) :
  i = k + List.length l -> remove_nth i (l ++ r)%list = (l ++ remove_nth k r)%list.
Proof. intros ->. induction l as [|x l IH]; cbn; [now rewrite <- plus_n_O | rewrite <- plus_n_Sm; cbn; now rewrite IH]. Qed.

Lemma handle_no_tasks (c c' : Client) (e : Event) :
  tasks c = [] -> handle c e = Some c' -> user_event e = true.
Proof.
  intros Ht He. destruct e; try reflexivity; cbn [handle] in He; rewrite Ht in He;
    match type of He with context [nth_error [] ?i] => destruct i end; discriminate He.
Qed.

(** C24: Two file selections whose reads overlap leave both images in the
    preview ([previewEl] is emptied when a read starts, not when it ends),
    in the order the reads finish, and [detectFaces] then takes the image
    whose read finished first: from any state, the earlier selection when
    its read finishes first, the later one otherwise, never the preview of
    the latest selection alone. *)
Theorem preview_race_detects_first_loaded (c : Client) (f1 f2 : File) :
  let n := List.length (tasks c) in
  (exists c1, run_events c [FileChange [f1]; FileChange [f2]; ReaderLoaded n; ReaderLoaded n] = Some c1 /\
     tasks c1 = tasks c /\ preview (page c1) = [preview_img f1; preview_img f2] /\
     tasks (on_detect c1) = (tasks c ++ [if prefix "http" (data_url f1) then DetectUrlTask (data_url f1)
                                         else BlobTask (data_url f1)])%list) /\
  (exists c2, run_events c [FileChange [f1]; FileChange [f2]; ReaderLoaded (S n); ReaderLoaded n] = Some c2 /\
     tasks c2 = tasks c /\ preview (page c2) = [preview_img f2; preview_img f1] /\
     tasks (on_detect c2) = (tasks c ++ [if prefix "http" (data_url f2) then DetectUrlTask (data_url f2)
                                         else BlobTask (data_url f2)])%list).
Proof.
  destruct c as [p ts]. cbv zeta. cbn [tasks].
  cbn [run_events handle on_change showPreviewFromFile spawn with_page tasks page]. rewrite <- app_assoc. cbn [app].
  split.
  - rewrite (nth_error_app_len 0 _ ts), (remove_nth_app_len 0 _ ts) by reflexivity. cbn.
    rewrite (nth_error_app_len 0 _ ts), (remove_nth_app_len 0 _ ts) by reflexivity. cbn.
    eexists. split; [reflexivity|]. rewrite app_nil_r. repeat split.
    cbn. now destruct (prefix "http" (data_url f1)).
  - rewrite (nth_error_app_len 1 _ ts), (remove_nth_app_len 1 _ ts) by reflexivity. cbn.
    rewrite (nth_error_app_len 0 _ ts), (remove_nth_app_len 0 _ ts) by reflexivity. cbn.
    eexists. split; [reflexivity|]. rewrite app_nil_r. repeat split.
    cbn. now destruct (prefix "http" (data_url f2)).
Qed.

Lemma status_showError (t : text) (p : Page) : status (showError t p) = t.
Proof. reflexivity. Qed.

Lemma network_error_status (m : string) (p : Page) : settled_status (status (fst (network_error m p))).
Proof. right. reflexivity. Qed.

Lemma error_get_status (v : jsval) (k : string) (prefixed : text) (f : jsval -> text) (p : Page) :
  error_text (prefixed) = true ->
  settled_status (status (fst (ui_catch (e <- get v k ;; modify (showError (prefixed ++ f e))%list) network_error p))).
Proof.
  intros Hp. unfold ui_catch, ui_bind, get, ui_lift. destruct (prop v k) as [e|x]; cbn.
  - right. reflexivity.
  - right. destruct prefixed as [|[s| | |] t]; try discriminate. exact Hp.
Qed.

Lemma render_status (m : UI unit) (p : Page) :
  ResultsOnly m -> status p = [] ->
  settled_status (status (match m p with (p', inl e) => fst (network_error e p') | (p', inr _) => p' end)).
Proof.
  intros Hm Hp. destruct (Hm p) as [(Hs & _ & _) _]. destruct (m p) as [p' [e|x]]; cbn in *.
  - right. reflexivity.
  - left. congruence.
Qed.

(** C15: Every awaited request ends its progress message: once the fetch
    of an analysis, of a URL face detection or of a recognition settles,
    with any answer or network failure, the status line is cleared or
    shows an error. *)
Theorem awaited_fetch_settles_status (c c' : Client) (i : nat) (a : Answer) (t : Task)
  (Ht : nth_error (tasks c) i = Some t)
  (Hawait : match t with AnalyzeTask _ | DetectUrlTask _ | RecognizeTask _ => True | _ => False end)
  (He : handle c (FetchSettled i a) = Some c') :
  settled_status (status (page c')) /\ ~ In (status (page c')) progress_texts.
Proof.
  assert (Hs : settled_status (status (page c'))).
  { cbn [handle] in He. rewrite Ht in He.
    destruct t; try contradiction; injection He as <-; cbn [page with_page].
    - destruct a as [[|] body | m]; [rewrite analyze_done_ok | | apply network_error_status].
      + apply render_status; [apply renderResponse_only | reflexivity].
      + unfold run, analyze_done. cbn [negb]. apply (error_get_status _ _ [PStr "Error: "]); reflexivity.
    - destruct a as [[|] body | m]; [rewrite detect_url_done_ok | | apply network_error_status].
      + apply render_status; [apply renderFaceDetectionResults_only | reflexivity].
      + unfold run, detect_url_done, ui_catch, ui_bind at 1. cbn [negb modify].
        apply (error_get_status _ _ [PStr "Error detectando rostros: "]); reflexivity.
    - destruct a as [[|] body | m]; [| | apply network_error_status].
      + rewrite recognize_done_ok. apply render_status; [apply renderRecognitionResults_only | reflexivity].
      + unfold run, recognize_done. cbn [negb].
        apply (error_get_status _ _ [PStr "Error: "]); reflexivity. }
  split; [exact Hs |].
  intros Hin. destruct Hs as [Hnil | He'].
  - rewrite Hnil in Hin. destruct Hin as [H|[H|[H|[]]]]; discriminate.
  - destruct Hin as [H|[H|[H|[]]]]; rewrite <- H in He'; discriminate.
Qed.

(** C23: The blob path of [detectFaces] has no [catch]: from any state,
    when the fetch of a blob face detection fails on the network the page
    is left as it was (a 'Detectando rostros...' status stays) and the task
    is gone; when it was the last pending task, only a new user action can
    change the page again. *)
Theorem detect_blob_network_failure_stuck (c : Client) (i : nat) (src m : string)
  (Ht : nth_error (tasks c) i = Some (DetectBlobTask src)) :
  handle c (FetchSettled i (NetworkError m)) = Some (mkClient (page c) (remove_nth i (tasks c))) /\
  (remove_nth i (tasks c) = [] ->
   forall e c', handle (mkClient (page c) (remove_nth i (tasks c))) e = Some c' -> user_event e = true).
Proof.
  split; [cbn [handle]; now rewrite Ht |].
  intros Hnil e c' He. exact (handle_no_tasks (mkClient (page c) (remove_nth i (tasks c))) _ _ Hnil He).
Qed.

(** The results an analysis answer leaves, from any page. *)
Lemma analyze_done_results (body : json) (p : Page) :
  results (run (analyze_done (Response true body)) p) = results (fst (renderResponse (Some body) p)).
Proof.
  rewrite analyze_done_ok. destruct (renderResponse_reset (Some body) (clearStatus p) p) as [Hr _].
  destruct (renderResponse (Some body) (clearStatus p)) as [p' [e|x]]; exact Hr.
Qed.

(** C19: Nothing ties an answer to the latest submission: the results
    after an analysis fetch settles are those of its answer alone,
    whatever was submitted or shown since, so when two submissions'
    answers arrive in the reverse order the older analysis is the one
    left on the page. *)
Theorem analysis_results_last_settled (c c' : Client) (i : nat) (f : File) (body : json)
  (Ht : nth_error (tasks c) i = Some (AnalyzeTask f))
  (He : handle c (FetchSettled i (Response true body)) = Some c') :
  results (page c') = results (run (analyze_done (Response true body)) initial_page).
Proof.
  cbn [handle] in He. rewrite Ht in He. injection He as <-. cbn [page with_page].
  rewrite !analyze_done_results. apply renderResponse_reset.
Qed.

(** ** The status line *)

Lemma status_wf_showStatus (t : text) (p : Page) :
  is_progress t = true -> status_wf (showStatus t p) = true.
Proof. intros H. unfold status_wf. cbn [status status_color showStatus set_status]. destruct t; [discriminate | now rewrite H]. Qed.

Lemma status_wf_showError (s : string) (t : text) (p : Page) :
  existsb (String.eqb s) progress_strings = false -> status_wf (showError (PStr s :: t) p) = true.
Proof. intros H. unfold status_wf, is_progress. cbn [status status_color showError set_status]. destruct t; [now rewrite H | reflexivity]. Qed.

Lemma status_wf_frame (p q : Page) :
  status p = status q -> status_color p = status_color q -> status_wf p = true -> status_wf q = true.
Proof. unfold status_wf. intros -> ->. exact id. Qed.

Lemma continuations_status_wf (a : Answer) :
  keeps_status_wf (analyze_done a) /\ keeps_status_wf (detect_url_done a) /\
  keeps_status_wf (detect_blob_done a) /\ keeps_status_wf (recognize_done a).
Proof.
  unfold keeps_status_wf, analyze_done, detect_url_done, detect_blob_done, recognize_done, network_error.
  destruct a as [[|] body | m]; cbn [negb];
    repeat first
      [ apply pres_ro; [apply status_wf_frame |];
        first [apply renderResponse_only | apply renderFaceDetectionResults_only
              | apply renderRecognitionResults_only | apply ro_get | apply ro_throw | apply ro_ret]
      | apply pres_catch; [| intros ?] | apply pres_bind; [| intros ?]
      | apply pres_modify; intros ? _; first [reflexivity | apply status_wf_showError; reflexivity]
      | split ].
Qed.

Lemma handle_status_wf (c c' : Client) (e : Event) :
  handle c e = Some c' -> status_wf (page c) = true -> status_wf (page c') = true.
Proof.
  intros He Hc. destruct e as [files|files| |fi ii|i|i|i|i a]; cbn [handle] in He.
  - destruct files; injection He as <-; exact Hc.
  - destruct files; injection He as <-; [apply status_wf_showError |]; reflexivity.
  - injection He as <-. unfold on_detect.
    destruct (first_img _); [destruct (prefix _ _) |];
      first [apply status_wf_showStatus | apply status_wf_showError]; reflexivity.
  - injection He as <-. unfold on_recognize.
    destruct (_ || _); first [apply status_wf_showStatus | apply status_wf_showError]; reflexivity.
  - destruct (nth_error (tasks c) i) as [[f| | | | |]|]; try discriminate. injection He as <-. exact Hc.
  - destruct (nth_error (tasks c) i) as [[f| | | | |]|]; try discriminate. injection He as <-. exact Hc.
  - destruct (nth_error (tasks c) i) as [[| | |src| |]|]; try discriminate. injection He as <-. exact Hc.
  - destruct (continuations_status_wf a) as (Ha & Hu & Hb & Hr).
    destruct (nth_error (tasks c) i) as [[]|]; try discriminate; injection He as <-;
      first [apply Ha | apply Hu | apply Hb | apply Hr]; exact Hc.
Qed.

(** C17: The status line is well-formed in every reachable state, under
    any interleaving of user actions and settlements: it is empty, or a
    progress message of [showStatus] shown in '#111', or any other
    message shown in 'crimson' ([clearStatus] keeps the color of an
    emptied line, and no handler shows an error with [showStatus]). *)
Theorem reachable_status_wf (c : Client) (Hc : reachable c) : status_wf (page c) = true.
Proof.
  induction Hc as [|c c' Hr IH Hs]; [reflexivity |].
  destruct Hs as [c e c' He]. exact (handle_status_wf c c' e He IH).
Qed.

Lemma preview_single_image_witness :
  (img_count (preview (page (after [FileChange [cat_file]; ReaderLoaded 0; FormSubmit [dog_file]; ReaderLoaded 0]))) <= 1)%nat.
Proof.
  apply preview_single_image.
  apply (seq_next (after [FileChange [cat_file]; ReaderLoaded 0; FormSubmit [dog_file]]) (ReaderLoaded 0));
    [| reflexivity | discriminate].
  apply (seq_next (after [FileChange [cat_file]; ReaderLoaded 0]) (FormSubmit [dog_file]));
    [| reflexivity | reflexivity].
  apply (seq_next (after [FileChange [cat_file]]) (ReaderLoaded 0)); [| reflexivity | discriminate].
  apply (seq_next initial (FileChange [cat_file])); [apply seq_init | reflexivity | reflexivity].
Defined.

Lemma awaited_fetch_settles_status_witness :
  settled_status (status (page (after [FormSubmit [cat_file]; FetchSettled 1 (NetworkError "Failed to fetch")]))) /\
  ~ In (status (page (after [FormSubmit [cat_file]; FetchSettled 1 (NetworkError "Failed to fetch")]))) progress_texts.
Proof.
  apply (awaited_fetch_settles_status (after [FormSubmit [cat_file]]) _ 1 (NetworkError "Failed to fetch")
           (AnalyzeTask cat_file)); [reflexivity | exact I | reflexivity].
Defined.

Lemma detect_blob_network_failure_stuck_witness :
  nth_error (tasks (after [FileChange [cat_file]; ReaderLoaded 0; DetectClick; BlobReady 0])) 0 =
    Some (DetectBlobTask (data_url cat_file)) /\
  status (page (after [FileChange [cat_file]; ReaderLoaded 0; DetectClick; BlobReady 0])) =
    [PStr "Detectando rostros..."] /\
  handle (after [FileChange [cat_file]; ReaderLoaded 0; DetectClick; BlobReady 0])
         (FetchSettled 0 (NetworkError "Failed to fetch")) =
    Some (mkClient (page (after [FileChange [cat_file]; ReaderLoaded 0; DetectClick; BlobReady 0]))
                   (remove_nth 0 (tasks (after [FileChange [cat_file]; ReaderLoaded 0; DetectClick; BlobReady 0])))) /\
  (remove_nth 0 (tasks (after [FileChange [cat_file]; ReaderLoaded 0; DetectClick; BlobReady 0])) = [] ->
   forall e c', handle (mkClient (page (after [FileChange [cat_file]; ReaderLoaded 0; DetectClick; BlobReady 0]))
                   (remove_nth 0 (tasks (after [FileChange [cat_file]; ReaderLoaded 0; DetectClick; BlobReady 0])))) e = Some c' ->
   user_event e = true).
Proof.
  split; [vm_compute; reflexivity |]. split; [vm_compute; reflexivity |].
  apply (detect_blob_network_failure_stuck _ _ (data_url cat_file)). vm_compute. reflexivity.
Defined.

Lemma analysis_results_last_settled_witness :
  results (page (after [FormSubmit [cat_file]; FormSubmit [dog_file];
                        FetchSettled 3 (Response true newer_body); FetchSettled 1 (Response true older_body)])) =
    results (run (analyze_done (Response true older_body)) initial_page).
Proof.
  apply (analysis_results_last_settled
           (after [FormSubmit [cat_file]; FormSubmit [dog_file]; FetchSettled 3 (Response true newer_body)])
           _ 1 cat_file older_body); reflexivity.
Defined.

Lemma reachable_status_wf_witness :
  status_wf (page (after [FormSubmit [cat_file]; FetchSettled 1 (NetworkError "Failed to fetch")])) = true.
Proof.
  apply reachable_status_wf.
  apply (reach_step (after [FormSubmit [cat_file]])); [| apply (step_event _ (FetchSettled 1 (NetworkError "Failed to fetch"))); reflexivity].
  apply (reach_step initial); [apply reach_init | apply (step_event _ (FormSubmit [cat_file])); reflexivity].
Defined.

End Client.
