(* ===== verification/Flow.v ===== *)
(** * The client on the server's answers

    The composition of the two programs: the bodies of [src/server.js]
    serialized by [Wire] and rendered by the client of
    [src/public/app.js] ([Render], [Client]).  The lemmas evaluate each
    section of [renderAdvancedSceneContext] on a serialized context, and
    [categories_view] states what the category section promises of the
    server's categorization (the refinement theorem); the other theorems
    follow an answer of [/api/analyze], [/api/detect-faces] and
    [/api/recognize-face] to the page the user sees, and the recognize
    request the client builds through the Express router ([Router]) to
    the handler. *)

From Stdlib Require Import QArith ZArith String Ascii List Bool Lia Permutation.
From S2P Require Import Prelude Json Imagga Confidence Colors Tags Metrics Scene Server Faces Router Wire Dom Render Client.
Import ListNotations.
Import Json Payload Conf Color Tags Metrics Scene Server Faces Router Wire Dom Render Client.
Local Open Scope string_scope.
Local Open Scope ui_scope.

Module Flow.

(** The [fetch] outcome of a server response: [res.ok] for a 2xx status
    and the JSON body. *)
Definition answer_of (r : Server.Response) : Answer :=
  Client.Response ((200 <=? res_status r) && (res_status r <? 300))%Z (to_json (res_body r)).

Definition face_answer_of (r : FaceResponse) : Answer :=
  Client.Response ((200 <=? f_status r) && (f_status r <? 300))%Z (to_json (f_body r)).

(** The colors an analysis answer carries ([data.colors.result.colors]). *)
Definition answer_colors (b : Body) : list ColorItem :=
  match b with
  | AnalyzeOk _ a _ => or_nil (bind_opt (an_colors a) result_colors)
  | _ => []
  end.

(** ** Sample upstreams of the witnesses *)

Definition colors_data (hex : string) : Data :=
  mkData None (Some [mkColor (Some hex) (Some 60)]) None None None None.

(** Tags and colors succeed, the auto-tagging fails. *)
Definition hex_upstream (hex : string) : Upstream := fun _ c =>
  match c with
  | GetTags _ _ => Ok (Some tags_data)
  | GetColors _ _ => Ok (Some (colors_data hex))
  | _ => Fail (Some 500%Z) None
  end.

(** Face detection finds one face. *)
Definition faces_upstream : Upstream := fun _ c =>
  match c with
  | GetFaceDetection _ _ => Ok (Some (mkData None None None (Some [mkFace (Some "f0a1")]) None None))
  | _ => Fail (Some 500%Z) None
  end.

(** Recognition finds one person, whose id was stored as markup. *)
Definition markup_id : string := "<img src=x onerror=alert(1)>".
Definition people_upstream : Upstream := fun _ c =>
  match c with
  | GetRecognition _ _ _ => Ok (Some (mkData None None None None (Some [mkPerson (Some markup_id) (Some 95)]) None))
  | _ => Fail (Some 500%Z) None
  end.

Definition url_request : ImageRequest := mkImageRequest (Some "http://x/y.jpg") None.
Definition blob_request : ImageRequest := mkImageRequest None (Some (Server.mkFile (Some "blob"))).

(** The response of a handler run, by computation. *)
Definition response_or {A} (o : Exn + A) (d : A) : A := match o with inr r => r | inl _ => d end.

Definition analyze_response (hex : string) : Server.Response :=
  response_or (snd (@api_analyze (hex_upstream hex) sample_env url_request [])) (mkResponse 0 (ErrorMsg "")).

Definition detect_response (U : Upstream) (req : ImageRequest) : FaceResponse :=
  response_or (snd (@api_detect_faces U sample_env req [])) (mkFaceResponse 0 MissingFaceId).

(** ** The category section as the server's categorization shows it

    The view of [tags_by_category] the client promises: the five
    categories in its display order (entities, environment, attributes,
    actions, concepts), each shown only when it has tags, with its label
    and a badge [name (confidence%)] for each of its first five tags. *)

Definition badge_view (i : ConfItem) : node :=
  text_el "span" [PStr (ci_name i); PStr " ("; PNum (ci_confidence i); PStr "%)"].

Definition block_view (icon label : string) (l : list ConfItem) : list node :=
  match l with
  | [] => []
  | _ => [Elem "div" [] [text_el "div" [PStr (icon ++ " " ++ label)]; Elem "div" [] (map badge_view (slice 5 l))]]
  end.

Definition categories_view (c : Categorized) : node :=
  Elem "div" [] (text_el "h3" [PStr "📂 ETIQUETAS POR CATEGORÍA"] ::
    block_view "👥" "Entidades" (entities c) ++ block_view "🌍" "Ambiente" (environment c) ++
    block_view "✨" "Atributos" (attributes c) ++ block_view "⚡" "Acciones" (actions c) ++
    block_view "💡" "Conceptos" (concepts c))%list.

(** ** Rendering a serialized context *)

(** A category read out of a serialized categorization. *)
Lemma category_block_items (fs : list (string * json)) (key icon label : string)
    (l : list ConfItem) (p : Page) :
  lookup key fs = Some (JArr (map tag_json l)) ->
  category_block (Some (JObj fs)) (key, icon, label) p = (p, inr (block_view icon label l)).
Proof.
  intros Hk. unfold category_block, get, ui_lift, ui_bind. cbn [prop]. rewrite Hk.
  cbn -[map_ui slice zero_num num_of_nat]. rewrite zero_num_length, length_map.
  destruct l as [|i l]; [reflexivity |]. cbn -[map_ui slice].
  change (tag_json i :: map tag_json l) with (map tag_json (i :: l)).
  rewrite slice_map, (map_ui_map _ _ badge_view); [reflexivity |].
  intros x _. reflexivity.
Qed.

(** C18: The category section refines the server's categorization: on
    any context the server serializes, [renderAdvancedSceneContext]'s
    category section appends exactly [categories_view] of the context's
    [tags_by_category], the JSON reads, length tests and [slice] of the
    client computing the abstract view of the categorized tags. *)
Theorem categories_section_refines (ctx : SceneContext) (p : Page) :
  categories_section (Some (to_json ctx)) p = append_result (categories_view (tags_by_category ctx)) p.
Proof.
  set (c := tags_by_category ctx). unfold categories_section.
  pose proof (fun key icon label l => category_block_items
                (match categorized_json c with JObj fs => fs | _ => [] end) key icon label l p) as Hb.
  cbn [categorized_json] in Hb.
  cbn -[map_ui category_block categorized_json]. fold c. cbn [map_ui categories].
  unfold categorized_json, ui_bind.
  rewrite (Hb "entities" _ _ (entities c) eq_refl). cbn -[category_block block_view].
  rewrite (Hb "environment" _ _ (environment c) eq_refl). cbn -[category_block block_view].
  rewrite (Hb "attributes" _ _ (attributes c) eq_refl). cbn -[category_block block_view].
  rewrite (Hb "actions" _ _ (actions c) eq_refl). cbn -[category_block block_view].
  rewrite (Hb "concepts" _ _ (concepts c) eq_refl).
  cbn -[block_view]. now rewrite app_nil_r.
Qed.

Lemma color_node_ok (d : DominantOut) (p : Page) :
  do_rgb d <> None -> exists n, color_node (to_json d) p = (p, inr n).
Proof.
  intros H. destruct d as [hex [c|] pct name br]; [| now contradiction H].
  destruct hex; eexists; reflexivity.
Qed.

Lemma color_node_null (d : DominantOut) (p : Page) :
  do_rgb d = None -> color_node (to_json d) p = (p, inl (read_error "null" "r")).
Proof. intros H. destruct d as [hex rgb pct name br]; simpl in H; subst. now destruct hex. Qed.

Lemma colors_section_json (ctx : SceneContext) :
  (forall d, In d (dominant_colors ctx) -> do_rgb d <> None) ->
  Appends (colors_section (Some (to_json ctx))).
Proof.
  intros Hrgb p. unfold colors_section. cbn -[map_ui].
  destruct (Qltb 0 _) eqn:E; cbn -[map_ui].
  - destruct (map_ui_ok color_node (map to_json (dominant_colors ctx)) p) as [ns Hns].
    { intros x Hx. apply in_map_iff in Hx as (d & <- & Hd). now apply color_node_ok, Hrgb. }
    unfold ui_bind. rewrite Hns. eexists. reflexivity.
  - exists []. rewrite app_nil_r. now destruct p.
Qed.

Lemma colors_section_null (ctx : SceneContext) (pre post : list DominantOut) (d : DominantOut) (p : Page) :
  dominant_colors ctx = (pre ++ d :: post)%list ->
  (forall x, In x pre -> do_rgb x <> None) -> do_rgb d = None ->
  colors_section (Some (to_json ctx)) p = (p, inl (read_error "null" "r")).
Proof.
  intros Hdom Hpre Hd. unfold colors_section. cbn -[map_ui positive_num num_of_nat]. rewrite Hdom.
  rewrite positive_num_length, length_map, length_app. simpl Nat.add.
  replace (negb _) with true by (now destruct (length pre)).
  cbn -[map_ui]. change (to_json (pre ++ d :: post)%list) with (JArr (map to_json (pre ++ d :: post))).
  cbn -[map_ui]. rewrite map_app. cbn [map].
  unfold ui_bind. rewrite map_ui_fail with (e := read_error "null" "r"); [reflexivity | |].
  - intros z Hz. apply in_map_iff in Hz as (x & <- & Hx). now apply color_node_ok, Hpre.
  - now apply color_node_null.
Qed.

Lemma scene_section_json (ctx : SceneContext) :
  exists n, forall p, scene_section (Some (to_json ctx)) p = (p, inr n).
Proof. eexists. intros p. reflexivity. Qed.

Lemma objects_section_json (ctx : SceneContext) : Appends (objects_section (Some (to_json ctx))).
Proof.
  intros p. unfold objects_section. cbn -[slice map_ui].
  destruct (Qltb 0 _) eqn:E; cbn -[slice map_ui].
  - destruct (map_ui_ok object_node (slice 5 (map object_json (high_confidence ctx))) p) as [ns Hns].
    { intros x Hx. apply slice_incl, in_map_iff in Hx as (i & <- & _). eexists. reflexivity. }
    unfold ui_bind. rewrite Hns. eexists. reflexivity.
  - exists []. rewrite app_nil_r. now destruct p.
Qed.

Lemma category_block_json (c : Categorized) (cat : string * string * string) (p : Page) :
  In cat categories -> exists ns, category_block (Some (categorized_json c)) cat p = (p, inr ns).
Proof.
  intros Hin. unfold categories in Hin.
  destruct Hin as [<-|[<-|[<-|[<-|[<-|[]]]]]]; unfold category_block; cbn -[slice map_ui zero_num num_of_nat].
  all: destruct (zero_num _); [eexists; reflexivity |]; cbn -[slice map_ui].
  all: match goal with |- context [ui_bind (map_ui tag_badge ?l) _ ?q] =>
      destruct (map_ui_ok tag_badge l q) as [bs Hbs];
      [intros x Hx; apply slice_incl, in_map_iff in Hx as (i & <- & _); eexists; reflexivity |]
    end; rewrite (ui_bind_pure _ _ _ _ Hbs); eexists; reflexivity.
Qed.

Lemma categories_section_json (ctx : SceneContext) : Appends (categories_section (Some (to_json ctx))).
Proof.
  intros p. unfold categories_section. cbn -[map_ui category_block categorized_json].
  destruct (map_ui_ok (category_block (Some (categorized_json (tags_by_category ctx)))) categories p)
    as [bs Hbs]; [intros x Hx; now apply category_block_json |].
  cbn [categorized_json]. rewrite (ui_bind_pure _ _ _ _ Hbs). eexists. reflexivity.
Qed.

Lemma metrics_section_json (ctx : SceneContext) : Appends (metrics_section (Some (to_json ctx))).
Proof. intros p. eexists. reflexivity. Qed.

Lemma confidence_section_json (ctx : SceneContext) : Appends (confidence_section (Some (to_json ctx))).
Proof. intros p. eexists. reflexivity. Qed.

Lemma renderAdvancedSceneContext_json (ctx : SceneContext) :
  (forall d, In d (dominant_colors ctx) -> do_rgb d <> None) ->
  Appends (renderAdvancedSceneContext (Some (to_json ctx))).
Proof.
  intros Hrgb. unfold renderAdvancedSceneContext.
  destruct (scene_section_json ctx) as [n Hn]. intros p. rewrite (ui_bind_pure _ _ _ _ (Hn p)).
  revert p.
  apply appends_seq; [apply appends_append |].
  apply appends_seq; [apply objects_section_json |].
  apply appends_seq; [apply colors_section_json, Hrgb |].
  apply appends_seq; [apply categories_section_json |].
  apply appends_seq; [apply metrics_section_json | apply confidence_section_json].
Qed.

Lemma renderAdvancedSceneContext_null_rgb (ctx : SceneContext) (pre post : list DominantOut) (d : DominantOut) :
  dominant_colors ctx = (pre ++ d :: post)%list ->
  (forall x, In x pre -> do_rgb x <> None) -> do_rgb d = None ->
  AppendsThenThrows (renderAdvancedSceneContext (Some (to_json ctx))) (read_error "null" "r").
Proof.
  intros Hdom Hpre Hd. unfold renderAdvancedSceneContext.
  destruct (scene_section_json ctx) as [n Hn]. intros p. rewrite (ui_bind_pure _ _ _ _ (Hn p)).
  revert p.
  apply throws_seq_r; [apply appends_append |].
  apply throws_seq_r; [apply objects_section_json |].
  apply throws_seq_l, throws_of_pure_fail. intros p. now apply (colors_section_null ctx pre post d).
Qed.

Lemma lookup_result_analysis (a : Analysis) : lookup "result" (match to_json a with JObj fs => fs | _ => [] end) = None.
Proof. destruct a as [[t|] c o]; reflexivity. Qed.

Lemma renderResponse_analyze (src : string) (a : Analysis) (ctx : SceneContext) (p : Page) :
  (forall d, In d (dominant_colors ctx) -> do_rgb d <> None) ->
  exists ns, renderResponse (Some (to_json (AnalyzeOk src a ctx))) p =
    (set_results (ns ++ [tags_title; no_tags]) p, inr tt).
Proof.
  intros Hrgb. unfold renderResponse.
  change (to_json (AnalyzeOk src a ctx)) with
    (JObj [("source", JStr src); ("data", to_json a); ("context", to_json ctx)]).
  destruct (renderAdvancedSceneContext_json ctx Hrgb (set_results [] p)) as [ns Hns].
  exists ns. cbn -[renderAdvancedSceneContext] in Hns.
  destruct a as [[t|] c o]; cbn -[renderAdvancedSceneContext];
    unfold ui_bind at 1; rewrite Hns; cbn;
    unfold append_result, modify; cbn; now rewrite <- app_assoc.
Qed.

Lemma renderResponse_analyze_null (src : string) (a : Analysis) (ctx : SceneContext)
    (pre post : list DominantOut) (d : DominantOut) (p : Page) :
  dominant_colors ctx = (pre ++ d :: post)%list ->
  (forall x, In x pre -> do_rgb x <> None) -> do_rgb d = None ->
  exists ns, renderResponse (Some (to_json (AnalyzeOk src a ctx))) p =
    (set_results ns p, inl (read_error "null" "r")).
Proof.
  intros Hdom Hpre Hd. unfold renderResponse.
  change (to_json (AnalyzeOk src a ctx)) with
    (JObj [("source", JStr src); ("data", to_json a); ("context", to_json ctx)]).
  destruct (renderAdvancedSceneContext_null_rgb ctx pre post d Hdom Hpre Hd (set_results [] p))
    as [ns Hns].
  exists ns. cbn -[renderAdvancedSceneContext] in Hns.
  destruct a as [[t|] c o]; cbn -[renderAdvancedSceneContext];
    unfold ui_bind at 1; rewrite Hns; reflexivity.
Qed.

(** The channels of a dominant color are those of an input color. *)
Lemma dominant_rgb_in (ad : AnalysisData) (d : DominantOut) :
  In d (dominant_colors (generateSceneContext ad)) ->
  exists c, In c (or_nil (a_colors ad)) /\ do_rgb d = hexToRgb (c_hex c).
Proof.
  rewrite dominant_colors_spec. intros Hd. apply in_map_iff in Hd as (c & <- & Hc).
  exists c. split; [| reflexivity].
  apply slice_incl in Hc. eapply Permutation_in; [symmetry; apply sort_by_percentage_perm | exact Hc].
Qed.

(** ** The analysis answer on the page *)

Section AnalyzeFlow.
Context `{U : Upstream}.

Lemma answer_ok_body (env : Env) (req : ImageRequest) (r : Server.Response) :
  snd (api_analyze env req []) = inr r -> res_status r = 200%Z ->
  exists src a, answer_of r = Client.Response true
    (to_json (AnalyzeOk src a (generateSceneContext (to_analysis_data a)))) /\
    answer_colors (res_body r) = or_nil (a_colors (to_analysis_data a)) /\
    res_body r = AnalyzeOk src a (generateSceneContext (to_analysis_data a)).
Proof.
  intros Hr Hs. destruct (api_analyze_ok_shape env req r Hr Hs) as (src & a & Hb).
  exists src, a. unfold answer_of. rewrite Hb, Hs. repeat split; reflexivity.
Qed.

(** C14: Whatever the upstream answers, when [/api/analyze] succeeds and
    its colors parse the page shows the scene sections followed by the
    heading of the raw tag list and 'No se encontraron etiquetas.': the
    client reads the tags at [data.result.tags], where the server's
    [data] is [{tags, colors, objects}], so no tag is ever listed. *)
Theorem analyze_answer_tags_never_listed (env : Env) (req : ImageRequest)
    (r : Server.Response) (p : Page)
  (Hr : snd (api_analyze env req []) = inr r) (Hs : res_status r = 200%Z)
  (Hcolors : forall c, In c (answer_colors (res_body r)) -> hexToRgb (c_hex c) <> None) :
  exists ns, run (analyze_done (answer_of r)) p =
    set_results (ns ++ [tags_title; no_tags])%list (clearStatus p).
Proof.
  destruct (answer_ok_body env req r Hr Hs) as (src & a & -> & Hc & _).
  rewrite Hc in Hcolors.
  destruct (renderResponse_analyze src a (generateSceneContext (to_analysis_data a)) (clearStatus p))
    as [ns Hns].
  { intros d Hd. destruct (dominant_rgb_in _ d Hd) as (c & Hin & ->). now apply Hcolors. }
  exists ns. rewrite analyze_done_ok, Hns. reflexivity.
Qed.

(** C20: When the most dominant color of a successful analysis has a hex
    [hexToRgb] rejects, the client's rendering throws on its [rgb.r] and
    the user is told 'Error de red: Cannot read properties of null
    (reading 'r')', a network error, for an answer that arrived. *)
Theorem analyze_answer_bad_hex_network_error (env : Env) (req : ImageRequest)
    (r : Server.Response) (p : Page) (c : ColorItem)
  (Hr : snd (api_analyze env req []) = inr r) (Hs : res_status r = 200%Z)
  (Hfirst : hd_error (sort_by_percentage (answer_colors (res_body r))) = Some c)
  (Hbad : hexToRgb (c_hex c) = None) :
  status (run (analyze_done (answer_of r)) p) = [PStr "Error de red: "; PStr (read_error "null" "r")] /\
  status_color (run (analyze_done (answer_of r)) p) = "crimson".
Proof.
  destruct (answer_ok_body env req r Hr Hs) as (src & a & -> & Hc & _).
  rewrite Hc in Hfirst.
  set (ctx := generateSceneContext (to_analysis_data a)).
  assert (Hdom : exists post, dominant_colors ctx =
            dominant_out (mkDominant (c_hex c) (hexToRgb (c_hex c)) (pct c)) :: post).
  { unfold ctx. rewrite dominant_colors_spec.
    destruct (sort_by_percentage _) as [|c0 cs]; [discriminate | injection Hfirst as ->].
    eexists. reflexivity. }
  destruct Hdom as [post Hdom].
  destruct (renderResponse_analyze_null src a ctx [] post _ (clearStatus p) Hdom)
    as [ns Hns]; [intros x [] | simpl; exact Hbad |].
  rewrite analyze_done_ok, Hns. split; reflexivity.
Qed.

End AnalyzeFlow.

(** ** The face detection answer on the page *)

(** A body without [faces] shows 'No se detectaron rostros en la imagen.'. *)
Lemma render_no_faces (b : FaceBody) (p : Page) :
  (forall src fs raw, b <> FacesOk src fs raw) ->
  renderFaceDetectionResults (Some (to_json b)) p =
    (set_results [Elem "div" [] [faces_title; no_faces]] p, inr tt).
Proof.
  intros Hb. destruct b as [src fs raw| | e [m|] | | idx [d|] m | | idx fid ms [t|] [d|] | e d];
    try (exfalso; now apply (Hb src fs raw));
    try (destruct d as [?|[?|]]); reflexivity.
Qed.

(** A face serialized by the server has no [id] property. *)
Lemma render_faces_crash (src : string) (f : Face) (fs : list Face) (raw : option Data) (p : Page) :
  renderFaceDetectionResults (Some (to_json (FacesOk src (f :: fs) raw))) p =
    (set_results [] p, inl (read_error "undefined" "substring")).
Proof. destruct f as [[id|]], raw; reflexivity. Qed.

(** C26: No detected face is ever listed: whatever [/api/detect-faces]
    answers, [renderFaceDetectionResults] on its body leaves either
    nothing (the face list throws on [face.id]) or 'No se detectaron
    rostros en la imagen.', so the copy buttons of the face list are never
    created for an answer of this server. *)
Theorem server_faces_never_listed (b : FaceBody) (p : Page) :
  results (fst (renderFaceDetectionResults (Some (to_json b)) p)) = [] \/
  results (fst (renderFaceDetectionResults (Some (to_json b)) p)) = [Elem "div" [] [faces_title; no_faces]].
Proof.
  destruct b as [src [|f fs] raw| | | | | | |];
    try (right; rewrite render_no_faces; [reflexivity | intros ? ? ? Hb; discriminate Hb]).
  - right. destruct raw; reflexivity.
  - left. now rewrite render_faces_crash.
Qed.

Section FaceFlow.
Context `{U : Upstream}.

(** C22: On an uploaded image the client sends the canvas blob and
    renders whatever comes back as a detection: every failed answer of
    [/api/detect-faces] (a 400 'No faces detected', a 500 'Face detection
    failed' for missing credentials or a failed upload) clears the status
    and shows 'No se detectaron rostros en la imagen.'. *)
Theorem detect_blob_failure_shown_as_no_faces (env : Env) (req : ImageRequest)
    (r : FaceResponse) (p : Page)
  (Hr : snd (api_detect_faces env req []) = inr r) (Hs : f_status r <> 200%Z) :
  run (detect_blob_done (face_answer_of r)) p =
    set_results [Elem "div" [] [faces_title; no_faces]] (clearStatus p).
Proof.
  unfold face_answer_of. rewrite detect_blob_done_any, render_no_faces; [reflexivity |].
  intros src fs raw Hb. apply Hs, (api_detect_faces_shape env req r Hr). eauto.
Qed.

(** C21: The client reads [face.id] of each detected face, but the faces
    the server forwards carry their id as [face_id]: every successful
    detection with at least one face, on a URL image, ends with an empty
    results area and 'Error de red: Cannot read properties of undefined
    (reading 'substring')'. *)
Theorem detect_url_faces_crash (env : Env) (req : ImageRequest) (r : FaceResponse) (p : Page)
    (src : string) (f : Face) (fs : list Face) (raw : option Data)
  (Hr : snd (api_detect_faces env req []) = inr r) (Hb : f_body r = FacesOk src (f :: fs) raw) :
  results (run (detect_url_done (face_answer_of r)) p) = [] /\
  status (run (detect_url_done (face_answer_of r)) p) =
    [PStr "Error de red: "; PStr (read_error "undefined" "substring")].
Proof.
  assert (Hs : f_status r = 200%Z) by (apply (api_detect_faces_shape env req r Hr); eauto).
  unfold face_answer_of. rewrite Hs, Hb. cbn [Z.leb Z.ltb Z.compare andb].
  rewrite detect_url_done_ok, render_faces_crash. split; reflexivity.
Qed.

End FaceFlow.

(** ** The recognition answer on the page *)

Lemma match_row_ok (m : MatchOut) (p : Page) : exists n, match_row (to_json m) p = (p, inr n).
Proof. destruct m as [[pid|] c l]; unfold match_row, ui_bind; cbn; eexists; reflexivity. Qed.

Lemma render_recognition_match (i f pid : string) (c : Q) (ms : list MatchOut) (raw : option Data) (p : Page) :
  exists info markup rest,
    renderRecognitionResults (Some (to_json (Recognition i f ms (Some (mkTop (Some pid) c true)) raw))) p =
      (set_results [Elem "div" [] (recognition_title :: HtmlElem "div" [] info ::
         HtmlElem "div" [] (PStr "<div>✅ ¡COINCIDENCIA ENCONTRADA!</div><div>" :: PStr pid :: markup) :: rest)] p,
       inr tt).
Proof.
  destruct (map_ui_ok match_row (slice 5 (map to_json ms)) (set_results [] p)) as [rows Hrows].
  { intros x Hx. apply slice_incl, in_map_iff in Hx as (m & <- & _). apply match_row_ok. }
  unfold renderRecognitionResults.
  destruct raw as [d|], ms as [|m ms]; cbn -[map_ui slice positive_num num_of_nat];
    rewrite positive_num_length; cbn -[map_ui slice]; [do 3 eexists; reflexivity | | do 3 eexists; reflexivity |].
  all: cbn -[map_ui slice] in Hrows; unfold ui_bind; cbn -[map_ui slice]; rewrite Hrows; do 3 eexists; reflexivity.
Qed.

Section RecognitionFlow.
Context `{U : Upstream}.

(** C25: The id of the best match reaches the page as markup: when
    [/api/recognize-face] answers a match, the recognition view writes
    the person id the index stores ([topMatch.personId]) into an
    [innerHTML] template as it is, unescaped, so an id created through
    [/api/create-index] with markup in it is parsed as HTML by every
    client that recognizes that person. *)
Theorem recognition_person_id_unescaped (env : Env) (idx : string) (fid : option string)
    (r : FaceResponse) (p : Page) (i f : string) (ms : list MatchOut) (t : TopMatch)
    (raw : option Data) (pid : string)
  (Hr : snd (api_recognize_face env idx fid []) = inr r)
  (Hb : f_body r = Recognition i f ms (Some t) raw)
  (Hpid : t_personId t = Some pid) (Hm : isMatch t = true) :
  exists info markup rest,
    results (run (recognize_done (face_answer_of r)) p) =
      [Elem "div" [] (recognition_title :: HtmlElem "div" [] info ::
         HtmlElem "div" [] (PStr "<div>✅ ¡COINCIDENCIA ENCONTRADA!</div><div>" :: PStr pid :: markup) :: rest)].
Proof.
  pose proof (api_recognize_face_shape env idx fid r i f ms (Some t) raw Hr Hb) as Hs.
  unfold face_answer_of. rewrite Hs, Hb. cbn [Z.leb Z.ltb Z.compare andb].
  rewrite recognize_done_ok.
  destruct t as [[pid'|] c m]; cbn in Hpid, Hm; [injection Hpid as -> | discriminate]. subst m.
  destruct (render_recognition_match i f pid c ms raw (clearStatus p)) as (info & markup & rest & Hrr).
  rewrite Hrr. now exists info, markup, rest.
Qed.

End RecognitionFlow.

(** ** The recognize request through the router *)

(** The target the client builds, written as the recognize route with a
    [faceId] query. *)
Definition recognize_target (idx fid : string) : string :=
  recognize_prefix ++ idx ++ "?faceId=" ++ fid.

Lemma recognize_target_no_char (c : ascii) (idx fid : string) :
  has_char c recognize_prefix = false -> has_char c "?faceId=" = false ->
  has_char c idx = false -> has_char c fid = false ->
  has_char c (recognize_target idx fid) = false.
Proof. intros H1 H2 Hi Hf. unfold recognize_target. now rewrite !has_char_app, H1, H2, Hi, Hf. Qed.

(** Ids of unreserved characters reach the handler as they were written. *)
Lemma route_recognize_target (idx fid : string) :
  safe_id idx = true -> all_unreserved fid = true ->
  route GET (recognize_target idx fid) = ToRecognize idx (Some (QStr fid)).
Proof.
  unfold safe_id. intros Hi Hf. apply andb_prop in Hi as [Hne Hi].
  rewrite route_no_fragment
    by (apply recognize_target_no_char; [reflexivity | reflexivity | apply unreserved_no_char; auto ..]).
  change (recognize_target idx fid) with (recognize_prefix ++ idx ++ "?" ++ ("faceId=" ++ fid)).
  rewrite route_recognize by (try (intros ->; discriminate); apply unreserved_no_char; auto).
  rewrite pct_decode_notin by (apply unreserved_no_char; auto).
  now rewrite query_get_faceId.
Qed.

(** C27: The recognize request round-trips: when the face id and the index
    id the user types are, once trimmed, non-empty strings of unreserved
    URL characters (and the index id is not a dot segment),
    [recognizeFace] starts a request that Express routes to
    [/api/recognize-face/:indexId] with exactly those two ids. *)
Theorem recognize_request_roundtrip (fi ii : string) (c : Client)
  (Hf : safe_id (trim fi) = true) (Hi : safe_segment (trim ii) = true) :
  exists u, tasks (on_recognize fi ii c) = (tasks c ++ [RecognizeTask u])%list /\
    route GET u = ToRecognize (trim ii) (Some (QStr (trim fi))).
Proof.
  unfold safe_segment in Hi. apply andb_prop in Hi as [Hi _]. apply andb_prop in Hi as [Hi _].
  exists (recognize_url (trim ii) (trim fi)). split.
  - unfold on_recognize. unfold safe_id in Hf, Hi.
    apply andb_prop in Hf as [Hfe _]. apply andb_prop in Hi as [Hie _].
    apply negb_true_iff in Hfe, Hie. now rewrite Hfe, Hie.
  - change (recognize_url (trim ii) (trim fi)) with (recognize_target (trim ii) (trim fi)).
    apply route_recognize_target; [exact Hi |]. unfold safe_id in Hf. now apply andb_prop in Hf as [_ ->].
Qed.

(** C28: The ids are put into the URL unencoded: a face id with an ['&']
    reaches the handler cut at the ['&'] (the rest becomes another
    query parameter), and a face id with a ['#'] is cut at the ['#'] (the
    browser does not send the fragment). *)
Theorem recognize_face_id_cut (idx p s t : string)
  (Hi : safe_id idx = true) (Hp : all_unreserved p = true)
  (Hs : all_unreserved s = true) (Hs' : s <> "faceId") :
  route GET (recognize_url idx (p ++ "&" ++ s)) = ToRecognize idx (Some (QStr p)) /\
  route GET (recognize_url idx (p ++ "#" ++ t)) = ToRecognize idx (Some (QStr p)).
Proof.
  unfold safe_id in Hi. apply andb_prop in Hi as [Hne Hi]. split.
  - change (recognize_url idx (p ++ "&" ++ s)) with (recognize_target idx (p ++ "&" ++ s)).
    rewrite route_no_fragment by (apply recognize_target_no_char; [reflexivity | reflexivity |
      apply unreserved_no_char; auto |];
      rewrite !has_char_app, (unreserved_no_char "#" p Hp eq_refl), (unreserved_no_char "#" s Hs eq_refl);
      reflexivity).
    change (recognize_target idx (p ++ "&" ++ s))
      with (recognize_prefix ++ idx ++ "?" ++ ("faceId=" ++ p ++ "&" ++ s)).
    rewrite route_recognize by (try (intros ->; discriminate); apply unreserved_no_char; auto).
    rewrite pct_decode_notin by (apply unreserved_no_char; auto).
    now rewrite query_get_faceId_amp.
  - replace (recognize_url idx (p ++ "#" ++ t)) with (recognize_target idx p ++ "#" ++ t)%string
      by (unfold recognize_url, recognize_target, recognize_prefix; now rewrite !string_app_assoc).
    rewrite route_fragment
      by (apply recognize_target_no_char; [reflexivity | reflexivity | apply unreserved_no_char; auto ..]).
    apply route_recognize_target; [unfold safe_id; now rewrite Hne, Hi | exact Hp].
Qed.

(** C29: A ['%'] in the index id that does not start a valid escape makes
    Express's router answer 400 ('Failed to decode param') before the
    handler runs, whatever the face id. *)
Theorem recognize_bad_index_escape (idx fid : string)
  (Hne : idx <> "") (Hsl : has_char "/" idx = false) (Hq : has_char "?" idx = false)
  (Hh : has_char "#" idx = false) (Hf : has_char "#" fid = false) (Hbad : pct_decode idx = None) :
  route GET (recognize_url idx fid) = BadParam.
Proof.
  change (recognize_url idx fid) with (recognize_target idx fid).
  rewrite route_no_fragment
    by (apply recognize_target_no_char; [reflexivity | reflexivity | exact Hh | exact Hf]).
  change (recognize_target idx fid) with (recognize_prefix ++ idx ++ "?" ++ ("faceId=" ++ fid)).
  rewrite route_recognize by assumption. now rewrite Hbad.
Qed.

Lemma analyze_answer_tags_never_listed_witness :
  exists ns, run (analyze_done (answer_of (analyze_response "#FF0000"))) initial_page =
    set_results (ns ++ [tags_title; no_tags])%list (clearStatus initial_page).
Proof.
  apply (@analyze_answer_tags_never_listed (hex_upstream "#FF0000") sample_env url_request);
    [reflexivity | reflexivity |].
  intros c Hc. destruct Hc as [<-|[]]. discriminate.
Defined.

Lemma analyze_answer_bad_hex_network_error_witness :
  status (run (analyze_done (answer_of (analyze_response "#fff"))) initial_page) =
    [PStr "Error de red: "; PStr (read_error "null" "r")] /\
  status_color (run (analyze_done (answer_of (analyze_response "#fff"))) initial_page) = "crimson".
Proof.
  apply (@analyze_answer_bad_hex_network_error (hex_upstream "#fff") sample_env url_request _ _
           (mkColor (Some "#fff") (Some 60))); reflexivity.
Defined.

Lemma detect_blob_failure_shown_as_no_faces_witness :
  run (detect_blob_done (face_answer_of (detect_response down_upstream blob_request))) initial_page =
    set_results [Elem "div" [] [faces_title; no_faces]] (clearStatus initial_page).
Proof.
  apply (@detect_blob_failure_shown_as_no_faces down_upstream sample_env blob_request); [reflexivity | discriminate].
Defined.

Lemma detect_url_faces_crash_witness :
  results (run (detect_url_done (face_answer_of (detect_response faces_upstream url_request))) initial_page) = [] /\
  status (run (detect_url_done (face_answer_of (detect_response faces_upstream url_request))) initial_page) =
    [PStr "Error de red: "; PStr (read_error "undefined" "substring")].
Proof.
  apply (@detect_url_faces_crash faces_upstream sample_env url_request _ _ "url" (mkFace (Some "f0a1")) []
           (Some (mkData None None None (Some [mkFace (Some "f0a1")]) None None))); reflexivity.
Defined.

Lemma recognition_person_id_unescaped_witness :
  exists info markup rest,
    results (run (recognize_done (face_answer_of
      (response_or (snd (@api_recognize_face people_upstream sample_env "celebs" (Some "f0a1") []))
                   (mkFaceResponse 0 MissingFaceId)))) initial_page) =
      [Elem "div" [] (recognition_title :: HtmlElem "div" [] info ::
         HtmlElem "div" [] (PStr "<div>✅ ¡COINCIDENCIA ENCONTRADA!</div><div>" :: PStr markup_id :: markup) :: rest)].
Proof.
  apply (@recognition_person_id_unescaped people_upstream sample_env "celebs" (Some "f0a1") _ _ "celebs" "f0a1"
           [mkMatch (Some markup_id) (to_fixed2 95) ALTO] (mkTop (Some markup_id) (to_fixed2 95) true)
           (Some (mkData None None None None (Some [mkPerson (Some markup_id) (Some 95)]) None)));
    reflexivity.
Defined.

Lemma recognize_request_roundtrip_witness :
  exists u, tasks (on_recognize " f0a1b2 " "celebs" initial) = (tasks initial ++ [RecognizeTask u])%list /\
    route GET u = ToRecognize (trim "celebs") (Some (QStr (trim " f0a1b2 "))).
Proof. apply recognize_request_roundtrip; reflexivity. Defined.

Lemma recognize_face_id_cut_witness :
  route GET (recognize_url "celebs" ("f0a1" ++ "&" ++ "b2")) = ToRecognize "celebs" (Some (QStr "f0a1")) /\
  route GET (recognize_url "celebs" ("f0a1" ++ "#" ++ "b2")) = ToRecognize "celebs" (Some (QStr "f0a1")).
Proof. apply recognize_face_id_cut; [reflexivity | reflexivity | reflexivity | discriminate]. Defined.

Lemma recognize_bad_index_escape_witness :
  route GET (recognize_url "50%" "f0a1") = BadParam.
Proof. apply recognize_bad_index_escape; first [discriminate | reflexivity]. Defined.

End Flow.
